(** * python-plotgui: acquisition and retention core of [plotGUI_offline.py]

    A shallow embedding of the serial line parser ([parseSerialData]), the
    log compaction ([cleanFileData], [validateFileData]), the button
    registry update ([handleButtonData]), the plot window ([handlePlotData])
    and one iteration of the acquisition loop ([writeFileData]), with the
    properties the specification states about them; then of the commands
    sent to the device ([writeButtonStates]), the callbacks of the
    dashboard on the buttons and the displays, the start of the writer, a
    cycle of [handleClean] and the reading of [config.txt], with further
    properties read off the code.

    Conventions of the embedding.
    - Text is a [string]: a Python [str] restricted to the code points
      0..255.  [bytes.decode("utf-8")] is not re-implemented: a line read
      from the serial port is either undecodable or its decoded text.
    - The module-level globals live in one record, [world]; code that
      mutates them is written in a state-and-exception monad [M].
    - [int(time.time())] is an argument of the function that reads the
      clock (one reading per call).
    - A [datetime] is represented by its epoch second, so that
      [int(datetime.fromtimestamp(t).timestamp())] is [t] where the
      conversion returns.  [datetime.fromtimestamp] is the conversion as
      CPython computes it on Linux with a 64-bit [time_t] in the time zone
      UTC: it returns for the seconds of 0001-01-02T00:00:00 to
      9999-12-31T23:59:59 and raises outside.
    - Unconditional progress messages ([print("Cleaning ...")]) are not
      recorded; the console keeps the data-dependent notices.
    - The threads are not run against each other: a round of the loop, a
      compaction and a callback are run one after the other.  The flags
      the threads and the callbacks share and the texts written to the
      serial port are kept beside the globals, in [runtime].  The failures
      of the serial device (the [except] branch of [writeFileData] that
      reconnects) are not part of the embedding. *)

From Stdlib Require Import ZArith NArith String Ascii List Bool Lia.
From Stdlib Require Import Floats.SpecFloat Numbers.DecimalString Numbers.DecimalPos.
From stdpp Require Import base option list sorting gmap strings.

Open Scope Z_scope.

(** ** Characters and text *)

Module Text.

Definition LF : ascii := "010"%char.
Definition CR : ascii := "013"%char.
Definition SPACE : ascii := " "%char.
Definition COMMA : ascii := ","%char.
Definition UNDERSCORE : ascii := "_"%char.

Definition between (lo hi : N) (c : ascii) : bool :=
  let n := N_of_ascii c in ((lo <=? n) && (n <=? hi))%N.

(** [str.isspace] on one code point below 256: TAB..CR, FS..US, SPACE,
    NEL (0x85) and NBSP (0xA0). *)
Definition isspace (c : ascii) : bool :=
  between 9 13 c || between 28 32 c || between 133 133 c || between 160 160 c.

(** The white space [int()] and [float()] skip at both ends of a [str]:
    C [Py_ISSPACE] after the non-ASCII spaces were turned into blanks. *)
Definition is_num_space (c : ascii) : bool :=
  between 9 13 c || between 32 32 c || between 133 133 c || between 160 160 c.

Definition isdigit (c : ascii) : bool := between 48 57 c.

Definition digit_value (c : ascii) : N := (N_of_ascii c - 48)%N.

Definition lower (c : ascii) : ascii :=
  if between 65 90 c then ascii_of_N (N_of_ascii c + 32) else c.

(** [s.rstrip()] *)
Fixpoint rstrip (s : string) : string :=
  match s with
  | EmptyString => EmptyString
  | String c s' =>
      match rstrip s' with
      | EmptyString => if isspace c then EmptyString else String c EmptyString
      | r => String c r
      end
  end.

(** [s.replace(old, "")] for a one-character [old] *)
Fixpoint remove (old : ascii) (s : string) : string :=
  match s with
  | EmptyString => EmptyString
  | String c s' => if Ascii.eqb c old then remove old s' else String c (remove old s')
  end.

(** [s.split(sep)] for a one-character [sep]: never empty *)
Fixpoint split (sep : ascii) (s : string) : list string :=
  match s with
  | EmptyString => [EmptyString]
  | String c s' =>
      if Ascii.eqb c sep then EmptyString :: split sep s'
      else match split sep s' with
           | f :: fs => String c f :: fs
           | [] => [String c EmptyString]
           end
  end.

(** [sep.join(l)] *)
Fixpoint join (sep : ascii) (l : list string) : string :=
  match l with
  | [] => EmptyString
  | [f] => f
  | f :: fs => f +:+ String sep (join sep fs)
  end.

(** [s.startswith(("0", "1", ..., "9"))] *)
Definition startswith_digit (s : string) : bool :=
  match s with
  | EmptyString => false
  | String c _ => isdigit c
  end.

(** [for line in f] on a text file opened with universal newlines: the text
    is cut after each line end ("\n", "\r" or "\r\n"), which is handed over
    as "\n"; a last line without line end is handed over as it is. *)
Fixpoint file_lines (text : string) : list string :=
  match text with
  | EmptyString => []
  | String c rest =>
      if Ascii.eqb c LF then String LF EmptyString :: file_lines rest
      else if Ascii.eqb c CR then
        match rest with
        | String c' rest' =>
            if Ascii.eqb c' LF then String LF EmptyString :: file_lines rest'
            else String LF EmptyString :: file_lines rest
        | EmptyString => [String LF EmptyString]
        end
      else match file_lines rest with
           | l :: ls => String c l :: ls
           | [] => [String c EmptyString]
           end
  end.

(** [str(n)] for an [int] *)
Definition str_of_int (n : Z) : string := NilZero.string_of_int (Z.to_int n).

End Text.

(** ** Python values, exceptions and numeric conversions *)

Module Py.
Import Text.

Inductive exn : Set :=
  | ValueError | OverflowError | IndexError | KeyError | FileNotFoundError | OSError.

Inductive result (A : Type) : Type :=
  | Ok (a : A)
  | Raise (e : exn).
Arguments Ok {A} a.
Arguments Raise {A} e.

(** A [float] is an IEEE binary64 value. *)
Abbreviation pyfloat := spec_float.
Definition round64 (neg : bool) (m : positive) (e : Z) : pyfloat :=
  binary_round 53 1024 neg m e.

(** The objects a field of a log line holds while [validateFileData]
    rewrites it in place. *)
Inductive pyval : Type :=
  | PStr (s : string)
  | PFloat (x : pyfloat)
  | PInt (n : Z).

Fixpoint lstrip_num (s : string) : string :=
  match s with
  | String c s' => if is_num_space c then lstrip_num s' else s
  | EmptyString => EmptyString
  end.

Fixpoint rstrip_num (s : string) : string :=
  match s with
  | EmptyString => EmptyString
  | String c s' =>
      match rstrip_num s' with
      | EmptyString => if is_num_space c then EmptyString else String c EmptyString
      | r => String c r
      end
  end.

(** Underscores in a numeric literal: each one stands between two digits
    and is dropped ([_Py_string_to_number_with_underscores]); [prev] is the
    character before [s]. *)
Fixpoint drop_underscores (prev : ascii) (s : string) : option string :=
  match s with
  | EmptyString => if Ascii.eqb prev UNDERSCORE then None else Some EmptyString
  | String c s' =>
      if Ascii.eqb c UNDERSCORE then
        if isdigit prev then drop_underscores c s' else None
      else if Ascii.eqb prev UNDERSCORE && negb (isdigit c) then None
      else String c <$> drop_underscores c s'
  end.

(** The longest run of digits at the head of [s]: its value continuing
    [acc], the number of digits read, and what follows. *)
Fixpoint take_digits (acc : N) (cnt : nat) (s : string) : N * nat * string :=
  match s with
  | String c s' =>
      if isdigit c then take_digits (10 * acc + digit_value c)%N (S cnt) s'
      else (acc, cnt, s)
  | EmptyString => (acc, cnt, s)
  end.

Definition take_sign (s : string) : bool * string :=
  match s with
  | String "-" s' => (true, s')
  | String "+" s' => (false, s')
  | _ => (false, s)
  end.

(** [int(s)] for a [str], base 10: white space at both ends, an optional
    sign, digits with single underscores between them.  (The limit on the
    number of digits of recent interpreters is not modelled.) *)
Definition int_of_str (s : string) : result Z :=
  match drop_underscores "000"%char s with
  | None => Raise ValueError
  | Some s1 =>
      let '(neg, s2) := take_sign (rstrip_num (lstrip_num s1)) in
      match take_digits 0 0 s2 with
      | (n, S _, EmptyString) => Ok (if neg then - Z.of_N n else Z.of_N n)
      | _ => Raise ValueError
      end
  end.

(** The binary64 nearest to [d * 10^e] ([d > 0]), ties to even; beyond the
    range the result is an infinity.  For a negative [e] the quotient is
    taken with 1080 fractional bits and one sticky bit, which is finer than
    half a unit in the last place of every binary64. *)
Definition decimal_to_float (neg : bool) (d : N) (e : Z) : pyfloat :=
  match d with
  | N0 => S754_zero neg
  | Npos p =>
      if 0 <=? e then round64 neg (p * Z.to_pos (10 ^ e)) 0
      else
        let num := Z.pos p * 2 ^ 1080 in
        let den := 10 ^ (- e) in
        let sticky := if num mod den =? 0 then 0 else 1 in
        match 2 * (num / den) + sticky with
        | Z.pos m => round64 neg m (-1081)
        | _ => S754_zero neg
        end
  end.

(** Optional exponent part at the end of a float literal. *)
Definition exponent_part (s : string) : option Z :=
  match s with
  | EmptyString => Some 0
  | String c s' =>
      if Ascii.eqb (lower c) "e"%char then
        let '(neg, s'') := take_sign s' in
        match take_digits 0 0 s'' with
        | (n, S _, EmptyString) => Some (if neg then - Z.of_N n else Z.of_N n)
        | _ => None
        end
      else None
  end.

Definition lower_string (s : string) : string :=
  string_of_list_ascii (List.map lower (list_ascii_of_string s)).

(** [float(s)] for a [str]: white space at both ends, an optional sign,
    then "inf", "infinity" or "nan" in any case, or digits with an optional
    point and an optional exponent; a value beyond the range is an
    infinity, not an error. *)
Definition float_of_str (s : string) : result pyfloat :=
  match drop_underscores "000"%char s with
  | None => Raise ValueError
  | Some s1 =>
      let '(neg, s2) := take_sign (rstrip_num (lstrip_num s1)) in
      let word := lower_string s2 in
      if String.eqb word "inf" || String.eqb word "infinity" then Ok (S754_infinity neg)
      else if String.eqb word "nan" then Ok S754_nan
      else
        let '(ip, icnt, s3) := take_digits 0 0 s2 in
        let '(m, fcnt, s4) :=
          match s3 with
          | String "." s3' => take_digits ip 0 s3'
          | _ => (ip, O, s3)
          end in
        match (icnt + fcnt)%nat, exponent_part s4 with
        | S _, Some e => Ok (decimal_to_float neg m (e - Z.of_nat fcnt))
        | _, _ => Raise ValueError
        end
  end.

(** [int(x)] for a [float]: truncation; an infinity or a nan raises. *)
Definition int_of_float (x : pyfloat) : result Z :=
  match x with
  | S754_zero _ => Ok 0
  | S754_infinity _ => Raise OverflowError
  | S754_nan => Raise ValueError
  | S754_finite neg m e =>
      let a := if 0 <=? e then Z.pos m * 2 ^ e else Z.pos m / 2 ^ (- e) in
      Ok (if neg then - a else a)
  end.

(** [float(n)] for an [int] *)
Definition float_of_int (n : Z) : result pyfloat :=
  match binary_normalize 53 1024 n 0 false with
  | S754_infinity _ => Raise OverflowError
  | x => Ok x
  end.

(** The builtins [float(v)] and [int(v)] *)
Definition py_float (v : pyval) : result pyval :=
  match v with
  | PStr s => match float_of_str s with Ok x => Ok (PFloat x) | Raise e => Raise e end
  | PFloat x => Ok (PFloat x)
  | PInt n => match float_of_int n with Ok x => Ok (PFloat x) | Raise e => Raise e end
  end.

Definition py_int (v : pyval) : result pyval :=
  match v with
  | PStr s => match int_of_str s with Ok n => Ok (PInt n) | Raise e => Raise e end
  | PFloat x => match int_of_float x with Ok n => Ok (PInt n) | Raise e => Raise e end
  | PInt n => Ok (PInt n)
  end.

Definition is_finite (x : pyfloat) : bool :=
  match x with
  | S754_zero _ | S754_finite _ _ _ => true
  | _ => false
  end.

(** [datetime.datetime.fromtimestamp(n)] for an [int], the result being
    represented by its epoch second.  The argument has to fit [time_t]
    (OverflowError), [localtime] has to return a year that fits a C [int]
    (OSError), and the years of the second and of the second a day
    earlier, which is looked at to detect a repeated hour, have to lie in
    1..9999 (ValueError). *)
Definition fromtimestamp (n : Z) : result Z :=
  if (n <? - 2 ^ 63) || (2 ^ 63 - 1 <? n) then Raise OverflowError
  else if (n <? -67768040609740800) || (67768036191676799 <? n) then Raise OSError
  else if (n <? -62135510400) || (253402300799 <? n) then Raise ValueError
  else Ok n.

End Py.

Import Text Py.
Open Scope string_scope.
Open Scope list_scope.
Open Scope Z_scope.

(** ** The globals and the monad of the program *)

(** What [serialReadWrite.readline()] hands over: bytes that
    [decode("utf-8")] rejects, or the decoded text of one line. *)
Inductive raw_line : Type :=
  | Undecodable
  | Decoded (text : string).

(** What the program prints. *)
Inductive notice : Type :=
  | Say (text : string)
  | DecodeFailed                      (* "Error decoding data: ... Retrying..." *)
  | ResetPressed                      (* "Reset button pressed -- waiting for reboot..." *)
  | InvalidFormat (data : list string) (* "Received invalid data format: ... Retrying..." *)
  | RemovingInvalid (data : list pyval) (* "Removing invalid data from file: ..." *)
  | SkippingEntry (data : list string). (* "Error parsing data from file: ... Skipping data entry" *)

(** [plotData = [[], [], [], []]]: four lists read side by side. *)
Record plot : Type := {
  times : list Z;          (* plotData[0], a datetime per entry *)
  temps : list pyfloat;    (* plotData[1] *)
  phs : list pyfloat;      (* plotData[2] *)
  oxygens : list pyfloat   (* plotData[3] *)
}.

Record world : Type := {
  files : gmap string string;          (* the directory [path]: name to text *)
  serial : list raw_line;              (* lines waiting on the serial port *)
  plotData : plot;
  currentValues : gmap string pyval;
  buttonStates : gmap string string;
  console : list notice
}.

Definition set_files (f : gmap string string) (w : world) : world :=
  {| files := f; serial := serial w; plotData := plotData w;
     currentValues := currentValues w; buttonStates := buttonStates w;
     console := console w |}.
Definition set_serial (s : list raw_line) (w : world) : world :=
  {| files := files w; serial := s; plotData := plotData w;
     currentValues := currentValues w; buttonStates := buttonStates w;
     console := console w |}.
Definition set_plotData (p : plot) (w : world) : world :=
  {| files := files w; serial := serial w; plotData := p;
     currentValues := currentValues w; buttonStates := buttonStates w;
     console := console w |}.
Definition set_currentValues (c : gmap string pyval) (w : world) : world :=
  {| files := files w; serial := serial w; plotData := plotData w;
     currentValues := c; buttonStates := buttonStates w;
     console := console w |}.
Definition set_buttonStates (b : gmap string string) (w : world) : world :=
  {| files := files w; serial := serial w; plotData := plotData w;
     currentValues := currentValues w; buttonStates := b;
     console := console w |}.
Definition set_console (c : list notice) (w : world) : world :=
  {| files := files w; serial := serial w; plotData := plotData w;
     currentValues := currentValues w; buttonStates := buttonStates w;
     console := c |}.

(** A computation returns or raises, and leaves the globals as they were
    at that moment. *)
Definition M (A : Type) : Type := world -> result A * world.

Definition ret {A} (a : A) : M A := fun w => (Ok a, w).
Definition bind {A B} (c : M A) (k : A -> M B) : M B :=
  fun w => match c w with
           | (Ok a, w') => k a w'
           | (Raise e, w') => (Raise e, w')
           end.
Definition raise {A} (e : exn) : M A := fun w => (Raise e, w).

#[global] Instance M_ret : MRet M := @ret.
#[global] Instance M_bind : MBind M := fun A B k c => bind c k.

(** [try: body except: handler] with a bare [except] *)
Definition try_except {A} (body handler : M A) : M A :=
  fun w => match body w with
           | (Ok a, w') => (Ok a, w')
           | (Raise _, w') => handler w'
           end.

Definition gets {A} (f : world -> A) : M A := fun w => (Ok (f w), w).
Definition modify (f : world -> world) : M unit := fun w => (Ok tt, f w).
Definition lift {A} (r : result A) : M A := fun w => (r, w).

Definition print (n : notice) : M unit :=
  modify (fun w => set_console (console w ++ [n]) w).

(** [l[i]] *)
Definition item {A} (l : list A) (i : nat) : M A :=
  match l !! i with
  | Some x => ret x
  | None => raise IndexError
  end.

(** [for x in l: body(x)] *)
Fixpoint for_each {A} (l : list A) (body : A -> M unit) : M unit :=
  match l with
  | [] => ret tt
  | x :: l' => body x ;; for_each l' body
  end.

(** [if data:] for an argument that is [None] or a list *)
Definition truthy {A} (data : option (list A)) : bool :=
  match data with
  | Some (_ :: _) => true
  | _ => false
  end.

Definition the_list {A} (data : option (list A)) : list A := default [] data.

(** *** Files of the directory [path] *)

Definition data_csv : string := "data.csv".
Definition temp_csv : string := "temp.csv".

(** [open(name, "r")] and reading it *)
Definition read_file (name : string) : M string :=
  f ← gets files;
  match f !! name with
  | Some text => ret text
  | None => raise FileNotFoundError
  end.

(** [open(name, "w")] *)
Definition create_file (name : string) : M unit :=
  modify (fun w => set_files (<[name := ""]> (files w)) w).

(** [f.write(text)] on a file opened with "w" or "a" ("a" creates it) *)
Definition write_file (name text : string) : M unit :=
  modify (fun w => set_files (<[name := default "" (files w !! name) +:+ text]> (files w)) w).

(** [os.replace(src, dst)] *)
Definition replace_file (src dst : string) : M unit :=
  text ← read_file src;
  modify (fun w => set_files (<[dst := text]> (delete src (files w))) w).

(** ** The program *)

Definition NL : string := String LF "".

(** *** [parseSerialData] (lines 190-215) *)

(** What the body of [parseSerialData] does with one line it read. *)
Inductive frame : Type :=
  | Record_ (data : list string)     (* [return data] *)
  | BadEncoding                      (* decode failed: retry *)
  | ResetSignal                            (* "ResetButtonPressed": retry *)
  | Malformed (data : list string)   (* digit first, [len(data) != 8]: retry *)
  | Unrecognized.                    (* falls through: [None] *)

Definition decode (r : raw_line) : frame :=
  match r with
  | Undecodable => BadEncoding
  | Decoded text =>
      let data := split COMMA (remove SPACE (rstrip text)) in
      let d0 := List.hd "" data in
      if String.eqb d0 "ResetButtonPressed" then ResetSignal
      else if startswith_digit d0 then
        if negb (length data =? 8)%nat then Malformed data else Record_ data
      else Unrecognized
  end.

(** The recursion of [parseSerialData] over the waiting lines: the value
    returned, the lines left, and what was printed.  No waiting line
    ([in_waiting == 0]) gives [None]. *)
Fixpoint parse_pending (pending : list raw_line)
  : option (list string) * list raw_line * list notice :=
  match pending with
  | [] => (None, [], [])
  | r :: rest =>
      let retry n := let '(d, p, ns) := parse_pending rest in (d, p, n :: ns) in
      match decode r with
      | Record_ data => (Some data, rest, [])
      | BadEncoding => retry DecodeFailed
      | ResetSignal => retry ResetPressed
      | Malformed data => retry (InvalidFormat data)
      | Unrecognized => (None, rest, [])
      end
  end.

Definition parseSerialData : M (option (list string)) :=
  fun w => let '(d, p, ns) := parse_pending (serial w) in
           (Ok d, set_console (console w ++ ns) (set_serial p w)).

(** *** [validateFileData] (lines 238-256) *)

(** The loop [for i in range(1, 8)] over the indices still to visit. *)
Fixpoint validate_fields (idx : list nat) (data : list pyval) : M (bool * list pyval) :=
  match idx with
  | [] => ret (true, data)
  | i :: idx' =>
      match (data !! i) ≫= (fun v => match py_float v with Ok x => Some x | Raise _ => None end) with
      | None => print (RemovingInvalid data) ;; ret (false, data)
      | Some x =>
          let data := <[i := x]> data in
          match py_int x with
          | Raise _ => print (RemovingInvalid data) ;; ret (false, data)
          | Ok n => validate_fields idx' (<[i := n]> data)
          end
      end
  end.

Definition validateFileData (data : list pyval) : M (bool * list pyval) :=
  if negb (length data =? 9)%nat then print (RemovingInvalid data) ;; ret (false, data)
  else validate_fields (seq 1 7) data.

(** *** [handleButtonData] (lines 321-352) *)

(** [buttonStates[key]] *)
Definition button (key : string) : M string :=
  b ← gets buttonStates;
  match b !! key with
  | Some v => ret v
  | None => raise KeyError
  end.

(** [buttonStates[key] = v] *)
Definition set_button (key v : string) : M unit :=
  modify (fun w => set_buttonStates (<[key := v]> (buttonStates w)) w).

(** One of the four blocks
    [if buttonStates[key] != data[i]: buttonStates[key] = data[i]; print(...)]. *)
Definition observe (key label : string) (i : nat) (data : list string) : M unit :=
  cur ← button key;
  v ← item data i;
  if negb (String.eqb cur v) then
    set_button key v ;;
    if String.eqb v "1" then print (Say (label +:+ " turned on"))
    else print (Say (label +:+ " turned off"))
  else ret tt.

Definition handleButtonData (data : option (list string)) : M (gmap string string) :=
  (if truthy data then
     let data := the_list data in
     observe "pump" "Pump" 4 data ;;
     observe "aerator" "Aerator" 5 data ;;
     observe "lights" "Lights" 6 data ;;
     observe "plug4" "Plug 4" 7 data
   else ret tt) ;;
  gets buttonStates.

Section Retention.

(** The configured window, in minutes. *)
Variable MAX_DATA_TIME : Z.

(** *** [cleanFileData] (lines 223-236) *)

Definition clean_line (now : Z) (line : string) : M unit :=
  let line := rstrip line in
  let data := split COMMA line in
  d0 ← item data 0;
  t ← lift (int_of_str d0);
  if now - t <? MAX_DATA_TIME * 60 then
    '(valid, _) ← validateFileData (PStr <$> data);
    if valid : bool then write_file temp_csv (line +:+ NL) else ret tt
  else ret tt.

Definition cleanFileData (now : Z) : M unit :=
  input ← read_file data_csv;
  create_file temp_csv ;;
  for_each (file_lines input) (clean_line now) ;;
  replace_file temp_csv data_csv.

(** *** [handlePlotData] (lines 355-388) *)

Definition set_current (key : string) (v : pyval) : M unit :=
  modify (fun w => set_currentValues (<[key := v]> (currentValues w)) w).

(** [plotData[k].append(x)] *)
Definition append_time (t : Z) : M unit :=
  modify (fun w => let p := plotData w in
    set_plotData {| times := times p ++ [t]; temps := temps p;
                    phs := phs p; oxygens := oxygens p |} w).
Definition append_temp (x : pyfloat) : M unit :=
  modify (fun w => let p := plotData w in
    set_plotData {| times := times p; temps := temps p ++ [x];
                    phs := phs p; oxygens := oxygens p |} w).
Definition append_ph (x : pyfloat) : M unit :=
  modify (fun w => let p := plotData w in
    set_plotData {| times := times p; temps := temps p;
                    phs := phs p ++ [x]; oxygens := oxygens p |} w).
Definition append_oxygen (x : pyfloat) : M unit :=
  modify (fun w => let p := plotData w in
    set_plotData {| times := times p; temps := temps p;
                    phs := phs p; oxygens := oxygens p ++ [x] |} w).

(** [plotData[k].pop(0)] *)
Definition pop_time : M unit :=
  p ← gets plotData;
  match times p with
  | [] => raise IndexError
  | _ :: l => modify (set_plotData {| times := l; temps := temps p;
                                      phs := phs p; oxygens := oxygens p |})
  end.
Definition pop_temp : M unit :=
  p ← gets plotData;
  match temps p with
  | [] => raise IndexError
  | _ :: l => modify (set_plotData {| times := times p; temps := l;
                                      phs := phs p; oxygens := oxygens p |})
  end.
Definition pop_ph : M unit :=
  p ← gets plotData;
  match phs p with
  | [] => raise IndexError
  | _ :: l => modify (set_plotData {| times := times p; temps := temps p;
                                      phs := l; oxygens := oxygens p |})
  end.
Definition pop_oxygen : M unit :=
  p ← gets plotData;
  match oxygens p with
  | [] => raise IndexError
  | _ :: l => modify (set_plotData {| times := times p; temps := temps p;
                                      phs := phs p; oxygens := l |})
  end.

(** The loop [for i in range(len(plotData[0]))] with [n] rounds to go. *)
Fixpoint trim (now : Z) (n : nat) : M unit :=
  match n with
  | O => ret tt
  | S n' =>
      p ← gets plotData;
      t ← item (times p) 0;
      if MAX_DATA_TIME * 60 <? now - t then
        pop_time ;; pop_temp ;; pop_ph ;; pop_oxygen ;; trim now n'
      else ret tt
  end.

Definition handlePlotData (now : Z) (data : option (list string)) : M plot :=
  go_on ← (if truthy data then
             let data := the_list data in
             d0 ← item data 0;
             n ← lift (int_of_str d0);
             t ← lift (fromtimestamp n);
             d1 ← item data 1; set_current "temp" (PStr d1) ;;
             d2 ← item data 2; set_current "ph" (PStr d2) ;;
             d3 ← item data 3; set_current "dissolved_oxygen" (PStr d3) ;;
             try_except
               (append_time t ;;
                x1 ← lift (float_of_str d1); append_temp x1 ;;
                x2 ← lift (float_of_str d2); append_ph x2 ;;
                x3 ← lift (float_of_str d3); append_oxygen x3 ;;
                ret true)
               (print (SkippingEntry data) ;; ret false)
           else ret true);
  (if go_on : bool then
     n ← gets (fun w => length (times (plotData w)));
     trim now n
   else ret tt) ;;
  gets plotData.

(** *** [readFileData] (lines 261-268) *)

Definition readFileData (now : Z) : M unit :=
  input ← read_file data_csv;
  for_each (file_lines input)
    (fun line => handlePlotData now (Some (split COMMA (rstrip line))) ;; ret tt).

(** *** [writeFileData] (lines 283-318): one round of the loop that is
    neither stopped nor paused; [stamp] is the clock read at line 310 and
    [now] the clock [handlePlotData] reads. *)

Definition acquire (stamp now : Z) : M unit :=
  received ← parseSerialData;
  if truthy received then
    let data := str_of_int stamp :: the_list received in
    write_file data_csv (join COMMA data +:+ NL) ;;
    handleButtonData (Some data) ;;
    handlePlotData now (Some data) ;;
    ret tt
  else ret tt.

End Retention.

(** ** Notions the statements are about *)

(** A relation between the globals before and after that every step of a
    computation keeps. *)
Definition keeps {A} (R : relation world) (c : M A) : Prop :=
  forall w, R w (c w).2.

(** The part [f] of the globals is left as it was. *)
Definition same {B} (f : world -> B) : relation world :=
  fun w w' => f w' = f w.

(** The line [handleButtonData] prints when an actuator changes to [v]. *)
Definition transition (label v : string) : notice :=
  if String.eqb v "1" then Say (label +:+ " turned on")
  else Say (label +:+ " turned off").

Definition note (label cur v : string) : list notice :=
  if String.eqb cur v then [] else [transition label v].

(** A transition of the actuator was printed among [msgs]. *)
Definition notified (label : string) (msgs : list notice) : Prop :=
  Say (label +:+ " turned on") ∈ msgs \/ Say (label +:+ " turned off") ∈ msgs.

(** Registry key, printed name and index in the stamped record. *)
Definition actuators : list (string * string * nat) :=
  [("pump", "Pump", 4%nat); ("aerator", "Aerator", 5%nat);
   ("lights", "Lights", 6%nat); ("plug4", "Plug 4", 7%nat)].

(** Number of occurrences of a character. *)
Fixpoint count_char (x : ascii) (s : string) : nat :=
  match s with
  | EmptyString => O
  | String c s' => (if Ascii.eqb c x then 1 else 0) + count_char x s'
  end.

(** The globals as the module sets them up (lines 70-88), in a directory
    without files and with nothing waiting on the serial port. *)
Definition empty_plot : plot :=
  {| times := []; temps := []; phs := []; oxygens := [] |}.

Definition initial : world :=
  {| files := ∅; serial := []; plotData := empty_plot;
     currentValues :=
       list_to_map [("temp", PInt 0); ("ph", PInt 0); ("dissolved_oxygen", PInt 0)];
     buttonStates :=
       list_to_map [("pump", "0"); ("aerator", "0"); ("lights", "0");
                    ("plug4", "0"); ("stop", "0")];
     console := [] |}.

(** [float(s)] returns a finite float. *)
Definition finite_floatb (s : string) : bool :=
  match float_of_str s with
  | Ok x => is_finite x
  | Raise _ => false
  end.

Definition finite_float (s : string) : Prop :=
  exists x, float_of_str s = Ok x /\ is_finite x = true.

(** What [validateFileData] decides: nine fields, and a finite float in each
    of the fields 1 to 7. *)
Definition valid_line (fields : list string) : bool :=
  (length fields =? 9)%nat &&
  forallb (fun i => from_option finite_floatb false (fields !! i)) (seq 1 7).

(** Follows the spec's words: nine fields, and each of the eight payload
    fields "an integral numeric value" (it parses as a float, and that
    float is an integer). *)
Definition integral_numeric (s : string) : bool :=
  match float_of_str s with
  | Ok x => match int_of_float x with
            | Ok n => match float_of_int n with
                      | Ok y => SFeqb x y
                      | Raise _ => false
                      end
            | Raise _ => false
            end
  | Raise _ => false
  end.

Definition validation_spec (fields : list string) : bool :=
  (length fields =? 9)%nat && forallb integral_numeric (drop 1 fields).

(** No line end inside. *)
Definition breakfree (s : string) : Prop :=
  count_char LF s = O /\ count_char CR s = O.

(** A line as [cleanFileData] writes it back: no line end inside and no
    white space at its end. *)
Definition plain_line (s : string) : Prop := rstrip s = s /\ breakfree s.

(** The text of a file written line by line, [f.write(l + "\n")]. *)
Definition unlines (ls : list string) : string :=
  foldr (fun l text => l +:+ NL +:+ text) "" ls.

(** Every line the iteration hands over is free of line ends but for the
    one that may close it. *)
Definition handed_line (l : string) : Prop :=
  exists body, breakfree body /\ (l = body \/ l = body +:+ NL).

(** [int(data[0])] on the fields of a line. *)
Definition line_stamp (l : string) : result Z :=
  int_of_str (List.hd "" (split COMMA l)).

Definition stamped (l : string) : Prop := exists t, line_stamp l = Ok t.

Definition stampedb (l : string) : bool :=
  match line_stamp l with Ok _ => true | Raise _ => false end.

(** The test of line 233 on a stripped line whose stamp reads as an
    integer. *)
Definition keep (MAX_DATA_TIME now : Z) (l : string) : bool :=
  match line_stamp l with
  | Ok t => (now - t <? MAX_DATA_TIME * 60) && valid_line (split COMMA l)
  | Raise _ => false
  end.

(** One entry of the window: the four lists of [plotData] read side by
    side. *)
Definition row : Type := Z * pyfloat * pyfloat * pyfloat.

Definition row_time (r : row) : Z := r.1.1.1.

Definition plot_of_rows (rs : list row) : plot :=
  {| times := row_time <$> rs;
     temps := (fun r : row => r.1.1.2) <$> rs;
     phs := (fun r : row => r.1.2) <$> rs;
     oxygens := (fun r : row => r.2) <$> rs |}.

(** [datetime.datetime.fromtimestamp(int(d0))] on the first field of a
    record. *)
Definition stamp_of (d0 : string) : result Z :=
  match int_of_str d0 with
  | Ok n => fromtimestamp n
  | Raise e => Raise e
  end.

(** The entry [handlePlotData] appends for a record: the datetime of
    [int(data[0])] and the floats of [data[1]], [data[2]], [data[3]]. *)
Definition row_of (data : list string) : option row :=
  match data with
  | d0 :: d1 :: d2 :: d3 :: _ =>
      match stamp_of d0, float_of_str d1, float_of_str d2, float_of_str d3 with
      | Ok t, Ok x1, Ok x2, Ok x3 => Some (t, x1, x2, x3)
      | _, _, _, _ => None
      end
  | _ => None
  end.

(** A second [datetime.fromtimestamp] turns into a datetime. *)
Definition representable (t : Z) : Prop := fromtimestamp t = Ok t.

(** The test of line 380. *)
Definition expired (MAX_DATA_TIME now : Z) (r : row) : bool :=
  MAX_DATA_TIME * 60 <? now - row_time r.

(** Entries leave at the head as long as the head is expired. *)
Fixpoint drop_expired (MAX_DATA_TIME now : Z) (rs : list row) : list row :=
  match rs with
  | r :: rs' => if expired MAX_DATA_TIME now r then drop_expired MAX_DATA_TIME now rs' else rs
  | [] => []
  end.

(** Follows the spec's words: "removes from the head while
    [now - head.timestamp >= retentionSeconds]". *)
Fixpoint trimExpired_spec (retentionSeconds now : Z) (rs : list row) : list row :=
  match rs with
  | r :: rs' =>
      if retentionSeconds <=? now - row_time r
      then trimExpired_spec retentionSeconds now rs' else rs
  | [] => []
  end.

(** The calls made on the window: the clock read by the call and its
    argument ([None] for a call that only trims). *)
Definition call : Type := Z * option (list string).

Definition run_calls (MAX_DATA_TIME : Z) (calls : list call) : M unit :=
  for_each calls (fun c => handlePlotData MAX_DATA_TIME c.1 c.2 ;; ret tt).

(** The argument is [None] or a record whose stamp reads as a second that
    [datetime.fromtimestamp] accepts and whose three readings parse. *)
Definition proper_call (c : call) : Prop :=
  match c.2 with
  | None => True
  | Some data => is_Some (row_of data)
  end.

(** The entries appended by the calls, in their order. *)
Definition appended (calls : list call) : list row :=
  omap (fun c : call => c.2 ≫= row_of) calls.

Definition ascending (rs : list row) : Prop :=
  StronglySorted (fun r1 r2 => row_time r1 <= row_time r2) rs.

Fixpoint all_chars (p : ascii -> bool) (s : string) : bool :=
  match s with
  | EmptyString => true
  | String c s' => p c && all_chars p s'
  end.

(** The characters of [str(n)]: digits after an optional minus sign. *)
Definition numeral_char (c : ascii) : bool := isdigit c || Ascii.eqb c "-".

(** A text that ends with a line end, or is empty. *)
Definition terminated (text : string) : Prop :=
  text = "" \/ exists t, text = t +:+ NL.

(** The three readings [handlePlotData] turns into floats. *)
Definition readings_of (payload : list string) : option (pyfloat * pyfloat * pyfloat) :=
  match payload with
  | d1 :: d2 :: d3 :: _ =>
      match float_of_str d1, float_of_str d2, float_of_str d3 with
      | Ok x1, Ok x2, Ok x3 => Some (x1, x2, x3)
      | _, _, _ => None
      end
  | _ => None
  end.

(** The entries of the log: what [readFileData] would hand over to the
    window, line by line. *)
Definition log_rows (text : string) : list row :=
  omap (fun l => row_of (split COMMA (rstrip l))) (file_lines text).

(** The text of [data.csv]; no file, no text. *)
Definition log_text (w : world) : string := default "" (files w !! data_csv).

(** Every entry of the window is an entry of the log. *)
Definition cache_in_log (w : world) : Prop :=
  exists rs, plotData w = plot_of_rows rs /\
             forall r, r ∈ rs -> r ∈ log_rows (log_text w).

(** A waiting line that decodes to a record holds no line end and three
    readings that parse as floats. *)
Definition sound_line (r : raw_line) : Prop :=
  forall data, decode r = Record_ data ->
    breakfree (join COMMA data) /\ is_Some (readings_of data).

Definition registry_ready (w : world) : Prop :=
  forall a, a ∈ actuators -> is_Some (buttonStates w !! a.1.1).

(** The state between two rounds of the acquisition loop. *)
Definition steady (w : world) : Prop :=
  cache_in_log w /\ terminated (log_text w) /\ registry_ready w /\
  Forall sound_line (serial w).

(** The globals after each step of one round of [writeFileData]: after
    the read, after the append to the log, after [handleButtonData] and
    after [handlePlotData]. *)
Definition round_points (MAX_DATA_TIME stamp now : Z) (w : world) : list world :=
  let r1 := parseSerialData w in
  match r1.1 with
  | Ok received =>
      if truthy received then
        let data := str_of_int stamp :: the_list received in
        let w2 := (write_file data_csv (join COMMA data +:+ NL) r1.2).2 in
        let w3 := (handleButtonData (Some data) w2).2 in
        let w4 := (handlePlotData MAX_DATA_TIME now (Some data) w3).2 in
        [r1.2; w2; w3; w4]
      else [r1.2]
  | Raise _ => [r1.2]
  end.

(** The rounds of the loop, one per pair of clock readings, and the points
    they pass. *)
Definition run_rounds (MAX_DATA_TIME : Z) (clock : list (Z * Z)) : M unit :=
  for_each clock (fun c => acquire MAX_DATA_TIME c.1 c.2).

Fixpoint run_points (MAX_DATA_TIME : Z) (clock : list (Z * Z)) (w : world) : list world :=
  match clock with
  | [] => []
  | c :: clock' =>
      round_points MAX_DATA_TIME c.1 c.2 w ++
      run_points MAX_DATA_TIME clock' (acquire MAX_DATA_TIME c.1 c.2 w).2
  end.

(** What a round needs to know of the record it received. *)
Definition received_record (data : list string) (x : pyfloat * pyfloat * pyfloat) : Prop :=
  length data = 8%nat /\
  split COMMA (join COMMA data) = data /\
  join COMMA data <> "" /\
  rstrip (join COMMA data) = join COMMA data /\
  breakfree (join COMMA data) /\
  readings_of data = Some x.

(** The initial globals with one record waiting on the serial port. *)
Definition one_record_waiting : world :=
  set_serial [Decoded "23.5,7.1,6.8,1,0,0,0,0"] initial.

(** ** The rest of the program: flags, outgoing commands, dashboard
    callbacks, start of the loops, configuration *)

(** The flags shared by the threads and the callbacks, and what was handed
    to [serialReadWrite.write], beside the globals above. *)
Record runtime : Type := {
  globals : world;
  sent : list string;        (* the texts written to the serial port, in order *)
  threadsPaused : bool;
  stopThreads : bool;
  preventCallback : bool
}.

Definition set_globals (w : world) (a : runtime) : runtime :=
  {| globals := w; sent := sent a; threadsPaused := threadsPaused a;
     stopThreads := stopThreads a; preventCallback := preventCallback a |}.
Definition set_sent (s : list string) (a : runtime) : runtime :=
  {| globals := globals a; sent := s; threadsPaused := threadsPaused a;
     stopThreads := stopThreads a; preventCallback := preventCallback a |}.
Definition set_threadsPaused (p : bool) (a : runtime) : runtime :=
  {| globals := globals a; sent := sent a; threadsPaused := p;
     stopThreads := stopThreads a; preventCallback := preventCallback a |}.
Definition set_stopThreads (p : bool) (a : runtime) : runtime :=
  {| globals := globals a; sent := sent a; threadsPaused := threadsPaused a;
     stopThreads := p; preventCallback := preventCallback a |}.
Definition set_preventCallback (p : bool) (a : runtime) : runtime :=
  {| globals := globals a; sent := sent a; threadsPaused := threadsPaused a;
     stopThreads := stopThreads a; preventCallback := p |}.

(** The program as it starts (lines 70-88). *)
Definition runtime_initial : runtime :=
  {| globals := initial; sent := []; threadsPaused := false;
     stopThreads := false; preventCallback := false |}.

(** Computations over the globals and the flags. *)
Definition Act (A : Type) : Type := runtime -> result A * runtime.

Definition pret {A} (x : A) : Act A := fun a => (Ok x, a).
Definition pbind {A B} (c : Act A) (k : A -> Act B) : Act B :=
  fun a => match c a with
           | (Ok x, a') => k x a'
           | (Raise e, a') => (Raise e, a')
           end.

#[global] Instance Act_ret : MRet Act := @pret.
#[global] Instance Act_bind : MBind Act := fun A B k c => pbind c k.

(** A computation on the globals, run where the flags are. *)
Definition on_globals {A} (c : M A) : Act A :=
  fun a => let '(r, w) := c (globals a) in (r, set_globals w a).

Definition pgets {A} (f : runtime -> A) : Act A := fun a => (Ok (f a), a).
Definition pmodify (f : runtime -> runtime) : Act unit := fun a => (Ok tt, f a).

(** *** [resumeThreads], [pauseThreads] (lines 161-167) *)

Definition resumeThreads : Act unit := pmodify (set_threadsPaused false).
Definition pauseThreads : Act unit := pmodify (set_threadsPaused true).

(** *** [writeButtonStates] (lines 414-426) *)

(** The keys [for button in buttonStates] visits: a [dict] keeps its keys
    in the order of their insertion, which is the order of lines 82-88,
    since no key is added or removed afterwards and an assignment to a key
    that is present keeps its place. *)
Definition button_order : list string :=
  ["pump"; "aerator"; "lights"; "plug4"; "stop"].

Definition button_keys (b : gmap string string) : list string :=
  List.filter (fun k => match b !! k with Some _ => true | None => false end)
              button_order.

(** [s[:-1]] *)
Fixpoint drop_last (s : string) : string :=
  match s with
  | EmptyString => EmptyString
  | String c EmptyString => EmptyString
  | String c s' => String c (drop_last s')
  end.

(** [len(bytes(s, "utf-8"))] for code points below 256 *)
Fixpoint utf8_length (s : string) : nat :=
  match s with
  | EmptyString => O
  | String c s' => (if (N_of_ascii c <? 128)%N then 1 else 2) + utf8_length s'
  end.

(** [serialReadWrite.write(bytes(text, "utf-8"))] *)
Definition serial_write (text : string) : Act nat :=
  pmodify (fun a => set_sent (sent a ++ [text]) a) ;; pret (utf8_length text).

Definition writeButtonStates : Act nat :=
  b ← pgets (fun a => buttonStates (globals a));
  let stateMessage :=
    foldl (fun msg button => msg +:+ (default "" (b !! button) +:+ ","))
          "" (button_keys b) in
  let stateMessage := drop_last stateMessage in
  on_globals (print (Say ("Sending button states to serial: " +:+ stateMessage))) ;;
  let stateMessage := stateMessage +:+ NL in
  serial_write stateMessage.

(** *** The callbacks of [handleDashPlot] on the buttons (lines 485-543) *)

(** A value of the [dcc.Store] "button-states": the text of the registry,
    or the boolean [updateToggleButtons] puts in its place. *)
Inductive flag : Type :=
  | FStr (s : string)
  | FBool (b : bool).

Definition on_off (b : bool) : string := if b then "1" else "0".

Definition updateButtonStates (pump aerator lights plug4 : bool)
    (state : gmap string flag) : Act (gmap string flag) :=
  p ← pgets preventCallback;
  if p : bool then
    pmodify (set_preventCallback false) ;; pret state
  else
    on_globals (set_button "pump" (on_off pump)) ;;
    on_globals (set_button "aerator" (on_off aerator)) ;;
    on_globals (set_button "lights" (on_off lights)) ;;
    on_globals (set_button "plug4" (on_off plug4)) ;;
    writeButtonStates ;;
    b ← pgets (fun a => buttonStates (globals a));
    pret (FStr <$> b).

(** [state[key]] *)
Definition store_item (state : gmap string flag) (key : string) : Act flag :=
  match state !! key with
  | Some v => pret v
  | None => fun a => (Raise KeyError, a)
  end.

Definition updateToggleButtons (n : Z) (state : gmap string flag)
  : Act (flag * flag * flag * flag) :=
  pmodify (set_preventCallback true) ;;
  b ← pgets (fun a => buttonStates (globals a));
  let state :=
    foldl (fun st button =>
             <[button := FBool (String.eqb (default "" (b !! button)) "1")]> st)
          state (button_keys b) in
  pump ← store_item state "pump";
  aerator ← store_item state "aerator";
  lights ← store_item state "lights";
  plug4 ← store_item state "plug4";
  pret (pump, aerator, lights, plug4).

Definition stopButton (n_clicks : Z) : Act Z :=
  on_globals (set_button "stop" "1") ;;
  writeButtonStates ;;
  on_globals (set_button "stop" "0") ;;
  pret 0.

(** *** The callbacks on the displays (lines 551-571) *)

(** [currentValues[key]] *)
Definition current (key : string) : M pyval :=
  c ← gets currentValues;
  match c !! key with
  | Some v => ret v
  | None => raise KeyError
  end.

Definition updateTemperature (n : Z) : M pyval := current "temp".
Definition updatePH (n : Z) : M pyval := current "ph".
Definition updateDissolvedOxygen (n : Z) : M pyval := current "dissolved_oxygen".

(** *** [initializeButtonStates] (lines 121-127) *)

Definition initializeButtonStates : M unit :=
  try_except (parseSerialData ;; ret tt) (ret tt).

(** *** The start of [writeFileData] (lines 278-280) and one turn of its
    loop with the flags (lines 283-318) *)

Definition writeFileData_start (MAX_DATA_TIME now_clean now_read : Z) : M unit :=
  f ← gets files;
  match f !! data_csv with
  | Some _ => cleanFileData MAX_DATA_TIME now_clean ;; readFileData MAX_DATA_TIME now_read
  | None => ret tt
  end.

(** How a turn of a [while True] loop ends. *)
Inductive turn : Type :=
  | Break
  | Continue.

Definition writeFileData_turn (MAX_DATA_TIME stamp now : Z) : Act turn :=
  stop ← pgets stopThreads;
  if stop : bool then pret Break
  else
    paused ← pgets threadsPaused;
    if paused : bool then pret Continue
    else on_globals (acquire MAX_DATA_TIME stamp now) ;; pret Continue.

(** *** [handleClean] (lines 395-408): the three statements after the
    wait *)

Definition handleClean_cycle (MAX_DATA_TIME now : Z) : Act unit :=
  pmodify (set_threadsPaused true) ;;
  on_globals (cleanFileData MAX_DATA_TIME now) ;;
  pmodify (set_threadsPaused false).

(** *** The configuration (lines 17-67) *)

Definition config_txt : string := "config.txt".

(** The four variables of the configuration; [None] is Python's [None]. *)
Record config : Type := {
  cfg_SCAN_COM_PORTS : option bool;
  cfg_MAX_DATA_TIME : option Z;
  cfg_REFRESH_RATE : option Z;
  cfg_COM_PORT : option string
}.

Definition config_unset : config :=
  {| cfg_SCAN_COM_PORTS := None; cfg_MAX_DATA_TIME := None;
     cfg_REFRESH_RATE := None; cfg_COM_PORT := None |}.

Definition with_SCAN_COM_PORTS (v : option bool) (c : config) : config :=
  {| cfg_SCAN_COM_PORTS := v; cfg_MAX_DATA_TIME := cfg_MAX_DATA_TIME c;
     cfg_REFRESH_RATE := cfg_REFRESH_RATE c; cfg_COM_PORT := cfg_COM_PORT c |}.
Definition with_MAX_DATA_TIME (v : option Z) (c : config) : config :=
  {| cfg_SCAN_COM_PORTS := cfg_SCAN_COM_PORTS c; cfg_MAX_DATA_TIME := v;
     cfg_REFRESH_RATE := cfg_REFRESH_RATE c; cfg_COM_PORT := cfg_COM_PORT c |}.
Definition with_REFRESH_RATE (v : option Z) (c : config) : config :=
  {| cfg_SCAN_COM_PORTS := cfg_SCAN_COM_PORTS c; cfg_MAX_DATA_TIME := cfg_MAX_DATA_TIME c;
     cfg_REFRESH_RATE := v; cfg_COM_PORT := cfg_COM_PORT c |}.
Definition with_COM_PORT (v : option string) (c : config) : config :=
  {| cfg_SCAN_COM_PORTS := cfg_SCAN_COM_PORTS c; cfg_MAX_DATA_TIME := cfg_MAX_DATA_TIME c;
     cfg_REFRESH_RATE := cfg_REFRESH_RATE c; cfg_COM_PORT := v |}.

(** [str(v)] for [None], [True], [False] and for [None] or a [str] *)
Definition str_of_flag (v : option bool) : string :=
  match v with
  | None => "None"
  | Some true => "True"
  | Some false => "False"
  end.
Definition str_of_port (v : option string) : string :=
  match v with
  | None => "None"
  | Some s => s
  end.

(** [not SCAN_COM_PORTS] *)
Definition not_scanning (c : config) : bool :=
  match cfg_SCAN_COM_PORTS c with
  | Some true => false
  | _ => true
  end.

Definition EQUALS : ascii := "="%char.
Definition TAB : string := String "009"%char "".

(** The body of the loop over the lines of [config.txt] (lines 30-53). *)
Definition config_line (c : config) (line : string) : M config :=
  let line := rstrip line in
  let data := split EQUALS line in
  d0 ← item data 0;
  if String.eqb d0 "SCAN_COM_PORTS" then
    d1 ← item data 1;
    if String.eqb d1 "True" then ret (with_SCAN_COM_PORTS (Some true) c)
    else ret c
  else if String.eqb d0 "MAX_DATA_TIME" then
    d1 ← item data 1;
    print (Say (TAB +:+ "Setting MAX_DATA_TIME to " +:+ d1 +:+ " minutes")) ;;
    n ← lift (int_of_str d1);
    ret (with_MAX_DATA_TIME (Some n) c)
  else if String.eqb d0 "REFRESH_RATE" then
    d1 ← item data 1;
    print (Say (TAB +:+ "Setting REFRESH_RATE to " +:+ d1 +:+ " second(s)")) ;;
    n ← lift (int_of_str d1);
    ret (with_REFRESH_RATE (Some n) c)
  else if String.eqb d0 "COM_PORT" then
    named ← (if not_scanning c then
               d1 ← item data 1; ret (negb (String.eqb d1 "None"))
             else ret false);
    if named : bool then
      d1 ← item data 1;
      print (Say (TAB +:+ "Setting COM_PORT to " +:+ d1)) ;;
      ret (with_COM_PORT (Some ("COM" +:+ d1)) c)
    else
      print (Say (TAB +:+ "No COM_PORT set and SCAN_COM_PORTS is false. Defaulting COM_PORT to 3")) ;;
      ret (with_COM_PORT (Some "COM3") c)
  else ret c.

(** [for line in f: ...], the variables being carried from line to line *)
Fixpoint config_lines (lines : list string) (c : config) : M config :=
  match lines with
  | [] => ret c
  | line :: lines' => c' ← config_line c line; config_lines lines' c'
  end.

(** The values of a first start (lines 58-60; [COM_PORT] is still [None]). *)
Definition config_default : config :=
  {| cfg_SCAN_COM_PORTS := Some true; cfg_MAX_DATA_TIME := Some 120;
     cfg_REFRESH_RATE := Some 2; cfg_COM_PORT := None |}.

(** Lines 26-66: read [config.txt], or create it with the default values. *)
Definition configure : M config :=
  f ← gets files;
  match f !! config_txt with
  | Some text => config_lines (file_lines text) config_unset
  | None =>
      let c := config_default in
      create_file config_txt ;;
      write_file config_txt ("SCAN_COM_PORTS=" +:+ str_of_flag (cfg_SCAN_COM_PORTS c) +:+ NL) ;;
      write_file config_txt ("MAX_DATA_TIME=" +:+ str_of_int 120 +:+ NL) ;;
      write_file config_txt ("REFRESH_RATE=" +:+ str_of_int 2 +:+ NL) ;;
      write_file config_txt ("COM_PORT=" +:+ str_of_port (cfg_COM_PORT c)) ;;
      ret c
  end.

(** ** Notions the further statements are about *)

(** The registry holds the five keys of lines 82-88 and no other. *)
Definition five_buttons (b : gmap string string) : Prop :=
  forall k, is_Some (b !! k) <-> k ∈ button_order.

(** The states of the buttons in the order of the registry. *)
Definition button_values (b : gmap string string) : list string :=
  (fun k => default "" (b !! k)) <$> button_order.

(** The text handed to the serial port for a registry. *)
Definition command_of (b : gmap string string) : string :=
  join COMMA (button_values b) +:+ NL.

(** The text of a configuration file that names the four variables, a
    line each. *)
Definition config_text (scan : string) (max_data_time refresh_rate : Z)
    (port : string) : string :=
  ("SCAN_COM_PORTS=" +:+ scan +:+ NL) +:+
  ("MAX_DATA_TIME=" +:+ str_of_int max_data_time +:+ NL) +:+
  ("REFRESH_RATE=" +:+ str_of_int refresh_rate +:+ NL) +:+
  ("COM_PORT=" +:+ port).

(** The keys of the registry are the same before and after. *)
Definition same_keys : relation world :=
  fun w w' => forall k, is_Some (buttonStates w' !! k) <-> is_Some (buttonStates w !! k).

(** A value of a setting as it stands after the "=" of its line: not
    empty, no "=", no line end inside and no white space at its end. *)
Definition plain_value (s : string) : Prop :=
  s <> "" /\ count_char EQUALS s = O /\ breakfree s /\ rstrip s = s.

(** What reading a file that names the four variables leaves in them. *)
Definition config_read (scan : string) (max_data_time refresh_rate : Z)
    (port : string) : config :=
  {| cfg_SCAN_COM_PORTS := if String.eqb scan "True" then Some true else None;
     cfg_MAX_DATA_TIME := Some max_data_time;
     cfg_REFRESH_RATE := Some refresh_rate;
     cfg_COM_PORT :=
       Some (if String.eqb scan "True" || String.eqb port "None"
             then "COM3" else "COM" +:+ port) |}.

(** [datetime.datetime.fromtimestamp(int(data[0]))] on the fields of a
    line, and the lines on which it returns. *)
Definition line_date (l : string) : result Z :=
  stamp_of (List.hd "" (split COMMA l)).

Definition dated (l : string) : Prop := exists t, line_date l = Ok t.

(** * Properties *)

(** ** Reasoning about computations *)

Lemma bind_ok {A B} (c : M A) (k : A -> M B) w a w' :
  c w = (Ok a, w') -> (c ≫= k) w = k a w'.
Proof. intros H. unfold mbind, M_bind, bind. by rewrite H. Qed.

Lemma bind_raise {A B} (c : M A) (k : A -> M B) w e w' :
  c w = (Raise e, w') -> (c ≫= k) w = (Raise e, w').
Proof. intros H. unfold mbind, M_bind, bind. by rewrite H. Qed.

#[global] Instance same_preorder {B} (f : world -> B) : PreOrder (same f).
Proof. split; unfold same; [intros w | intros w1 w2 w3]; congruence. Qed.

Section Keeps.
Context (R : relation world) `{!PreOrder R}.

Lemma keeps_ret {A} (a : A) : keeps R (ret a).
Proof. intros w. reflexivity. Qed.

Lemma keeps_raise {A} e : keeps R (@raise A e).
Proof. intros w. reflexivity. Qed.

Lemma keeps_lift {A} (r : result A) : keeps R (lift r).
Proof. intros w. reflexivity. Qed.

Lemma keeps_gets {A} (f : world -> A) : keeps R (gets f).
Proof. intros w. reflexivity. Qed.

Lemma keeps_item {A} (l : list A) i : keeps R (item l i).
Proof. unfold item. destruct (l !! i); [apply keeps_ret | apply keeps_raise]. Qed.

Lemma keeps_bind {A B} (c : M A) (k : A -> M B) :
  keeps R c -> (forall a, keeps R (k a)) -> keeps R (c ≫= k).
Proof.
  intros Hc Hk w. unfold mbind, M_bind, bind.
  specialize (Hc w). destruct (c w) as [[a|e] w']; simpl in *; [|done].
  etrans; [exact Hc | apply Hk].
Qed.

Lemma keeps_try {A} (c h : M A) : keeps R c -> keeps R h -> keeps R (try_except c h).
Proof.
  intros Hc Hh w. unfold try_except.
  specialize (Hc w). destruct (c w) as [[a|e] w']; simpl in *; [done|].
  etrans; [exact Hc | apply Hh].
Qed.

Lemma keeps_modify (f : world -> world) : (forall w, R w (f w)) -> keeps R (modify f).
Proof. intros H w. apply H. Qed.

Lemma keeps_for_each {A} (l : list A) (body : A -> M unit) :
  (forall x, keeps R (body x)) -> keeps R (for_each l body).
Proof.
  intros Hb. induction l as [|x l IH]; simpl; [apply keeps_ret|].
  apply keeps_bind; [apply Hb | intros _; exact IH].
Qed.
End Keeps.

(** One structural step of a [keeps] goal. *)
Ltac keeps_step :=
  lazymatch goal with
  | |- keeps _ (ret _) => apply keeps_ret; try apply _
  | |- keeps _ (raise _) => apply keeps_raise; try apply _
  | |- keeps _ (lift _) => apply keeps_lift; try apply _
  | |- keeps _ (gets _) => apply keeps_gets; try apply _
  | |- keeps _ (item _ _) => apply keeps_item; try apply _
  | |- keeps _ (_ ≫= _) => apply keeps_bind; [try apply _ | | intros ?]
  | |- keeps _ (try_except _ _) => apply keeps_try; [try apply _ | |]
  | |- keeps _ (for_each _ _) => apply keeps_for_each; [try apply _ | intros ?]
  | |- keeps _ (modify _) => apply keeps_modify; intros ?
  | |- keeps _ (print _) => apply keeps_modify; intros ?
  | |- keeps _ (match ?x with _ => _ end) => destruct x
  end.

(** ** The button registry *)

Lemma world_eta w :
  {| files := files w; serial := serial w; plotData := plotData w;
     currentValues := currentValues w; buttonStates := buttonStates w;
     console := console w |} = w.
Proof. by destruct w. Qed.

Lemma observe_spec key label i data w cur v :
  buttonStates w !! key = Some cur ->
  data !! i = Some v ->
  observe key label i data w =
    (Ok tt, set_console (console w ++ note label cur v)
              (set_buttonStates (<[key := v]> (buttonStates w)) w)).
Proof.
  intros Hk Hd. unfold observe, button, item, transition, note.
  unfold mbind, M_bind, bind, gets. rewrite Hk. simpl. rewrite Hd. simpl.
  destruct (String.eqb_spec cur v) as [->|Hne]; simpl.
  - rewrite insert_id by done. rewrite app_nil_r.
    unfold ret, set_console, set_buttonStates. simpl. by rewrite world_eta.
  - unfold set_button, modify, print, modify, transition.
    destruct (String.eqb v "1"); reflexivity.
Qed.

Lemma observe_keeps_other key label i data k :
  k <> key ->
  keeps (same (fun w => buttonStates w !! k)) (observe key label i data).
Proof.
  intros Hne. unfold observe, button, set_button.
  repeat keeps_step; unfold same; simpl; try done.
  by rewrite lookup_insert_ne.
Qed.

Lemma handleButtonData_keeps_other data k :
  k ∉ ["pump"; "aerator"; "lights"; "plug4"] ->
  keeps (same (fun w => buttonStates w !! k)) (handleButtonData data).
Proof.
  intros Hk. rewrite !not_elem_of_cons in Hk. destruct Hk as (H1 & H2 & H3 & H4 & _).
  unfold handleButtonData.
  keeps_step; [|keeps_step].
  destruct (truthy data); [|keeps_step].
  repeat (keeps_step; [by apply observe_keeps_other|]).
  by apply observe_keeps_other.
Qed.

(** C10: whatever the record and the registry, and whether the call returns
    or raises, [handleButtonData] leaves [buttonStates["stop"]] as it was. *)
Theorem handleButtonData_stop_unchanged (data : option (list string)) (w : world) :
  buttonStates (handleButtonData data w).2 !! "stop" = buttonStates w !! "stop".
Proof.
  apply (handleButtonData_keeps_other data "stop").
  rewrite !not_elem_of_cons. repeat split; try done. apply not_elem_of_nil.
Qed.

Lemma notified_note label label' cur v :
  label ∈ ["Pump"; "Aerator"; "Lights"; "Plug 4"] ->
  label' ∈ ["Pump"; "Aerator"; "Lights"; "Plug 4"] ->
  notified label (note label' cur v) <-> label = label' /\ cur <> v.
Proof.
  intros Hl Hl'. unfold notified, note, transition.
  destruct (String.eqb_spec cur v) as [->|Hne].
  { rewrite !elem_of_nil. tauto. }
  rewrite !elem_of_cons, elem_of_nil in Hl, Hl'.
  destruct (String.eqb v "1"); rewrite !list_elem_of_singleton.
  all: destruct Hl as [->|[->|[->|[->|[]]]]]; destruct Hl' as [->|[->|[->|[->|[]]]]].
  all: simpl; split; [intros [H|H]; (discriminate H || (split; [done|congruence])) | intros [H _]; try discriminate H; auto].
Qed.

Lemma notified_app label msgs1 msgs2 :
  notified label (msgs1 ++ msgs2)%list <-> notified label msgs1 \/ notified label msgs2.
Proof. unfold notified. rewrite !elem_of_app. tauto. Qed.

(** The four blocks in a row, on a record that has the fields 4 to 7 and
    a registry that has the four keys. *)
Lemma handleButtonData_run (data : list string) w p0 a0 l0 g0 d4 d5 d6 d7 :
  data !! 4%nat = Some d4 -> data !! 5%nat = Some d5 ->
  data !! 6%nat = Some d6 -> data !! 7%nat = Some d7 ->
  buttonStates w !! "pump" = Some p0 -> buttonStates w !! "aerator" = Some a0 ->
  buttonStates w !! "lights" = Some l0 -> buttonStates w !! "plug4" = Some g0 ->
  let b := <["plug4" := d7]> (<["lights" := d6]> (<["aerator" := d5]>
             (<["pump" := d4]> (buttonStates w)))) in
  handleButtonData (Some data) w =
    (Ok b, set_console (console w ++ (note "Pump" p0 d4 ++ note "Aerator" a0 d5 ++
                                       note "Lights" l0 d6 ++ note "Plug 4" g0 d7))
             (set_buttonStates b w)).
Proof.
  intros H4 H5 H6 H7 Hp Ha Hl Hg b.
  assert (truthy (Some data) = true) as Ht by (by destruct data).
  unfold handleButtonData. rewrite Ht. cbn [the_list default].
  erewrite bind_ok.
  2:{ erewrite bind_ok; [|by eapply observe_spec].
      erewrite bind_ok; [|eapply observe_spec; [simpl; by rewrite lookup_insert_ne|done]].
      erewrite bind_ok; [|eapply observe_spec; [simpl; by rewrite !lookup_insert_ne|done]].
      eapply observe_spec; [simpl; by rewrite !lookup_insert_ne|done]. }
  unfold gets. simpl. by rewrite <- !app_assoc.
Qed.

(** C9: on a stamped record of nine fields and a registry that has the four
    actuator keys, [handleButtonData] returns the registry with each
    actuator set to its field of the record, and prints a transition for an
    actuator exactly when the field differs from the value held before. *)
Theorem handleButtonData_edge_triggered (data : list string) (w : world) :
  length data = 9%nat ->
  (forall a, a ∈ actuators -> is_Some (buttonStates w !! a.1.1)) ->
  exists w' msgs,
    handleButtonData (Some data) w = (Ok (buttonStates w'), w') /\
    console w' = console w ++ msgs /\
    forall a, a ∈ actuators ->
      buttonStates w' !! a.1.1 = data !! a.2 /\
      is_Some (data !! a.2) /\
      (notified a.1.2 msgs <-> buttonStates w !! a.1.1 <> data !! a.2).
Proof.
  intros Hlen Hkeys.
  destruct data as [|s [|s0 [|s1 [|s2 [|s3 [|s4 [|s5 [|s6 [|s7 [|]]]]]]]]]];
    try discriminate Hlen. clear Hlen.
  destruct (Hkeys ("pump", "Pump", 4%nat)) as [p0 Hp]; [set_solver|].
  destruct (Hkeys ("aerator", "Aerator", 5%nat)) as [a0 Ha]; [set_solver|].
  destruct (Hkeys ("lights", "Lights", 6%nat)) as [l0 Hl]; [set_solver|].
  destruct (Hkeys ("plug4", "Plug 4", 7%nat)) as [g0 Hg]; [set_solver|].
  simpl in Hp, Ha, Hl, Hg. clear Hkeys.
  pose proof (handleButtonData_run [s; s0; s1; s2; s3; s4; s5; s6; s7] w p0 a0 l0 g0
                s3 s4 s5 s6 eq_refl eq_refl eq_refl eq_refl Hp Ha Hl Hg) as Hrun.
  cbv zeta in Hrun.
  match type of Hrun with _ = (_, ?W) => exists W end.
  eexists. split; [exact Hrun|]. split; [reflexivity|].
  - intros a Ha'. unfold actuators in Ha'.
    repeat (apply elem_of_cons in Ha' as [->|Ha']); try by apply elem_of_nil in Ha'.
    all: simpl; split; [by simplify_map_eq|split; [by eexists|]].
    all: rewrite !notified_app, !notified_note by set_solver.
    all: rewrite ?Hp, ?Ha, ?Hl, ?Hg; split; [intros H; intuition congruence|].
    all: intros H; repeat (first [left; split; [done|congruence] | right]).
    split; [done|congruence].
Qed.

(** ** Facts about text *)

Lemma split_nonempty sep s : split sep s <> [].
Proof. destruct s as [|c s]; simpl; [done|]. destruct (Ascii.eqb c sep); [done|]. by destruct (split sep s). Qed.

Lemma length_split sep s : length (split sep s) = S (count_char sep s).
Proof.
  induction s as [|c s IH]; simpl; [done|].
  destruct (Ascii.eqb c sep); simpl; [by rewrite IH|].
  pose proof (split_nonempty sep s). destruct (split sep s); [done|]. simpl in *. lia.
Qed.

Lemma count_char_remove x old s :
  x <> old -> count_char x (remove old s) = count_char x s.
Proof.
  intros Hne. induction s as [|c s IH]; simpl; [done|].
  destruct (Ascii.eqb_spec c old) as [->|Hc]; simpl.
  - rewrite IH. destruct (Ascii.eqb_spec old x); [congruence|done].
  - by rewrite IH.
Qed.

Lemma count_char_rstrip x s :
  isspace x = false -> count_char x (rstrip s) = count_char x s.
Proof.
  intros Hx. induction s as [|c s IH]; simpl; [done|].
  destruct (rstrip s) as [|c' r] eqn:Hr.
  - rewrite <- IH. simpl. destruct (isspace c) eqn:Hc; simpl; [|lia].
    destruct (Ascii.eqb_spec c x); [congruence|done].
  - rewrite <- IH. reflexivity.
Qed.

Lemma isdigit_not_space c : isdigit c = true -> isspace c = false.
Proof. destruct c as [[] [] [] [] [] [] [] []]; by vm_compute. Qed.

Lemma isdigit_not_comma c : isdigit c = true -> c <> COMMA.
Proof. destruct c as [[] [] [] [] [] [] [] []]; by vm_compute. Qed.

Lemma isdigit_not_blank c : isdigit c = true -> c <> SPACE.
Proof. destruct c as [[] [] [] [] [] [] [] []]; by vm_compute. Qed.

Lemma isdigit_not_R c : isdigit c = true -> Ascii.eqb c "R" = false.
Proof. destruct c as [[] [] [] [] [] [] [] []]; by vm_compute. Qed.

Lemma rstrip_head c s :
  isspace c = false -> exists r, rstrip (String c s) = String c r.
Proof. intros Hc. simpl. destruct (rstrip s); rewrite ?Hc; eauto. Qed.

Lemma split_head sep c s :
  c <> sep -> exists f fs, split sep (String c s) = String c f :: fs.
Proof.
  intros Hc. simpl. destruct (Ascii.eqb_spec c sep); [done|].
  pose proof (split_nonempty sep s). destruct (split sep s); [done|]. eauto.
Qed.

(** A line whose first field begins with a digit begins with that digit,
    and still does after [rstrip()] and [replace(" ", "")]. *)
Lemma digit_line text :
  startswith_digit (List.hd "" (split COMMA text)) = true ->
  exists c f fs, isdigit c = true /\
    split COMMA (remove SPACE (rstrip text)) = String c f :: fs.
Proof.
  destruct text as [|c s]; [done|]. intros H.
  assert (isdigit c = true) as Hd.
  { simpl in H. destruct (Ascii.eqb c COMMA); [done|].
    pose proof (split_nonempty COMMA s). by destruct (split COMMA s). }
  destruct (rstrip_head c s (isdigit_not_space c Hd)) as [r ->].
  simpl. destruct (Ascii.eqb_spec c SPACE) as [E|_]; [by apply isdigit_not_blank in E|].
  destruct (split_head COMMA c (remove SPACE r) (isdigit_not_comma c Hd)) as (f & fs & ->).
  eauto.
Qed.

Lemma length_cleaned text :
  length (split COMMA (remove SPACE (rstrip text))) = length (split COMMA text).
Proof.
  rewrite !length_split, count_char_remove, count_char_rstrip; done.
Qed.

(** ** The serial line parser *)

(** C6: a line whose first comma-separated field begins with a digit is
    returned as a record exactly when it has eight comma-separated fields;
    with another number of fields it is reported as an invalid format and
    the read is retried on the lines that follow. *)
Theorem parseSerialData_field_count (text : string) (rest : list raw_line) :
  startswith_digit (List.hd "" (split COMMA text)) = true ->
  let data := split COMMA (remove SPACE (rstrip text)) in
  (length (split COMMA text) = 8%nat ->
     decode (Decoded text) = Record_ data /\
     parse_pending (Decoded text :: rest) = (Some data, rest, [])) /\
  (length (split COMMA text) <> 8%nat ->
     decode (Decoded text) = Malformed data /\
     parse_pending (Decoded text :: rest) =
       (let '(d, p, ns) := parse_pending rest in (d, p, InvalidFormat data :: ns))).
Proof.
  intros Hd data.
  destruct (digit_line text Hd) as (c & f & fs & Hc & Hdata).
  assert (decode (Decoded text) =
          if negb (length data =? 8)%nat then Malformed data else Record_ data) as Hdec.
  { unfold decode. fold data. unfold data at 1 2. rewrite Hdata. simpl.
    by rewrite (isdigit_not_R c Hc), Hc. }
  pose proof (length_cleaned text) as Hlen. fold data in Hlen.
  split; intros Hn.
  - assert ((length data =? 8)%nat = true) as E by (apply Nat.eqb_eq; congruence).
    rewrite E in Hdec. split; [done|]. cbn [parse_pending]. by rewrite Hdec.
  - assert ((length data =? 8)%nat = false) as E by (apply Nat.eqb_neq; congruence).
    rewrite E in Hdec. split; [done|]. cbn [parse_pending]. by rewrite Hdec.
Qed.

Lemma parseSerialData_field_count_witness :
  parse_pending [Decoded "23.5,7.1,6.8,1,0,0,0,0"] =
    (Some ["23.5"; "7.1"; "6.8"; "1"; "0"; "0"; "0"; "0"], [], []).
Proof.
  exact (proj2 (proj1 (parseSerialData_field_count "23.5,7.1,6.8,1,0,0,0,0" [] eq_refl)
                 eq_refl)).
Defined.

(** The line of Scenario B has seven fields: no record comes out of it. *)
Lemma scenario_B_rejected :
  ~ (exists data, decode (Decoded "23.5,7.1,6.8,1,0,0,0") = Record_ data) /\
  parse_pending [Decoded "23.5,7.1,6.8,1,0,0,0"] =
    (None, [], [InvalidFormat ["23.5"; "7.1"; "6.8"; "1"; "0"; "0"; "0"]]).
Proof. split; [intros [data H]; vm_compute in H; discriminate H | reflexivity]. Qed.

(** C7 (amended): the seven-field line of Scenario B is reported as an
    invalid format; with the eighth field of the wire format present, the
    line is returned as the record 23.5, 7.1, 6.8, 1, 0, 0, 0, 0, and a round
    of the acquisition loop stores 23.5, 7.1 and 6.8 in the plot window and
    sets pump to "1" and aerator, lights and plug4 to "0". *)
Theorem scenario_B_eight_fields :
  decode (Decoded "23.5,7.1,6.8,1,0,0,0") =
    Malformed ["23.5"; "7.1"; "6.8"; "1"; "0"; "0"; "0"] /\
  decode (Decoded "23.5,7.1,6.8,1,0,0,0,0") =
    Record_ ["23.5"; "7.1"; "6.8"; "1"; "0"; "0"; "0"; "0"] /\
  let w := (acquire 120 1700000000 1700000000
              (set_serial [Decoded "23.5,7.1,6.8,1,0,0,0,0"] initial)).2 in
  plotData w = {| times := [1700000000];
                  temps := [decimal_to_float false 235 (-1)];
                  phs := [decimal_to_float false 71 (-1)];
                  oxygens := [decimal_to_float false 68 (-1)] |} /\
  buttonStates w !! "pump" = Some "1" /\
  buttonStates w !! "aerator" = Some "0" /\
  buttonStates w !! "lights" = Some "0" /\
  buttonStates w !! "plug4" = Some "0".
Proof. by vm_compute. Qed.

(** ** Validation of a log line *)

Lemma finite_floatb_spec s : finite_floatb s = true <-> finite_float s.
Proof.
  unfold finite_floatb, finite_float. destruct (float_of_str s) as [x|e].
  - split; [eauto | by intros (y & [= <-] & H)].
  - split; [done | by intros (y & [=] & _)].
Qed.

Lemma int_of_float_finite x :
  match int_of_float x with Ok _ => is_finite x = true | Raise _ => is_finite x = false end.
Proof. by destruct x. Qed.

Lemma validate_fields_result idx : forall (data : list pyval) (fields : list string) w,
  NoDup idx ->
  (forall i, i ∈ idx -> data !! i = PStr <$> fields !! i) ->
  exists data',
    (validate_fields idx data w).1 =
      Ok (forallb (fun i => from_option finite_floatb false (fields !! i)) idx, data').
Proof.
  induction idx as [|i idx IH]; intros data fields w Hnd Hdata; simpl.
  { by eexists. }
  apply NoDup_cons in Hnd as [Hi Hnd].
  rewrite (Hdata i) by set_solver.
  destruct (fields !! i) as [s|] eqn:Hs; simpl; [|by eexists].
  unfold finite_floatb. destruct (float_of_str s) as [x|e]; simpl; [|by eexists].
  pose proof (int_of_float_finite x) as Hx.
  destruct (int_of_float x) as [n|e]; rewrite Hx; simpl; [|by eexists].
  apply IH; [done|]. intros j Hj.
  rewrite !list_lookup_insert_ne by set_solver. apply Hdata. set_solver.
Qed.

Lemma validateFileData_result (fields : list string) w :
  exists data', (validateFileData (PStr <$> fields) w).1 = Ok (valid_line fields, data').
Proof.
  unfold validateFileData, valid_line. rewrite length_fmap.
  destruct (length fields =? 9)%nat; cbn [negb andb]; [|by eexists].
  apply validate_fields_result; [apply NoDup_seq|].
  intros i _. by rewrite list_lookup_fmap.
Qed.

Lemma valid_line_spec (fields : list string) :
  valid_line fields = true <->
  length fields = 9%nat /\
  forall i s, (1 <= i <= 7)%nat -> fields !! i = Some s -> finite_float s.
Proof.
  unfold valid_line. rewrite andb_true_iff, Nat.eqb_eq, forallb_forall.
  split; intros [Hlen H]; (split; [done|]).
  - intros i s Hi Hs. apply finite_floatb_spec.
    specialize (H i). rewrite Hs in H. apply H, in_seq. lia.
  - intros i Hi%in_seq.
    destruct (fields !! i) as [s|] eqn:Hs; simpl.
    + apply finite_floatb_spec. apply (H i); [lia|done].
    + apply lookup_ge_None in Hs. lia.
Qed.

(** The line of the log that carries the readings of Scenario B passes
    the validation of the code, and not the validation the spec words. *)
Lemma validation_accepts_fractions :
  let line := ["1700000000"; "23.5"; "7.1"; "6.8"; "1"; "0"; "0"; "0"; "0"] in
  (exists data', (validateFileData (PStr <$> line) initial).1 = Ok (true, data')) /\
  validation_spec line = false /\
  integral_numeric "23.5" = false /\
  validation_spec ["1700000000"; "23"; "7"; "6"; "1"; "0"; "0"; "0"; "0"] = true.
Proof. split; [by eexists | by vm_compute]. Qed.

(** C3 (amended): a line that passes [validateFileData] has exactly nine
    fields, and each of its fields 1 to 7 parses as a float with a finite
    value, integral or not; a line of nine fields whose eight payload fields
    all parse as finite floats passes. *)
Theorem validateFileData_finite_floats (fields : list string) (w : world) :
  let passes := exists data', (validateFileData (PStr <$> fields) w).1 = Ok (true, data') in
  (passes ->
     length fields = 9%nat /\
     forall i s, (1 <= i <= 7)%nat -> fields !! i = Some s -> finite_float s) /\
  (length fields = 9%nat ->
   (forall i s, (1 <= i <= 8)%nat -> fields !! i = Some s -> finite_float s) ->
   passes).
Proof.
  intros passes. unfold passes.
  destruct (validateFileData_result fields w) as [data' Hr]. split.
  - intros [data'' H]. rewrite Hr in H. injection H as Hv _.
    by apply valid_line_spec.
  - intros Hlen H. exists data'. rewrite Hr. f_equal. f_equal.
    apply valid_line_spec. split; [done|]. intros i s Hi. apply H. lia.
Qed.

Lemma validateFileData_finite_floats_witness :
  exists data',
    (validateFileData
       (PStr <$> ["1700000000"; "23.5"; "7.1"; "6.8"; "1"; "0"; "0"; "0"; "0"])
       initial).1 = Ok (true, data').
Proof.
  apply (validateFileData_finite_floats
           ["1700000000"; "23.5"; "7.1"; "6.8"; "1"; "0"; "0"; "0"; "0"] initial).
  - reflexivity.
  - intros i s Hi Hs. apply finite_floatb_spec.
    do 9 (destruct i as [|i]; [simpl in Hs; try lia; injection Hs as <-; by vm_compute|]).
    lia.
Defined.

(** ** Lines of a text file *)

Lemma append_nil_l (t : string) : "" +:+ t = t.
Proof. reflexivity. Qed.

Lemma append_cons c (s t : string) : String c s +:+ t = String c (s +:+ t).
Proof. reflexivity. Qed.

Lemma append_assoc (a b c : string) : (a +:+ b) +:+ c = a +:+ (b +:+ c).
Proof. induction a as [|x a IH]; rewrite ?append_nil_l, ?append_cons; [done|by f_equal]. Qed.

Lemma append_empty_r (a : string) : a +:+ "" = a.
Proof. induction a as [|x a IH]; rewrite ?append_nil_l, ?append_cons; [done|by f_equal]. Qed.

Lemma unlines_app ls1 ls2 : unlines (ls1 ++ ls2) = unlines ls1 +:+ unlines ls2.
Proof.
  induction ls1 as [|l ls1 IH]; simpl; [done|].
  by rewrite IH, !append_assoc.
Qed.

Lemma rstrip_idemp s : rstrip (rstrip s) = rstrip s.
Proof.
  induction s as [|c s IH]; simpl; [done|].
  destruct (rstrip s) as [|c' r] eqn:Hr.
  - destruct (isspace c) eqn:Hc; simpl; [done|by rewrite Hc].
  - change (rstrip (String c (String c' r))) with
      (match rstrip (String c' r) with
       | EmptyString => if isspace c then EmptyString else String c EmptyString
       | r0 => String c r0
       end).
    by rewrite IH.
Qed.

Lemma rstrip_NL s : rstrip (s +:+ NL) = rstrip s.
Proof.
  induction s as [|c s IH]; rewrite ?append_nil_l, ?append_cons; [done|].
  simpl. by rewrite IH.
Qed.

Lemma count_char_rstrip_le x s : (count_char x (rstrip s) <= count_char x s)%nat.
Proof.
  induction s as [|c s IH]; simpl; [done|].
  destruct (rstrip s) as [|c' r]; [destruct (isspace c)|]; simpl in *; lia.
Qed.

Lemma breakfree_rstrip s : breakfree s -> breakfree (rstrip s).
Proof.
  intros [H1 H2]. split.
  - pose proof (count_char_rstrip_le LF s). lia.
  - pose proof (count_char_rstrip_le CR s). lia.
Qed.

Lemma breakfree_cons c s :
  breakfree (String c s) <-> Ascii.eqb c LF = false /\ Ascii.eqb c CR = false /\ breakfree s.
Proof.
  unfold breakfree. simpl.
  destruct (Ascii.eqb c LF), (Ascii.eqb c CR); simpl; intuition (try lia; try done).
Qed.

(** A line end cuts the text. *)
Lemma file_lines_cut l rest :
  breakfree l -> file_lines (l +:+ NL +:+ rest) = (l +:+ NL) :: file_lines rest.
Proof.
  induction l as [|c l IH]; rewrite ?append_nil_l, ?append_cons; [done|].
  intros (Hlf & Hcr & Hl)%breakfree_cons. simpl. rewrite Hlf, Hcr.
  by rewrite (IH Hl).
Qed.

Lemma handed_NL : handed_line NL.
Proof. exists "". by split; [|right]. Qed.

Lemma file_lines_handed text : Forall handed_line (file_lines text).
Proof.
  induction text as [|c rest IH]; simpl; [constructor|].
  destruct (Ascii.eqb c LF) eqn:Hlf.
  { constructor; [apply handed_NL|done]. }
  destruct (Ascii.eqb c CR) eqn:Hcr.
  { destruct rest as [|c' rest']; [repeat constructor; apply handed_NL|].
    destruct (Ascii.eqb c' LF) eqn:Hlf'; [|constructor; [apply handed_NL|done]].
    simpl in IH. rewrite Hlf' in IH. apply Forall_cons in IH as [_ IH].
    constructor; [apply handed_NL|done]. }
  destruct (file_lines rest) as [|l ls].
  { repeat constructor. exists (String c ""). split; [|by left].
    apply breakfree_cons. by repeat split. }
  apply Forall_cons in IH as [(body & Hb & Hl) IH]. constructor; [|done].
  exists (String c body). split; [by apply breakfree_cons|].
  destruct Hl as [->| ->]; [by left | by right].
Qed.

Lemma rstrip_handed_plain l : handed_line l -> plain_line (rstrip l).
Proof.
  intros (body & Hb & [->| ->]); rewrite ?rstrip_NL;
    (split; [apply rstrip_idemp | by apply breakfree_rstrip]).
Qed.

Lemma file_lines_plain text : Forall plain_line (rstrip <$> file_lines text).
Proof.
  apply Forall_fmap. eapply Forall_impl; [apply file_lines_handed|].
  intros l. apply rstrip_handed_plain.
Qed.

(** Reading back what was written line by line gives the lines written. *)
Lemma file_lines_unlines ls :
  Forall plain_line ls -> rstrip <$> file_lines (unlines ls) = ls.
Proof.
  induction 1 as [|l ls [Hr Hb] _ IH]; [done|].
  change (unlines (l :: ls)) with (l +:+ NL +:+ unlines ls).
  rewrite file_lines_cut by done. rewrite fmap_cons. by rewrite rstrip_NL, Hr, IH.
Qed.

(** ** Compaction of the log *)

Lemma stampedb_spec l : stampedb l = true <-> stamped l.
Proof.
  unfold stampedb, stamped. destruct (line_stamp l); split; try done; eauto.
  by intros [? ?].
Qed.

Lemma int_of_str_raises s e : int_of_str s = Raise e -> e = ValueError.
Proof.
  unfold int_of_str. destruct (drop_underscores _ s); [|congruence].
  destruct (take_sign _) as [neg s2].
  destruct (take_digits 0 0 s2) as [[n [|k]] [|c r]]; congruence.
Qed.

Lemma split_first sep s : split sep s !! 0%nat = Some (List.hd "" (split sep s)).
Proof. pose proof (split_nonempty sep s). by destruct (split sep s). Qed.

Lemma validateFileData_keeps {B} (f : world -> B) data :
  (forall c w, f (set_console c w) = f w) ->
  keeps (same f) (validateFileData data).
Proof.
  intros Hf. unfold validateFileData.
  destruct (negb _); [repeat keeps_step; apply Hf|].
  generalize (seq 1 7). intros idx. revert data.
  induction idx as [|i idx IH]; intros data; simpl; [by keeps_step|].
  destruct (_ ≫= _); [|repeat keeps_step; apply Hf].
  destruct (py_int _); [apply IH|repeat keeps_step; apply Hf].
Qed.

Lemma validateFileData_run (fields : list string) w :
  exists data' w',
    validateFileData (PStr <$> fields) w = (Ok (valid_line fields, data'), w') /\
    files w' = files w.
Proof.
  destruct (validateFileData_result fields w) as [data' H].
  pose proof (validateFileData_keeps files (PStr <$> fields) (fun _ _ => eq_refl) w) as Hk.
  destruct (validateFileData (PStr <$> fields) w) as [r w']. simpl in *.
  subst r. by exists data', w'.
Qed.

Section Compaction.

Variable MAX_DATA_TIME : Z.
Variable now : Z.

Lemma clean_line_stamped line w t :
  line_stamp (rstrip line) = Ok t ->
  exists w',
    clean_line MAX_DATA_TIME now line w = (Ok tt, w') /\
    files w' =
      if keep MAX_DATA_TIME now (rstrip line)
      then <[temp_csv := default "" (files w !! temp_csv) +:+ (rstrip line +:+ NL)]> (files w)
      else files w.
Proof.
  intros Ht. unfold clean_line, keep. rewrite Ht.
  unfold item. rewrite split_first.
  erewrite bind_ok; [|reflexivity].
  erewrite bind_ok; [|unfold lift; unfold line_stamp in Ht; by rewrite Ht].
  destruct (now - t <? MAX_DATA_TIME * 60); [|by eexists].
  destruct (validateFileData_run (split COMMA (rstrip line)) w) as (d & w1 & Hv & Hf).
  erewrite bind_ok; [|exact Hv]. cbn [andb].
  destruct (valid_line _); [|by eexists].
  eexists. split; [reflexivity|]. simpl. by rewrite Hf.
Qed.

Lemma clean_line_unstamped line w :
  ~ stamped (rstrip line) ->
  clean_line MAX_DATA_TIME now line w = (Raise ValueError, w).
Proof.
  intros Hn. unfold clean_line, item. rewrite split_first.
  erewrite bind_ok; [|reflexivity].
  destruct (line_stamp (rstrip line)) as [t|e] eqn:Ht; [by destruct Hn; eexists|].
  unfold line_stamp in Ht. pose proof (int_of_str_raises _ _ Ht) as ->.
  erewrite bind_raise; [done|]. unfold lift. by rewrite Ht.
Qed.

Lemma clean_line_keeps k line :
  k <> temp_csv ->
  keeps (same (fun w => files w !! k)) (clean_line MAX_DATA_TIME now line).
Proof.
  intros Hk. unfold clean_line, write_file.
  repeat keeps_step; unfold same; simpl; try done.
  - apply (validateFileData_keeps (fun w => files w !! k)). done.
  - by rewrite lookup_insert_ne.
Qed.

(** The loop of [cleanFileData] over lines that all carry a stamp. *)
Lemma clean_loop lines : forall w acc,
  files w !! temp_csv = Some acc ->
  Forall stamped (rstrip <$> lines) ->
  exists w',
    for_each lines (clean_line MAX_DATA_TIME now) w = (Ok tt, w') /\
    files w' =
      <[temp_csv := acc +:+ unlines (List.filter (keep MAX_DATA_TIME now) (rstrip <$> lines))]>
        (files w).
Proof.
  induction lines as [|line lines IH]; intros w acc Hacc Hall.
  { exists w. split; [done|]. simpl. by rewrite append_empty_r, insert_id. }
  rewrite fmap_cons in Hall. apply Forall_cons in Hall as [[t Ht] Hall].
  destruct (clean_line_stamped line w t Ht) as (w1 & Hrun & Hfiles).
  cbn [for_each]. erewrite bind_ok; [|exact Hrun].
  rewrite fmap_cons. cbn [List.filter].
  destruct (keep MAX_DATA_TIME now (rstrip line)).
  - destruct (IH w1 (acc +:+ (rstrip line +:+ NL))) as (w2 & Hrun2 & Hfiles2); [|done|].
    { rewrite Hfiles, Hacc. simpl. by rewrite lookup_insert_eq. }
    exists w2. split; [done|]. rewrite Hfiles2, Hfiles, insert_insert_eq.
    f_equal. change (unlines (?l :: ?ls)) with (l +:+ NL +:+ unlines ls).
    by rewrite !append_assoc.
  - destruct (IH w1 acc) as (w2 & Hrun2 & Hfiles2); [by rewrite Hfiles|done|].
    exists w2. split; [done|]. by rewrite Hfiles2, Hfiles.
Qed.

(** The loop stops with [ValueError] at the first line without a stamp. *)
Lemma clean_loop_raises lines : forall w,
  ~ Forall stamped (rstrip <$> lines) ->
  exists w', for_each lines (clean_line MAX_DATA_TIME now) w = (Raise ValueError, w').
Proof.
  induction lines as [|line lines IH]; intros w Hn.
  { destruct Hn. constructor. }
  cbn [for_each].
  destruct (line_stamp (rstrip line)) as [t|e] eqn:Ht.
  - destruct (clean_line_stamped line w t Ht) as (w1 & Hrun & _).
    erewrite bind_ok; [|exact Hrun]. apply IH. intros Hall. apply Hn.
    rewrite fmap_cons. constructor; [by exists t|done].
  - exists w. erewrite bind_raise; [done|]. apply clean_line_unstamped.
    intros [t Ht']. congruence.
Qed.

Lemma cleanFileData_missing w :
  files w !! data_csv = None ->
  cleanFileData MAX_DATA_TIME now w = (Raise FileNotFoundError, w).
Proof.
  intros H. unfold cleanFileData, read_file.
  erewrite bind_raise; [done|]. erewrite bind_ok; [|reflexivity]. by rewrite H.
Qed.

Lemma read_file_ok name w text :
  files w !! name = Some text -> read_file name w = (Ok text, w).
Proof. intros H. unfold read_file. erewrite bind_ok; [|reflexivity]. by rewrite H. Qed.

(** A run over a log whose lines all carry a stamp: the kept lines, in
    their order, are written to [temp.csv], which then replaces
    [data.csv]. *)
Lemma cleanFileData_ok w input :
  files w !! data_csv = Some input ->
  Forall stamped (rstrip <$> file_lines input) ->
  exists w',
    cleanFileData MAX_DATA_TIME now w = (Ok tt, w') /\
    files w' =
      <[data_csv := unlines (List.filter (keep MAX_DATA_TIME now) (rstrip <$> file_lines input))]>
        (delete temp_csv (files w)).
Proof.
  intros Hin Hall. unfold cleanFileData.
  erewrite bind_ok; [|by apply read_file_ok].
  erewrite bind_ok; [|reflexivity].
  destruct (clean_loop (file_lines input)
              (set_files (<[temp_csv := ""]> (files w)) w) "") as (w1 & Hrun & Hfiles);
    [by simpl; rewrite lookup_insert_eq|done|].
  erewrite bind_ok; [|exact Hrun].
  unfold replace_file.
  erewrite bind_ok; [|apply read_file_ok; rewrite Hfiles; apply lookup_insert_eq].
  eexists. split; [reflexivity|]. simpl.
  rewrite Hfiles. cbn [files set_files].
  by rewrite append_nil_l, !delete_insert_eq.
Qed.

(** A run over a log with a line whose first field is not an integer:
    [ValueError] comes out of [cleanFileData] and [data.csv] is as it was. *)
Lemma cleanFileData_raises w input :
  files w !! data_csv = Some input ->
  ~ Forall stamped (rstrip <$> file_lines input) ->
  exists w',
    cleanFileData MAX_DATA_TIME now w = (Raise ValueError, w') /\
    files w' !! data_csv = Some input.
Proof.
  intros Hin Hn. unfold cleanFileData.
  erewrite bind_ok; [|by apply read_file_ok].
  erewrite bind_ok; [|reflexivity].
  set (w0 := set_files (<[temp_csv := ""]> (files w)) w).
  destruct (clean_loop_raises (file_lines input) w0 Hn) as (w1 & Hrun).
  exists w1. split; [by erewrite bind_raise|].
  pose proof (keeps_for_each (same (fun w => files w !! data_csv)) (file_lines input)
                (clean_line MAX_DATA_TIME now)
                (fun line => clean_line_keeps data_csv line ltac:(done)) w0) as Hk.
  rewrite Hrun in Hk. unfold same in Hk. simpl in Hk.
  by rewrite Hk, lookup_insert_ne.
Qed.

End Compaction.

Lemma filter_idemp {A} (f : A -> bool) l :
  List.filter f (List.filter f l) = List.filter f l.
Proof.
  induction l as [|x l IH]; simpl; [done|].
  destruct (f x) eqn:E; simpl; rewrite ?E, IH; done.
Qed.

Lemma Forall_filter_bool {A} (P : A -> Prop) (f : A -> bool) l :
  Forall P l -> Forall P (List.filter f l).
Proof.
  induction 1 as [|x l Hx _ IH]; simpl; [constructor|].
  destruct (f x); [by constructor|done].
Qed.

Lemma Forall_filter_true {A} (f : A -> bool) l :
  Forall (fun x => f x = true) (List.filter f l).
Proof.
  induction l as [|x l IH]; simpl; [constructor|].
  destruct (f x) eqn:E; [by constructor|done].
Qed.

Lemma keep_stamped MAX_DATA_TIME now l : keep MAX_DATA_TIME now l = true -> stamped l.
Proof. unfold keep, stamped. destruct (line_stamp l); [eauto|done]. Qed.

Lemma Forall_stamped_dec ls : {Forall stamped ls} + {~ Forall stamped ls}.
Proof.
  destruct (forallb stampedb ls) eqn:E; [left|right].
  - apply Forall_forall. intros l Hl. apply stampedb_spec.
    rewrite forallb_forall in E. apply E. by apply list_elem_of_In.
  - intros H. rewrite <- not_true_iff_false in E. apply E.
    apply forallb_forall. intros l Hl. apply stampedb_spec.
    rewrite Forall_forall in H. apply H. by apply list_elem_of_In.
Qed.

(** C8: two runs of [cleanFileData] in a row at the same clock reading,
    with nothing appended in between, end the same way, and [data.csv]
    after the second run is what it was after the first. *)
Theorem cleanFileData_idempotent (MAX_DATA_TIME now : Z) (w : world) :
  let r1 := cleanFileData MAX_DATA_TIME now w in
  let r2 := cleanFileData MAX_DATA_TIME now r1.2 in
  r2.1 = r1.1 /\ files r2.2 !! data_csv = files r1.2 !! data_csv.
Proof.
  intros r1 r2. subst r2 r1.
  destruct (files w !! data_csv) as [input|] eqn:Hin.
  2:{ rewrite (cleanFileData_missing _ _ _ Hin). simpl.
      by rewrite (cleanFileData_missing _ _ _ Hin). }
  destruct (Forall_stamped_dec (rstrip <$> file_lines input)) as [Hall|Hn].
  - destruct (cleanFileData_ok MAX_DATA_TIME now w input Hin Hall) as (w1 & -> & Hf1).
    simpl. set (kept := List.filter _ _) in Hf1.
    assert (files w1 !! data_csv = Some (unlines kept)) as Hin1.
    { rewrite Hf1. apply lookup_insert_eq. }
    assert (rstrip <$> file_lines (unlines kept) = kept) as Hback.
    { apply file_lines_unlines, Forall_filter_bool, file_lines_plain. }
    destruct (cleanFileData_ok MAX_DATA_TIME now w1 (unlines kept) Hin1) as (w2 & -> & Hf2).
    { rewrite Hback. eapply Forall_impl; [apply Forall_filter_true|].
      intros l. apply keep_stamped. }
    simpl. split; [done|].
    rewrite Hf2, Hback, Hin1. unfold kept.
    by rewrite filter_idemp, lookup_insert_eq.
  - destruct (cleanFileData_raises MAX_DATA_TIME now w input Hin Hn) as (w1 & -> & Hf1).
    simpl.
    destruct (cleanFileData_raises MAX_DATA_TIME now w1 input Hf1 Hn) as (w2 & -> & Hf2).
    simpl. by rewrite Hf1, Hf2.
Qed.

(** C2 (where the code fails it): on a log with a line whose first field
    does not read as an integer, [cleanFileData] raises [ValueError] at
    [int(data[0])], before [validateFileData] is asked: no compacted file is
    produced and [data.csv] is as it was. *)
Theorem cleanFileData_raises_on_unstamped_line
    (MAX_DATA_TIME now : Z) (w : world) (input : string) :
  files w !! data_csv = Some input ->
  ~ Forall stamped (rstrip <$> file_lines input) ->
  exists w',
    cleanFileData MAX_DATA_TIME now w = (Raise ValueError, w') /\
    files w' !! data_csv = Some input.
Proof. apply cleanFileData_raises. Qed.

(** The acquisition loop writes such a log itself: a line received with a
    carriage return before its last character is appended to the log, where
    it reads back as two lines, the second one being "x"; the lines copied
    before the failure stay in [temp.csv]. *)
Lemma cleanFileData_raises_on_unstamped_line_witness :
  let received := "23.5,7.1,6.8,1,0,0,0,0" +:+ String CR "x" in
  let w1 := (acquire 120 1700000000 1700000000 (set_serial [Decoded received] initial)).2 in
  let r := cleanFileData 120 1700000060 w1 in
  rstrip <$> file_lines (default "" (files w1 !! data_csv)) =
    ["1700000000,23.5,7.1,6.8,1,0,0,0,0"; "x"] /\
  r.1 = Raise ValueError /\
  files r.2 !! data_csv = files w1 !! data_csv /\
  files r.2 !! temp_csv = Some ("1700000000,23.5,7.1,6.8,1,0,0,0,0" +:+ NL).
Proof.
  intros received w1 r.
  assert (exists input, files w1 !! data_csv = Some input /\
            rstrip <$> file_lines input = ["1700000000,23.5,7.1,6.8,1,0,0,0,0"; "x"])
    as (input & Hin & Hlines).
  { eexists. split; by vm_compute. }
  destruct (cleanFileData_raises_on_unstamped_line 120 1700000060 w1 input Hin)
    as (w' & Hrun & Hkept).
  { rewrite Hlines. intros H. apply Forall_cons in H as [_ H].
    apply Forall_cons in H as [[t Ht] _]. vm_compute in Ht. discriminate Ht. }
  split; [by rewrite Hin|]. split; [subst r; by rewrite Hrun|].
  split; [subst r; by rewrite Hrun, Hin|]. by vm_compute.
Defined.

(** ** The plot window *)

Lemma set_plotData_same w : set_plotData (plotData w) w = w.
Proof. by destruct w. Qed.

Lemma set_plotData_twice p q w : set_plotData p (set_plotData q w) = set_plotData p w.
Proof. done. Qed.

Section Window.

Variable MAX_DATA_TIME : Z.

Lemma trim_rows now rs : forall w,
  plotData w = plot_of_rows rs ->
  trim MAX_DATA_TIME now (length rs) w =
    (Ok tt, set_plotData (plot_of_rows (drop_expired MAX_DATA_TIME now rs)) w).
Proof.
  induction rs as [|r rs IH]; intros w Hw.
  { simpl. unfold ret. by rewrite <- Hw, set_plotData_same. }
  cbn [length trim drop_expired].
  erewrite bind_ok; [|reflexivity]. rewrite Hw.
  erewrite bind_ok; [|reflexivity]. unfold expired.
  destruct (MAX_DATA_TIME * 60 <? now - row_time r).
  - unfold pop_time, pop_temp, pop_ph, pop_oxygen.
    erewrite bind_ok; [|erewrite bind_ok; [|reflexivity]; rewrite Hw; reflexivity].
    erewrite bind_ok; [|erewrite bind_ok; [|reflexivity]; reflexivity].
    erewrite bind_ok; [|erewrite bind_ok; [|reflexivity]; reflexivity].
    erewrite bind_ok; [|erewrite bind_ok; [|reflexivity]; reflexivity].
    rewrite IH by done. done.
  - unfold ret. by rewrite <- Hw, set_plotData_same.
Qed.

(** A call without a record only trims. *)
Lemma handlePlotData_trim now rs w :
  plotData w = plot_of_rows rs ->
  handlePlotData MAX_DATA_TIME now None w =
    (Ok (plot_of_rows (drop_expired MAX_DATA_TIME now rs)),
     set_plotData (plot_of_rows (drop_expired MAX_DATA_TIME now rs)) w).
Proof.
  intros Hw. unfold handlePlotData. cbn [truthy].
  erewrite bind_ok; [|reflexivity].
  erewrite bind_ok; [|erewrite bind_ok; [|reflexivity]; rewrite Hw; cbn [times plot_of_rows]; rewrite length_fmap; by apply trim_rows].
  done.
Qed.

(** A call with a record whose stamp and three readings parse appends its
    entry and trims. *)
Lemma handlePlotData_append now rs data r w :
  plotData w = plot_of_rows rs ->
  row_of data = Some r ->
  exists w',
    handlePlotData MAX_DATA_TIME now (Some data) w = (Ok (plotData w'), w') /\
    plotData w' = plot_of_rows (drop_expired MAX_DATA_TIME now (rs ++ [r])) /\
    files w' = files w /\ buttonStates w' = buttonStates w /\
    serial w' = serial w /\ console w' = console w.
Proof.
  intros Hw Hr. unfold row_of in Hr.
  destruct data as [|d0 [|d1 [|d2 [|d3 rest]]]]; try done.
  destruct (stamp_of d0) as [t|] eqn:H0; [|done].
  destruct (float_of_str d1) as [x1|] eqn:H1; [|done].
  destruct (float_of_str d2) as [x2|] eqn:H2; [|done].
  destruct (float_of_str d3) as [x3|] eqn:H3; [|done].
  injection Hr as <-.
  unfold stamp_of in H0. destruct (int_of_str d0) as [n|] eqn:Hn; [|done].
  unfold handlePlotData. cbn [truthy the_list default].
  set (w1 := set_plotData (plot_of_rows (rs ++ [(t, x1, x2, x3)]))
               (set_currentValues
                  (<["dissolved_oxygen" := PStr d3]>
                     (<["ph" := PStr d2]> (<["temp" := PStr d1]> (currentValues w)))) w)).
  erewrite (bind_ok _ _ w true w1).
  2:{ unfold item, lift, try_except, set_current, append_time, append_temp,
        append_ph, append_oxygen, modify, mbind, M_bind, bind, ret. simpl.
      rewrite Hn. simpl. rewrite H0, H1, H2, H3. simpl. rewrite Hw.
      unfold w1, plot_of_rows, set_plotData.
      simpl. by rewrite !fmap_app. }
  erewrite bind_ok; [|erewrite bind_ok; [|reflexivity]].
  2:{ replace (length (times (plotData w1))) with (length (rs ++ [(t, x1, x2, x3)]))
        by (unfold w1; simpl; by rewrite length_fmap).
      by apply trim_rows. }
  eexists. split; [reflexivity|]. done.
Qed.

End Window.

Lemma drop_expired_drop MAX_DATA_TIME now rs :
  exists k, (k <= length rs)%nat /\
    drop_expired MAX_DATA_TIME now rs = drop k rs /\
    (forall r, r ∈ take k rs -> MAX_DATA_TIME * 60 < now - row_time r) /\
    (forall r, head (drop k rs) = Some r -> now - row_time r <= MAX_DATA_TIME * 60).
Proof.
  induction rs as [|r rs (k & Hk & Hd & Ht & Hh)].
  { exists 0%nat. repeat split; [done|by intros r ?%elem_of_nil|done]. }
  simpl. unfold expired at 1.
  destruct (Z.ltb_spec (MAX_DATA_TIME * 60) (now - row_time r)).
  - exists (S k). simpl. repeat split; [lia|done| |done].
    intros r' [->|Hr']%elem_of_cons; [done|by apply Ht].
  - exists 0%nat. simpl. repeat split; [lia|by intros r' ?%elem_of_nil|].
    by intros r' [= <-].
Qed.

Lemma ascending_drop k rs : ascending rs -> ascending (drop k rs).
Proof.
  unfold ascending. intros H. rewrite <- (take_drop k rs) in H.
  by apply StronglySorted_app_1_r in H.
Qed.

Lemma ascending_head rs r r' :
  ascending rs -> head rs = Some r -> r' ∈ rs -> row_time r <= row_time r'.
Proof.
  intros H Hh Hr'. destruct rs as [|r0 rs]; [done|]. injection Hh as ->.
  apply StronglySorted_cons in H as [H _].
  apply elem_of_cons in Hr' as [->|Hr']; [lia|].
  rewrite Forall_forall in H. by apply H.
Qed.

(** C4 (amended): on a window whose four lists are as long as each other,
    a call of [handlePlotData] without a record removes entries at the head
    as long as [now - head.timestamp > MAX_DATA_TIME * 60] and stops at the
    first entry that is not that old; and after records stamped 0, 60 and
    130 were handed over at those times with a window of 2 minutes, the
    entries stamped 60 and 130 are left. *)
Theorem handlePlotData_trims_head (MAX_DATA_TIME now : Z) (rs : list row) (w : world) :
  (exists k,
     handlePlotData MAX_DATA_TIME now None (set_plotData (plot_of_rows rs) w) =
       (Ok (plot_of_rows (drop k rs)), set_plotData (plot_of_rows (drop k rs)) w) /\
     (forall r, r ∈ take k rs -> MAX_DATA_TIME * 60 < now - row_time r) /\
     (forall r, head (drop k rs) = Some r -> now - row_time r <= MAX_DATA_TIME * 60)) /\
  (run_calls 2 [(0, Some ["0"; "23.5"; "7.1"; "6.8"; "1"; "0"; "0"; "0"; "0"]);
                (60, Some ["60"; "23.5"; "7.1"; "6.8"; "1"; "0"; "0"; "0"; "0"])] initial).1
    = Ok tt /\
  times (plotData
    (run_calls 2 [(0, Some ["0"; "23.5"; "7.1"; "6.8"; "1"; "0"; "0"; "0"; "0"]);
                  (60, Some ["60"; "23.5"; "7.1"; "6.8"; "1"; "0"; "0"; "0"; "0"])] initial).2)
    = [0; 60] /\
  times (plotData
    (run_calls 2 [(0, Some ["0"; "23.5"; "7.1"; "6.8"; "1"; "0"; "0"; "0"; "0"]);
                  (60, Some ["60"; "23.5"; "7.1"; "6.8"; "1"; "0"; "0"; "0"; "0"]);
                  (130, Some ["130"; "23.5"; "7.1"; "6.8"; "1"; "0"; "0"; "0"; "0"])]
       initial).2)
    = [60; 130].
Proof.
  split; [|by vm_compute].
  destruct (drop_expired_drop MAX_DATA_TIME now rs) as (k & _ & Hd & Ht & Hh).
  exists k. split; [|done].
  rewrite (handlePlotData_trim MAX_DATA_TIME now rs) by done.
  by rewrite Hd.
Qed.

(** An entry that is exactly [MAX_DATA_TIME * 60] seconds old stays in the
    window, where the spec's words remove it. *)
Lemma trim_keeps_boundary_entry :
  let rs := [(10, S754_zero false, S754_zero false, S754_zero false)] in
  (handlePlotData 2 130 None (set_plotData (plot_of_rows rs) initial)).1 =
    Ok (plot_of_rows rs) /\
  trimExpired_spec (2 * 60) 130 rs = [] /\
  (handlePlotData 2 130 None (set_plotData (plot_of_rows rs) initial)).1 <>
    Ok (plot_of_rows (trimExpired_spec (2 * 60) 130 rs)).
Proof. by vm_compute. Qed.

Lemma for_each_app {A} (l1 l2 : list A) (body : A -> M unit) w w1 :
  for_each l1 body w = (Ok tt, w1) ->
  for_each (l1 ++ l2) body w = for_each l2 body w1.
Proof.
  revert w. induction l1 as [|x l1 IH]; intros w H; simpl in *.
  { by injection H as <-. }
  unfold mbind, M_bind, bind in *.
  destruct (body x w) as [[[]|e] w0]; [by apply IH|done].
Qed.

Section Calls.

Variable MAX_DATA_TIME : Z.

(** One call on a window that holds the entries [rs]. *)
Lemma proper_call_step (c : call) rs w :
  plotData w = plot_of_rows rs ->
  proper_call c ->
  exists w',
    (handlePlotData MAX_DATA_TIME c.1 c.2 ≫= fun _ => ret tt) w = (Ok tt, w') /\
    plotData w' =
      plot_of_rows (drop_expired MAX_DATA_TIME c.1 (rs ++ appended [c])).
Proof.
  intros Hw Hc. destruct c as [now [data|]]; unfold proper_call, appended in *; simpl in *.
  - destruct Hc as [r Hr]. rewrite Hr. simpl.
    destruct (handlePlotData_append MAX_DATA_TIME now rs data r w Hw Hr)
      as (w' & Hrun & Hp & _).
    exists w'. split; [by erewrite bind_ok|done].
  - rewrite app_nil_r. eexists. split.
    + erewrite bind_ok; [reflexivity|]. by apply handlePlotData_trim.
    + done.
Qed.

(** The calls leave in the window what is left of the entries held and
    appended after some of them were dropped at the head. *)
Lemma run_calls_suffix calls : forall rs w,
  plotData w = plot_of_rows rs ->
  Forall proper_call calls ->
  exists w' k,
    run_calls MAX_DATA_TIME calls w = (Ok tt, w') /\
    (k <= length (rs ++ appended calls))%nat /\
    plotData w' = plot_of_rows (drop k (rs ++ appended calls)).
Proof.
  induction calls as [|c calls IH]; intros rs w Hw Hall.
  { exists w, 0%nat. unfold appended. simpl. rewrite app_nil_r.
    split; [done|]. split; [lia|done]. }
  apply Forall_cons in Hall as [Hc Hall].
  destruct (proper_call_step c rs w Hw Hc) as (w1 & Hrun & Hp).
  destruct (drop_expired_drop MAX_DATA_TIME c.1 (rs ++ appended [c]))
    as (j & Hj & Hd & _).
  rewrite Hd in Hp.
  destruct (IH _ w1 Hp Hall) as (w' & k & Hrun' & Hk & Hp').
  exists w', (j + k)%nat.
  assert (appended (c :: calls) = appended [c] ++ appended calls) as ->.
  { unfold appended. by rewrite <- omap_app. }
  rewrite app_assoc. split; [|split].
  - unfold run_calls. cbn [for_each]. by erewrite bind_ok.
  - rewrite length_app, length_drop in Hk. rewrite length_app. lia.
  - rewrite Hp'. f_equal. rewrite <- drop_app_le by done. apply drop_drop.
Qed.

Lemma drop_expired_fresh now rs r :
  ascending rs -> r ∈ drop_expired MAX_DATA_TIME now rs ->
  now - row_time r <= MAX_DATA_TIME * 60.
Proof.
  intros Hs Hr.
  destruct (drop_expired_drop MAX_DATA_TIME now rs) as (k & _ & Hd & _ & Hh).
  rewrite Hd in Hr. destruct (drop k rs) as [|r0 rs'] eqn:E; [by apply elem_of_nil in Hr|].
  specialize (Hh r0 eq_refl).
  pose proof (ascending_head (r0 :: rs') r0 r) as H.
  rewrite <- E in H at 1. specialize (H (ascending_drop k rs Hs) eq_refl Hr). lia.
Qed.

End Calls.

(** C5 (amended): after any sequence of calls of [handlePlotData] on the
    empty window, each with a record whose stamp reads as a second that
    [datetime.fromtimestamp] accepts and whose readings parse, or without
    a record, the stamps handed over being in ascending order: the
    calls return, the window is what is left of the appended entries after
    some were dropped at the head (so it is in ascending order of time), and
    every entry left satisfies [now - timestamp <= MAX_DATA_TIME * 60] for
    the clock [now] of the last call. *)
Theorem window_is_recent_suffix (MAX_DATA_TIME : Z) (calls : list call) (w : world) :
  Forall proper_call calls ->
  ascending (appended calls) ->
  exists w' k,
    run_calls MAX_DATA_TIME calls (set_plotData empty_plot w) = (Ok tt, w') /\
    plotData w' = plot_of_rows (drop k (appended calls)) /\
    ascending (drop k (appended calls)) /\
    forall c r, last calls = Some c -> r ∈ drop k (appended calls) ->
      c.1 - row_time r <= MAX_DATA_TIME * 60.
Proof.
  intros Hall Hs.
  destruct (decide (calls = [])) as [->|Hne].
  { exists (set_plotData empty_plot w), 0%nat. repeat split; [constructor|done]. }
  destruct (exists_last Hne) as (calls' & c & ->).
  apply Forall_app in Hall as [Hall' Hc]. apply Forall_inv in Hc.
  assert (appended (calls' ++ [c]) = appended calls' ++ appended [c]) as Happ.
  { unfold appended. by rewrite omap_app. }
  rewrite Happ in *.
  destruct (run_calls_suffix MAX_DATA_TIME calls' [] (set_plotData empty_plot w) eq_refl Hall')
    as (w1 & j & Hrun1 & Hj & Hp1).
  rewrite app_nil_l in Hj, Hp1.
  destruct (proper_call_step MAX_DATA_TIME c _ w1 Hp1 Hc) as (w' & Hrun & Hp).
  rewrite <- drop_app_le in Hp by done.
  destruct (drop_expired_drop MAX_DATA_TIME c.1 (drop j (appended calls' ++ appended [c])))
    as (k & _ & Hd & _).
  exists w', (j + k)%nat. rewrite <- drop_drop, <- Hd. split; [|split; [done|split]].
  - unfold run_calls. erewrite for_each_app; [|exact Hrun1].
    cbn [for_each]. by erewrite bind_ok.
  - rewrite Hd, drop_drop. by apply ascending_drop.
  - intros c' r Hlast Hr. rewrite last_snoc in Hlast. injection Hlast as <-.
    eapply drop_expired_fresh; [|exact Hr]. by apply ascending_drop.
Qed.

Lemma window_is_recent_suffix_witness :
  exists w' k,
    run_calls 2 [(0, Some ["0"; "23.5"; "7.1"; "6.8"; "1"; "0"; "0"; "0"; "0"]);
                 (60, Some ["60"; "23.5"; "7.1"; "6.8"; "1"; "0"; "0"; "0"; "0"]);
                 (130, None)]
      (set_plotData empty_plot initial) = (Ok tt, w') /\
    plotData w' = plot_of_rows (drop k
      (appended [(0, Some ["0"; "23.5"; "7.1"; "6.8"; "1"; "0"; "0"; "0"; "0"]);
                 (60, Some ["60"; "23.5"; "7.1"; "6.8"; "1"; "0"; "0"; "0"; "0"]);
                 (130, None)])).
Proof.
  destruct (window_is_recent_suffix 2
    [(0, Some ["0"; "23.5"; "7.1"; "6.8"; "1"; "0"; "0"; "0"; "0"]);
     (60, Some ["60"; "23.5"; "7.1"; "6.8"; "1"; "0"; "0"; "0"; "0"]);
     (130, None)] initial) as (w' & k & H1 & H2 & _).
  - repeat (apply Forall_cons; split; [vm_compute; by eauto|]). apply Forall_nil. done.
  - unfold ascending.
    repeat (apply StronglySorted_cons; split;
            [repeat (apply Forall_cons; split; [by vm_compute|]); by apply Forall_nil|]).
    constructor.
  - by exists w', k.
Defined.

(** An entry exactly [MAX_DATA_TIME * 60] seconds old is left in the
    window: [now - timestamp < MAX_DATA_TIME * 60] does not hold of it. *)
Lemma window_holds_boundary_entry :
  let calls := [(0, Some ["0"; "23.5"; "7.1"; "6.8"; "1"; "0"; "0"; "0"; "0"]);
                (120, None)] in
  let w' := (run_calls 2 calls (set_plotData empty_plot initial)).2 in
  (run_calls 2 calls (set_plotData empty_plot initial)).1 = Ok tt /\
  times (plotData w') = [0] /\
  ~ (forall t, t ∈ times (plotData w') -> 120 - t < 2 * 60).
Proof.
  intros calls w'. split; [by vm_compute|].
  assert (times (plotData w') = [0]) as Ht by (by vm_compute).
  clearbody w'. clear calls. split; [exact Ht|]. rewrite Ht. intros H.
  assert (120 - 0 < 2 * 60) as Hlt by (apply H, list_elem_of_singleton; reflexivity).
  lia.
Qed.

(** ** [str] and [int] on time stamps *)

Lemma uint_digits d : all_chars isdigit (NilEmpty.string_of_uint d) = true.
Proof. induction d; simpl; try done; by rewrite IHd. Qed.

Lemma take_digits_acc d : forall acc cnt,
  take_digits (N.pos acc) cnt (NilEmpty.string_of_uint d) =
    (N.pos (Pos.of_uint_acc d acc), (cnt + Decimal.nb_digits d)%nat, "").
Proof.
  induction d; intros acc cnt; cbn [NilEmpty.string_of_uint take_digits Pos.of_uint_acc
                                     Decimal.nb_digits].
  { repeat f_equal. lia. }
  all: match goal with
       | |- context [isdigit ?c] => change (isdigit c) with true; cbv iota
       end.
  all: match goal with
       | |- take_digits ?n _ _ = (N.pos (Pos.of_uint_acc _ ?q), _, _) =>
           replace n with (N.pos q) by (unfold digit_value; simpl; lia)
       end.
  all: rewrite IHd; f_equal; f_equal; lia.
Qed.

Lemma take_digits_uint d : forall cnt,
  take_digits 0 cnt (NilEmpty.string_of_uint d) =
    (Pos.of_uint d, (cnt + Decimal.nb_digits d)%nat, "").
Proof.
  induction d; intros cnt; cbn [NilEmpty.string_of_uint take_digits Pos.of_uint
                                 Decimal.nb_digits].
  { repeat f_equal. lia. }
  all: match goal with
       | |- context [isdigit ?c] => change (isdigit c) with true; cbv iota
       end.
  { change (10 * 0 + digit_value "0")%N with 0%N. rewrite IHd. f_equal. f_equal. lia. }
  all: match goal with
       | |- take_digits ?n _ _ = (N.pos (Pos.of_uint_acc _ ?q), _, _) =>
           change n with (N.pos q)
       end.
  all: rewrite take_digits_acc; f_equal; f_equal; lia.
Qed.

Lemma digits_no_underscore s : forall prev,
  all_chars isdigit s = true -> Ascii.eqb prev UNDERSCORE = false ->
  drop_underscores prev s = Some s.
Proof.
  induction s as [|c s IH]; intros prev Hs Hp; simpl in *; [by rewrite Hp|].
  apply andb_true_iff in Hs as [Hc Hs].
  assert (Ascii.eqb c UNDERSCORE = false) as Hu.
  { revert Hc. clear. destruct c as [[] [] [] [] [] [] [] []]; by vm_compute. }
  by rewrite Hu, Hp, (IH c Hs Hu).
Qed.

Lemma digits_no_space s : all_chars isdigit s = true -> rstrip_num s = s.
Proof.
  induction s as [|c s IH]; simpl; [done|]. intros [Hc Hs]%andb_true_iff.
  rewrite (IH Hs). destruct s; [|done].
  assert (is_num_space c = false) as ->; [|done].
  revert Hc. clear. destruct c as [[] [] [] [] [] [] [] []]; by vm_compute.
Qed.

(** The decimal digits of a natural number read back as the number. *)
Lemma int_of_digits d :
  d <> Decimal.Nil ->
  int_of_str (NilEmpty.string_of_uint d) = Ok (Z.of_N (Pos.of_uint d)) /\
  int_of_str (String "-" (NilEmpty.string_of_uint d)) = Ok (- Z.of_N (Pos.of_uint d)).
Proof.
  intros Hd. pose proof (uint_digits d) as Hall.
  pose proof (take_digits_uint d 0) as Ht.
  assert (exists k, Decimal.nb_digits d = S k) as [k Hk].
  { destruct d; try done; simpl; eauto. }
  rewrite Hk in Ht. simpl in Ht.
  destruct (NilEmpty.string_of_uint d) as [|c s] eqn:Hs.
  { destruct d; discriminate Hs || done. }
  pose proof Hall as [Hc Hs']%andb_true_iff.
  assert (is_num_space c = false /\ c <> "-"%char /\ c <> "+"%char) as (Hsp & Hm & Hp).
  { revert Hc. clear. destruct c as [[] [] [] [] [] [] [] []]; by vm_compute. }
  split; unfold int_of_str.
  - rewrite (digits_no_underscore _ "000"%char Hall eq_refl).
    cbn [lstrip_num]. rewrite Hsp, (digits_no_space _ Hall).
    assert (take_sign (String c s) = (false, String c s)) as ->.
    { unfold take_sign. destruct c as [[] [] [] [] [] [] [] []]; done. }
    by rewrite Ht.
  - change (drop_underscores "000" (String "-" (String c s))) with
      (String "-" <$> drop_underscores "-" (String c s)).
    rewrite (digits_no_underscore _ "-"%char Hall eq_refl).
    cbn [fmap option_fmap option_map].
    change (lstrip_num (String "-" (String c s))) with (String "-" (String c s)).
    assert (rstrip_num (String "-" (String c s)) = String "-" (String c s)) as ->.
    { change (rstrip_num (String "-" (String c s))) with
        (match rstrip_num (String c s) with
         | EmptyString => String "-" EmptyString
         | r => String "-" r
         end).
      by rewrite (digits_no_space _ Hall). }
    cbn [take_sign]. by rewrite Ht.
Qed.

Lemma int_of_str_of_int n : int_of_str (str_of_int n) = Ok n.
Proof.
  unfold str_of_int. destruct n as [|p|p]; [done| |].
  - pose proof (DecimalPos.Unsigned.to_uint_nonnil p) as Hn.
    destruct (int_of_digits _ Hn) as [H _].
    rewrite DecimalPos.Unsigned.of_to in H. simpl.
    unfold NilZero.string_of_uint. by destruct (Pos.to_uint p).
  - pose proof (DecimalPos.Unsigned.to_uint_nonnil p) as Hn.
    destruct (int_of_digits _ Hn) as [_ H].
    rewrite DecimalPos.Unsigned.of_to in H. simpl.
    unfold NilZero.string_of_uint. by destruct (Pos.to_uint p).
Qed.

(** ** The log as the acquisition loop extends it *)

Lemma count_char_app x (a b : string) :
  count_char x (a +:+ b) = (count_char x a + count_char x b)%nat.
Proof.
  induction a as [|c a IH]; rewrite ?append_nil_l, ?append_cons; simpl; [done|].
  rewrite IH. lia.
Qed.

Lemma breakfree_app (a b : string) : breakfree (a +:+ b) <-> breakfree a /\ breakfree b.
Proof. unfold breakfree. rewrite !count_char_app. lia. Qed.

Lemma count_char_all p x s :
  all_chars p s = true -> p x = false -> count_char x s = O.
Proof.
  intros Hs Hx. induction s as [|c s IH]; simpl in *; [done|].
  apply andb_true_iff in Hs as [Hc Hs]. rewrite (IH Hs).
  destruct (Ascii.eqb_spec c x) as [->|_]; [congruence|done].
Qed.

Lemma all_chars_impl (p q : ascii -> bool) s :
  (forall c, p c = true -> q c = true) -> all_chars p s = true -> all_chars q s = true.
Proof.
  intros Hpq. induction s as [|c s IH]; simpl; [done|].
  intros [Hc Hs]%andb_true_iff. by rewrite (Hpq c Hc), (IH Hs).
Qed.

Lemma str_of_int_chars n : all_chars numeral_char (str_of_int n) = true.
Proof.
  assert (forall d, all_chars numeral_char (NilZero.string_of_uint d) = true) as H.
  { intros d. unfold NilZero.string_of_uint.
    assert (all_chars numeral_char (NilEmpty.string_of_uint d) = true) as Hd.
    { eapply all_chars_impl; [|apply uint_digits].
      intros c Hc. unfold numeral_char. by rewrite Hc. }
    by destruct d. }
  unfold str_of_int. destruct (Z.to_int n); simpl; [apply H|].
  rewrite H. done.
Qed.

Lemma str_of_int_free n x :
  numeral_char x = false -> count_char x (str_of_int n) = O.
Proof. intros Hx. eapply count_char_all; [apply str_of_int_chars|done]. Qed.

Lemma join_cons sep f g fs :
  join sep (f :: g :: fs) = f +:+ String sep (join sep (g :: fs)).
Proof. done. Qed.

(** [sep.join(s.split(sep))] is [s]. *)
Lemma join_split sep s : join sep (split sep s) = s.
Proof.
  induction s as [|c s IH]; [done|]. simpl.
  pose proof (split_nonempty sep s) as Hne.
  destruct (Ascii.eqb_spec c sep) as [->|Hc].
  - destruct (split sep s) as [|g fs] eqn:E; [done|].
    rewrite join_cons, append_nil_l. by rewrite IH.
  - destruct (split sep s) as [|g fs] eqn:E; [done|].
    destruct fs as [|h fs]; simpl in *; [by rewrite IH|].
    rewrite append_cons. by rewrite <- IH.
Qed.

Lemma split_app_sep sep (a b : string) :
  count_char sep a = O -> split sep (a +:+ String sep b) = a :: split sep b.
Proof.
  induction a as [|c a IH]; rewrite ?append_nil_l, ?append_cons; simpl.
  { by rewrite Ascii.eqb_refl. }
  destruct (Ascii.eqb c sep); [done|]. intros Ha. by rewrite (IH Ha).
Qed.

(** White space is stripped from the last part only. *)
Lemma rstrip_app (a b : string) :
  rstrip b = b -> b <> "" -> rstrip (a +:+ b) = a +:+ b.
Proof.
  intros Hb Hne. induction a as [|c a IH]; rewrite ?append_nil_l, ?append_cons; [done|].
  simpl. rewrite IH. destruct (a +:+ b) eqn:E; [|done].
  destruct a; [by rewrite append_nil_l in E|by rewrite append_cons in E].
Qed.

Lemma rstrip_fixed_cons c s :
  rstrip (String c s) = String c s <->
  (s = "" /\ isspace c = false) \/ (s <> "" /\ rstrip s = s).
Proof.
  simpl. destruct (rstrip s) as [|c' r] eqn:E.
  - destruct (isspace c) eqn:Hc; split; try done.
    + intros [[_ [=]]|[Hne <-]]; done.
    + intros [= <-]. by left.
    + intros [[-> _]|[Hne <-]]; done.
  - split.
    + intros [= <-]. by right.
    + intros [[-> _]|[_ <-]]; done.
Qed.

(** Dropping the blanks of a stripped text leaves a stripped text. *)
Lemma remove_blank_stripped s :
  rstrip s = s -> s <> "" ->
  rstrip (remove SPACE s) = remove SPACE s /\ remove SPACE s <> "".
Proof.
  induction s as [|c s IH]; [done|]. intros Hs _.
  apply rstrip_fixed_cons in Hs as [[-> Hc]|[Hne Hs]].
  - simpl. destruct (Ascii.eqb_spec c SPACE) as [->|_]; [done|].
    simpl. by rewrite Hc.
  - destruct (IH Hs Hne) as [H1 H2]. simpl.
    destruct (Ascii.eqb c SPACE); [done|]. split; [|done].
    apply rstrip_fixed_cons. by right.
Qed.

Lemma count_char_remove_le x old s :
  (count_char x (remove old s) <= count_char x s)%nat.
Proof.
  induction s as [|c s IH]; simpl; [done|].
  destruct (Ascii.eqb c old); simpl; lia.
Qed.

Lemma file_lines_nonempty c s : file_lines (String c s) <> [].
Proof.
  simpl. destruct (Ascii.eqb c LF); [done|].
  destruct (Ascii.eqb c CR); [by destruct s as [|c' s]; [|destruct (Ascii.eqb c' LF)]|].
  by destruct (file_lines s).
Qed.

Lemma file_lines_app_NL t more :
  file_lines ((t +:+ NL) +:+ more) = file_lines (t +:+ NL) ++ file_lines more.
Proof.
  induction t as [|c t IH]; rewrite ?append_nil_l, ?append_cons.
  { done. }
  cbn [file_lines]. destruct (Ascii.eqb c LF); [by rewrite IH|].
  destruct (Ascii.eqb c CR).
  - destruct t as [|c' t'].
    + rewrite !append_nil_l. unfold NL. rewrite append_cons, append_nil_l.
      by rewrite Ascii.eqb_refl.
    + rewrite !append_cons in *. destruct (Ascii.eqb c' LF) eqn:Hc'.
      * cbn [file_lines] in IH. rewrite Hc' in IH. simpl in IH.
        injection IH as IH. by rewrite IH.
      * by rewrite IH.
  - rewrite IH. pose proof (file_lines_nonempty) as Hne.
    destruct (file_lines (t +:+ NL)) as [|l ls] eqn:E; [|done].
    destruct t; [discriminate E|]. rewrite append_cons in E. by apply Hne in E.
Qed.

Lemma file_lines_app text more :
  terminated text -> file_lines (text +:+ more) = file_lines text ++ file_lines more.
Proof. intros [->|[t ->]]; [done|apply file_lines_app_NL]. Qed.

Lemma file_lines_single l : breakfree l -> file_lines (l +:+ NL) = [l +:+ NL].
Proof.
  intros Hl. pose proof (file_lines_cut l "" Hl) as H.
  by rewrite append_empty_r in H.
Qed.

Lemma terminated_app text l : terminated (text +:+ (l +:+ NL)).
Proof. right. exists (text +:+ l). by rewrite append_assoc. Qed.

Lemma handleButtonData_edge_triggered_witness :
  exists w' msgs,
    handleButtonData
      (Some ["1700000000"; "23.5"; "7.1"; "6.8"; "1"; "0"; "0"; "0"; "0"]) initial
      = (Ok (buttonStates w'), w') /\
    console w' = msgs /\ msgs = [Say "Pump turned on"].
Proof.
  destruct (handleButtonData_edge_triggered
              ["1700000000"; "23.5"; "7.1"; "6.8"; "1"; "0"; "0"; "0"; "0"] initial)
    as (w' & msgs & Hrun & Hc & _).
  - reflexivity.
  - intros a Ha. unfold actuators in Ha.
    rewrite !elem_of_cons, elem_of_nil in Ha.
    destruct Ha as [->|[->|[->|[->|[]]]]]; vm_compute; by eexists.
  - exists w', msgs. split; [exact Hrun|].
    vm_compute in Hrun. injection Hrun as _ <-. vm_compute in Hc. by subst msgs.
Defined.

(** ** The window and the log along the acquisition loop *)

Lemma fromtimestamp_ok n t : fromtimestamp n = Ok t -> t = n.
Proof.
  unfold fromtimestamp. repeat (destruct (_ || _); [done|]). congruence.
Qed.

Lemma stamp_of_str_of_int n : stamp_of (str_of_int n) = fromtimestamp n.
Proof. unfold stamp_of. by rewrite int_of_str_of_int. Qed.

Lemma row_of_stamped n payload x1 x2 x3 :
  representable n ->
  readings_of payload = Some (x1, x2, x3) ->
  row_of (str_of_int n :: payload) = Some (n, x1, x2, x3).
Proof.
  unfold readings_of, row_of, representable. intros Hn. rewrite stamp_of_str_of_int, Hn.
  destruct payload as [|d1 [|d2 [|d3 rest]]]; try done.
  destruct (float_of_str d1), (float_of_str d2), (float_of_str d3); congruence.
Qed.

Lemma decode_record r data :
  decode r = Record_ data ->
  exists text, r = Decoded text /\
    data = split COMMA (remove SPACE (rstrip text)) /\
    length data = 8%nat /\
    startswith_digit (List.hd "" data) = true.
Proof.
  destruct r as [|text]; [done|]. unfold decode.
  set (data' := split COMMA (remove SPACE (rstrip text))).
  destruct (String.eqb _ _); [done|].
  destruct (startswith_digit (List.hd "" data')) eqn:Hd; [|done].
  destruct (length data' =? 8)%nat eqn:Hl; [|done].
  intros [= <-]. exists text. repeat split; try done. by apply Nat.eqb_eq.
Qed.

(** The record of a line is the stripped line without its blanks, cut at
    the commas; that text is not empty and ends without white space. *)
Lemma record_text r data :
  decode r = Record_ data ->
  exists f fs, data = f :: fs /\ length data = 8%nat /\
    split COMMA (join COMMA data) = data /\
    join COMMA data <> "" /\ rstrip (join COMMA data) = join COMMA data.
Proof.
  intros (text & -> & -> & Hlen & Hd)%decode_record.
  rewrite join_split.
  set (cleaned := remove SPACE (rstrip text)) in *.
  assert (cleaned <> "") as Hne.
  { intros E. rewrite E in Hd. done. }
  assert (rstrip text <> "") as Hne'.
  { intros E. unfold cleaned in Hne. by rewrite E in Hne. }
  pose proof (split_nonempty COMMA cleaned).
  destruct (split COMMA cleaned) as [|f fs] eqn:E; [done|].
  exists f, fs. repeat split; try done.
  by apply (remove_blank_stripped (rstrip text) (rstrip_idemp text) Hne').
Qed.

Lemma parse_pending_spec pending : forall d p ns,
  parse_pending pending = (d, p, ns) ->
  (exists pre, pending = pre ++ p) /\
  (forall data, d = Some data -> exists r, r ∈ pending /\ decode r = Record_ data).
Proof.
  induction pending as [|r rest IH]; intros d p ns H.
  { injection H as <- <- <-. split; [by exists []|done]. }
  cbn [parse_pending] in H.
  assert (forall n, (let '(d0, p0, ns0) := parse_pending rest in (d0, p0, n :: ns0))
                    = (d, p, ns) ->
          (exists pre, r :: rest = pre ++ p) /\
          (forall data, d = Some data ->
             exists r', r' ∈ r :: rest /\ decode r' = Record_ data)) as Hretry.
  { intros n Hn. destruct (parse_pending rest) as [[d0 p0] ns0] eqn:E.
    injection Hn as <- <- <-. destruct (IH _ _ _ eq_refl) as [[pre Hpre] Hd].
    split; [exists (r :: pre); by rewrite Hpre|].
    intros data Hdata. destruct (Hd data Hdata) as (r' & Hr' & Hdec).
    exists r'. split; [by apply elem_of_cons; right|done]. }
  destruct (decode r) as [data| | |data|] eqn:Hdec; try by eapply Hretry.
  - injection H as <- <- <-. split; [by exists [r]|].
    intros data' [= <-]. exists r. split; [by apply elem_of_cons; left|done].
  - injection H as <- <- <-. split; [by exists [r]|done].
Qed.

(** The line the loop appends reads back as the entry the window gets. *)
Lemma appended_line_log text stamp (data : list string) f fs :
  terminated text ->
  data = f :: fs ->
  split COMMA (join COMMA data) = data ->
  join COMMA data <> "" ->
  rstrip (join COMMA data) = join COMMA data ->
  breakfree (join COMMA data) ->
  log_rows (text +:+ (join COMMA (str_of_int stamp :: data) +:+ NL)) =
    log_rows text ++ option_list (row_of (str_of_int stamp :: data)).
Proof.
  intros Hterm Hdata Hcut Hne Hstrip Hfree.
  set (cleaned := join COMMA data) in *.
  assert (join COMMA (str_of_int stamp :: data) =
          str_of_int stamp +:+ String COMMA cleaned) as Hline.
  { unfold cleaned. by rewrite Hdata. }
  rewrite Hline. set (line := str_of_int stamp +:+ String COMMA cleaned).
  assert (breakfree line) as Hbl.
  { apply breakfree_app. split.
    - split; by apply str_of_int_free.
    - by apply breakfree_cons. }
  assert (rstrip line = line) as Hrl.
  { apply rstrip_app; [|done]. apply rstrip_fixed_cons. by right. }
  assert (split COMMA line = str_of_int stamp :: data) as Hsplit.
  { unfold line. rewrite split_app_sep by (by apply str_of_int_free).
    by f_equal. }
  unfold log_rows.
  rewrite file_lines_app, file_lines_single, omap_app by done.
  f_equal. cbn [omap list_omap]. rewrite rstrip_NL, Hrl, Hsplit.
  by destruct (row_of (str_of_int stamp :: data)).
Qed.

Lemma steady_read w :
  steady w ->
  exists d w1,
    parseSerialData w = (Ok d, w1) /\ steady w1 /\
    match d with
    | None => True
    | Some data => exists x, received_record data x
    end.
Proof.
  intros (Hc & Ht & Hr & Hs). unfold parseSerialData.
  destruct (parse_pending (serial w)) as [[d p] ns] eqn:E.
  destruct (parse_pending_spec _ _ _ _ E) as [[pre Hpre] Hd].
  eexists _, _. split; [reflexivity|]. split.
  - repeat split; try done. simpl. rewrite Hpre in Hs.
    by apply Forall_app in Hs as [_ Hs].
  - destruct d as [data|]; [|done].
    destruct (Hd data eq_refl) as (r & Hin & Hdec).
    rewrite Forall_forall in Hs. destruct (Hs r Hin data Hdec) as [Hfree [x Hx]].
    destruct (record_text r data Hdec) as (f & fs & _ & Hlen & Hcut & Hne & Hstrip).
    by exists x.
Qed.

Lemma log_text_write w text :
  log_text (write_file data_csv text w).2 = log_text w +:+ text.
Proof. unfold log_text, write_file, modify. simpl. by rewrite lookup_insert_eq. Qed.

Lemma steady_append stamp data x w :
  steady w -> received_record data x ->
  let w2 := (write_file data_csv (join COMMA (str_of_int stamp :: data) +:+ NL) w).2 in
  steady w2 /\
  (representable stamp -> (stamp, x.1.1, x.1.2, x.2) ∈ log_rows (log_text w2)).
Proof.
  intros (Hc & Ht & Hr & Hs) (Hlen & Hcut & Hne & Hstrip & Hfree & Hread) w2.
  destruct x as [[x1 x2] x3].
  assert (exists f fs, data = f :: fs) as (f & fs & Hdata).
  { destruct data; [done|eauto]. }
  assert (log_rows (log_text w2) =
          log_rows (log_text w) ++ option_list (row_of (str_of_int stamp :: data))) as Hrows.
  { unfold w2. rewrite log_text_write. by eapply appended_line_log. }
  split.
  - split; [|split; [|done]].
    + destruct Hc as (rs & Hp & Hin). exists rs. split; [done|].
      intros r Hr'. rewrite Hrows. apply elem_of_app. left. by apply Hin.
    + unfold w2. rewrite log_text_write. apply terminated_app.
  - intros Hrep. rewrite Hrows, (row_of_stamped stamp data x1 x2 x3 Hrep Hread).
    apply elem_of_app. right. by apply list_elem_of_singleton.
Qed.

Lemma steady_buttons (data : list string) w :
  steady w -> length data = 9%nat ->
  exists b w3,
    handleButtonData (Some data) w = (Ok b, w3) /\ steady w3 /\
    log_text w3 = log_text w.
Proof.
  intros (Hc & Ht & Hr & Hs) Hlen.
  destruct data as [|s [|s0 [|s1 [|s2 [|s3 [|s4 [|s5 [|s6 [|s7 [|]]]]]]]]]];
    try discriminate Hlen.
  destruct (Hr ("pump", "Pump", 4%nat)) as [p0 Hp]; [set_solver|].
  destruct (Hr ("aerator", "Aerator", 5%nat)) as [a0 Ha]; [set_solver|].
  destruct (Hr ("lights", "Lights", 6%nat)) as [l0 Hl]; [set_solver|].
  destruct (Hr ("plug4", "Plug 4", 7%nat)) as [g0 Hg]; [set_solver|].
  simpl in Hp, Ha, Hl, Hg.
  pose proof (handleButtonData_run [s; s0; s1; s2; s3; s4; s5; s6; s7] w p0 a0 l0 g0
                s3 s4 s5 s6 eq_refl eq_refl eq_refl eq_refl Hp Ha Hl Hg) as Hrun.
  cbv zeta in Hrun. eexists _, _. split; [exact Hrun|]. split; [|done].
  split; [done|]. split; [done|]. split; [|done].
  intros a Ha'. unfold actuators in Ha'. rewrite !elem_of_cons, elem_of_nil in Ha'.
  destruct Ha' as [->|[->|[->|[->|[]]]]]; simpl; simplify_map_eq; by eexists.
Qed.

Lemma drop_expired_subseteq MAX_DATA_TIME now rs r :
  r ∈ drop_expired MAX_DATA_TIME now rs -> r ∈ rs.
Proof.
  destruct (drop_expired_drop MAX_DATA_TIME now rs) as (k & _ & -> & _).
  apply subseteq_drop.
Qed.

Lemma steady_plot MAX_DATA_TIME now data r w :
  steady w -> row_of data = Some r -> r ∈ log_rows (log_text w) ->
  exists p w4,
    handlePlotData MAX_DATA_TIME now (Some data) w = (Ok p, w4) /\ steady w4.
Proof.
  intros ((rs & Hp & Hin) & Ht & Hr & Hs) Hrow Hlog.
  destruct (handlePlotData_append MAX_DATA_TIME now rs data r w Hp Hrow)
    as (w4 & Hrun & Hp4 & Hf & Hb & Hse & _).
  exists (plotData w4), w4. split; [done|].
  assert (log_text w4 = log_text w) as Hlt by (unfold log_text; by rewrite Hf).
  split; [|split; [by rewrite Hlt|split; [|by rewrite Hse]]].
  - exists (drop_expired MAX_DATA_TIME now (rs ++ [r])). split; [done|].
    intros r' Hr'%drop_expired_subseteq. rewrite Hlt.
    apply elem_of_app in Hr' as [Hr'|Hr']; [by apply Hin|].
    apply list_elem_of_singleton in Hr' as ->. done.
  - intros a Ha. rewrite Hb. by apply Hr.
Qed.

Lemma handlePlotData_undated MAX_DATA_TIME now d0 rest n e w :
  int_of_str d0 = Ok n -> fromtimestamp n = Raise e ->
  handlePlotData MAX_DATA_TIME now (Some (d0 :: rest)) w = (Raise e, w).
Proof.
  intros Hn He. unfold handlePlotData. cbn [truthy the_list default].
  erewrite bind_raise; [reflexivity|].
  erewrite bind_ok by reflexivity.
  erewrite bind_ok by (unfold lift; by rewrite Hn).
  erewrite bind_raise; [reflexivity|]. unfold lift. by rewrite He.
Qed.

(** One round from a steady state: every point it passes is steady, it
    ends in a steady state, and it returns when [datetime] represents the
    stamp. *)
Lemma round_steady MAX_DATA_TIME stamp now w :
  steady w ->
  steady (acquire MAX_DATA_TIME stamp now w).2 /\
  Forall steady (round_points MAX_DATA_TIME stamp now w) /\
  (representable stamp -> (acquire MAX_DATA_TIME stamp now w).1 = Ok tt).
Proof.
  intros Hw. destruct (steady_read w Hw) as (d & w1 & Hread & Hw1 & Hd).
  unfold acquire, round_points. rewrite Hread. cbn [fst snd].
  erewrite bind_ok; [|exact Hread].
  destruct d as [data|].
  2:{ split; [done|]. split; [by apply Forall_singleton|done]. }
  destruct Hd as [x Hx]. pose proof Hx as (Hlen & _).
  assert (truthy (Some data) = true) as -> by (by destruct data).
  change (the_list (Some data)) with data.
  set (data' := str_of_int stamp :: data).
  destruct (steady_append stamp data x w1 Hw1 Hx) as [Hw2 Hlog]. fold data' in Hw2, Hlog.
  set (w2 := (write_file data_csv (join COMMA data' +:+ NL) w1).2) in *.
  erewrite (bind_ok _ _ w1 tt w2); [|reflexivity].
  destruct (steady_buttons data' w2 Hw2) as (b & w3 & Hrun3 & Hw3 & Hlt3).
  { simpl. by rewrite Hlen. }
  erewrite bind_ok; [|exact Hrun3]. rewrite Hrun3. cbn [snd].
  destruct x as [[x1 x2] x3]. destruct Hx as (_ & _ & _ & _ & _ & Hreadings).
  destruct (fromtimestamp stamp) as [t|e] eqn:Hstamp.
  - pose proof (fromtimestamp_ok stamp t Hstamp) as ->.
    pose proof (row_of_stamped stamp data x1 x2 x3 Hstamp Hreadings) as Hrow.
    fold data' in Hrow. specialize (Hlog Hstamp). rewrite <- Hlt3 in Hlog.
    destruct (steady_plot MAX_DATA_TIME now data' _ w3 Hw3 Hrow Hlog)
      as (p & w4 & Hrun4 & Hw4).
    erewrite bind_ok; [|exact Hrun4]. rewrite Hrun4. cbn [fst snd].
    split; [done|]. split; [|done].
    repeat (apply Forall_cons; split; [done|]). apply Forall_nil. done.
  - pose proof (handlePlotData_undated MAX_DATA_TIME now (str_of_int stamp) data stamp e w3
                  (int_of_str_of_int stamp) Hstamp) as Hrun4.
    fold data' in Hrun4.
    erewrite bind_raise; [|exact Hrun4]. rewrite Hrun4. cbn [fst snd].
    split; [done|]. split.
    + repeat (apply Forall_cons; split; [done|]). apply Forall_nil. done.
    + unfold representable. intros Hrep. rewrite Hrep in Hstamp. discriminate Hstamp.
Qed.

Lemma rounds_steady MAX_DATA_TIME clock : forall w,
  steady w ->
  steady (run_rounds MAX_DATA_TIME clock w).2 /\
  Forall steady (run_points MAX_DATA_TIME clock w) /\
  (Forall (fun c : Z * Z => representable c.1) clock ->
   (run_rounds MAX_DATA_TIME clock w).1 = Ok tt).
Proof.
  induction clock as [|c clock IH]; intros w Hw.
  { split; [done|]. split; [constructor|done]. }
  destruct (round_steady MAX_DATA_TIME c.1 c.2 w Hw) as (Hw1 & Hpts & Hret).
  destruct (IH _ Hw1) as (Hw' & Hpts' & Hret').
  unfold run_rounds in *. cbn [for_each run_points].
  destruct (acquire MAX_DATA_TIME c.1 c.2 w) as [[[]|e] w1] eqn:Hrun; cbn [fst snd] in *.
  - erewrite bind_ok by exact Hrun.
    split; [done|]. split; [by apply Forall_app|].
    intros [_ Hclock]%Forall_cons. by apply Hret'.
  - erewrite bind_raise by exact Hrun. cbn [fst snd].
    split; [done|]. split; [by apply Forall_app|].
    intros [Hc _]%Forall_cons. by specialize (Hret Hc).
Qed.

(** C1 (amended): along the rounds of the acquisition loop, with no
    compaction in between, started in a state where every entry of the
    window is an entry of the log, the log ends with a line end, the
    registry has its keys and the waiting records hold no line end and
    readings that parse: at every point passed (after the read, after the
    append to the log, after the registry update, after the window update)
    and at the end every entry of the window is an entry of the log, and
    the rounds return when their clock readings are seconds that
    [datetime] represents. *)
Theorem cache_in_log_along_rounds (MAX_DATA_TIME : Z) (clock : list (Z * Z)) (w : world) :
  steady w ->
  Forall cache_in_log (run_points MAX_DATA_TIME clock w) /\
  cache_in_log (run_rounds MAX_DATA_TIME clock w).2 /\
  (Forall (fun c : Z * Z => representable c.1) clock ->
   exists w', run_rounds MAX_DATA_TIME clock w = (Ok tt, w')).
Proof.
  intros Hw.
  destruct (rounds_steady MAX_DATA_TIME clock w Hw) as (Hw' & Hpts & Hret).
  split; [|split].
  - eapply Forall_impl; [exact Hpts|]. by intros ? [? _].
  - apply Hw'.
  - intros Hclock. specialize (Hret Hclock).
    destruct (run_rounds MAX_DATA_TIME clock w) as [r w']. cbn in Hret. subst r.
    by exists w'.
Qed.

Lemma one_record_waiting_steady : steady one_record_waiting.
Proof.
  split; [|split; [|split]].
  - exists []. split; [done|]. by intros r ?%elem_of_nil.
  - by left.
  - intros a Ha. unfold actuators in Ha. rewrite !elem_of_cons, elem_of_nil in Ha.
    destruct Ha as [->|[->|[->|[->|[]]]]]; vm_compute; by eexists.
  - apply Forall_singleton. intros data Hdec. vm_compute in Hdec.
    injection Hdec as <-. split; [by vm_compute|]. vm_compute. by eexists.
Qed.

Lemma cache_in_log_along_rounds_witness :
  exists w',
    run_rounds 2 [(100, 100)] one_record_waiting = (Ok tt, w') /\
    cache_in_log w' /\
    Forall cache_in_log (run_points 2 [(100, 100)] one_record_waiting).
Proof.
  destruct (cache_in_log_along_rounds 2 [(100, 100)] one_record_waiting
              one_record_waiting_steady) as (Hpts & Hend & Hret).
  destruct Hret as [w' Hrun].
  { apply Forall_cons. split; [reflexivity|apply Forall_nil; exact I]. }
  exists w'. rewrite Hrun in Hend. split; [exact Hrun|]. split; [exact Hend | exact Hpts].
Defined.

(** A compaction after the window of a record has passed removes its line
    from the log, while the record stays in the window until the next
    record arrives. *)
Lemma compaction_leaves_cache_ahead :
  let w1 := (acquire 2 100 100 one_record_waiting).2 in
  let r := cleanFileData 2 1000 w1 in
  cache_in_log w1 /\
  r.1 = Ok tt /\
  files r.2 !! data_csv = Some "" /\
  times (plotData r.2) = [100] /\
  ~ cache_in_log r.2.
Proof.
  intros w1 r.
  split.
  { destruct (round_steady 2 100 100 one_record_waiting one_record_waiting_steady)
      as ([Hc _] & _).
    exact Hc. }
  assert (r.1 = Ok tt) as H1 by (by vm_compute).
  assert (files r.2 !! data_csv = Some "") as H2 by (by vm_compute).
  assert (times (plotData r.2) = [100]) as H3 by (by vm_compute).
  clearbody r. clear w1. repeat split; try done.
  intros (rs & Hp & Hin). rewrite Hp in H3. unfold log_text in Hin. rewrite H2 in Hin.
  destruct rs as [|r0 rs]; [discriminate H3|].
  specialize (Hin r0 ltac:(by apply elem_of_cons; left)).
  by apply elem_of_nil in Hin.
Qed.


(** ** Commands sent to the device *)

Lemma pbind_ok {A B} (c : Act A) (k : A -> Act B) a x a' :
  c a = (Ok x, a') -> (c ≫= k) a = k x a'.
Proof. intros H. unfold mbind, Act_bind, pbind. now rewrite H. Qed.

Lemma pbind_raise {A B} (c : Act A) (k : A -> Act B) a e a' :
  c a = (Raise e, a') -> (c ≫= k) a = (Raise e, a').
Proof. intros H. unfold mbind, Act_bind, pbind. now rewrite H. Qed.

Lemma drop_last_snoc (s : string) c : drop_last (s +:+ String c "") = s.
Proof.
  induction s as [|d s IH].
  - reflexivity.
  - rewrite append_cons. cbn [drop_last]. rewrite IH.
    destruct s; [reflexivity|]. now rewrite append_cons.
Qed.

Lemma join_snoc sep (xs : list string) v :
  xs <> [] -> join sep (xs ++ [v]) = join sep xs +:+ String sep v.
Proof.
  induction xs as [|x xs IH]; [done|]. intros _.
  destruct xs as [|y xs].
  - reflexivity.
  - change ((x :: y :: xs) ++ [v]) with (x :: (y :: xs) ++ [v]).
    change ((y :: xs) ++ [v]) with (y :: (xs ++ [v])) at 1.
    rewrite join_cons. change (y :: (xs ++ [v])) with ((y :: xs) ++ [v]).
    rewrite IH by done. rewrite join_cons.
    rewrite !append_assoc, append_cons. reflexivity.
Qed.

Lemma message_fold (f : string -> string) (ks : list string) :
  foldl (fun msg k => msg +:+ (f k +:+ ",")) "" ks =
    match ks with
    | [] => ""
    | _ => join COMMA (f <$> ks) +:+ ","
    end.
Proof.
  induction ks as [|k ks IH] using rev_ind; [reflexivity|].
  rewrite foldl_app. cbn [foldl]. rewrite IH.
  destruct ks as [|k0 ks].
  - cbn. now rewrite append_nil_l.
  - rewrite fmap_app. cbn [fmap list_fmap app].
    change (f k0 :: (f <$> ks) ++ [f k]) with ((f k0 :: (f <$> ks)) ++ [f k]).
    rewrite join_snoc by done.
    rewrite !append_assoc. reflexivity.
Qed.

Lemma message_text (f : string -> string) (ks : list string) :
  drop_last (foldl (fun msg k => msg +:+ (f k +:+ ",")) "" ks) = join COMMA (f <$> ks).
Proof.
  rewrite message_fold. destruct ks; [reflexivity|].
  apply drop_last_snoc.
Qed.

Lemma five_buttons_keys b : five_buttons b -> button_keys b = button_order.
Proof.
  intros H. unfold button_keys, button_order.
  assert (Hk : forall k, k ∈ button_order -> is_Some (b !! k)) by (intros k; apply H).
  cbn [List.filter].
  destruct (Hk "pump") as [? ->]; [unfold button_order; repeat constructor|].
  destruct (Hk "aerator") as [? ->]; [unfold button_order; repeat constructor|].
  destruct (Hk "lights") as [? ->]; [unfold button_order; repeat constructor|].
  destruct (Hk "plug4") as [? ->]; [unfold button_order; repeat constructor|].
  destruct (Hk "stop") as [? ->]; [unfold button_order; repeat constructor|].
  reflexivity.
Qed.

Lemma five_buttons_insert b k v :
  five_buttons b -> k ∈ button_order -> five_buttons (<[k := v]> b).
Proof.
  intros H Hk j. rewrite lookup_insert_is_Some, (H j). split.
  - intros [<-|[_ ?]]; done.
  - intros Hj. destruct (decide (k = j)); [now left | now right].
Qed.

Lemma five_buttons_initial : five_buttons (buttonStates initial).
Proof.
  intros k. cbn [buttonStates initial list_to_map foldr uncurry fst snd].
  rewrite !lookup_insert_is_Some, lookup_empty. unfold button_order.
  rewrite !elem_of_cons, elem_of_nil. split.
  - intros [<-|[_ [<-|[_ [<-|[_ [<-|[_ [<-|[_ H]]]]]]]]]]; auto 10.
    now destruct H.
  - intros [->|[->|[->|[->|[->|[]]]]]].
    + now left.
    + right; split; [done|]; now left.
    + right; split; [done|]; right; split; [done|]; now left.
    + right; split; [done|]; right; split; [done|]; right; split; [done|]; now left.
    + right; split; [done|]; right; split; [done|]; right; split; [done|];
        right; split; [done|]; now left.
Qed.

Lemma writeButtonStates_run a :
  five_buttons (buttonStates (globals a)) ->
  let b := buttonStates (globals a) in
  writeButtonStates a =
    (Ok (utf8_length (command_of b)),
     set_sent (sent a ++ [command_of b])
       (set_globals
          (set_console (console (globals a) ++
             [Say ("Sending button states to serial: " +:+ join COMMA (button_values b))])
             (globals a)) a)).
Proof.
  intros H b. unfold writeButtonStates.
  erewrite pbind_ok by reflexivity. fold b.
  rewrite five_buttons_keys by done.
  rewrite message_text. reflexivity.
Qed.

Lemma split_free sep s : count_char sep s = O -> split sep s = [s].
Proof.
  induction s as [|c s IH]; [done|]. cbn [count_char split].
  destruct (Ascii.eqb c sep); [done|]. intros H. now rewrite IH.
Qed.

Lemma split_join sep (xs : list string) :
  xs <> [] -> Forall (fun v => count_char sep v = O) xs ->
  split sep (join sep xs) = xs.
Proof.
  induction xs as [|x xs IH]; [done|]. intros _ H.
  apply Forall_cons in H as [Hx Hxs].
  destruct xs as [|y xs].
  - now apply split_free.
  - rewrite join_cons, split_app_sep by done. now rewrite IH.
Qed.

Lemma button_values_stop b v :
  button_values (<["stop" := v]> b) = take 4 (button_values b) ++ [v].
Proof.
  unfold button_values, button_order. cbn [fmap list_fmap take app].
  rewrite !lookup_insert_ne by done. now rewrite lookup_insert_eq.
Qed.

(** X1: with the five buttons in the registry, [writeButtonStates] hands
    one text to the serial port: the five states in the order pump,
    aerator, lights, plug4, stop, separated by commas and closed by a line
    end, without a comma at the end.  It returns the number of bytes of
    that text, changes neither the registry nor a file nor the window, and
    the text without its line end splits back into the five states when no
    state holds a comma. *)
Theorem writeButtonStates_sends_registry (a : runtime) :
  five_buttons (buttonStates (globals a)) ->
  let b := buttonStates (globals a) in
  exists a',
    writeButtonStates a = (Ok (utf8_length (command_of b)), a') /\
    sent a' = sent a ++ [join COMMA (button_values b) +:+ NL] /\
    length (button_values b) = 5%nat /\
    buttonStates (globals a') = b /\
    files (globals a') = files (globals a) /\
    plotData (globals a') = plotData (globals a) /\
    (Forall (fun v => count_char COMMA v = O) (button_values b) ->
     split COMMA (join COMMA (button_values b)) = button_values b).
Proof.
  intros H b. eexists. split; [apply writeButtonStates_run, H|].
  repeat split. intros Hv. now apply split_join.
Qed.

Lemma writeButtonStates_sends_registry_witness :
  exists a',
    writeButtonStates runtime_initial = (Ok 10%nat, a') /\
    sent a' = ["0,0,0,0,0" +:+ NL].
Proof.
  destruct (writeButtonStates_sends_registry runtime_initial five_buttons_initial)
    as (a' & H1 & H2 & _).
  exists a'. split; [exact H1 | exact H2].
Defined.

Lemma stopButton_run (n_clicks : Z) (a : runtime) :
  five_buttons (buttonStates (globals a)) ->
  let b := buttonStates (globals a) in
  exists a',
    stopButton n_clicks a = (Ok 0, a') /\
    sent a' = sent a ++ [command_of (<["stop" := "1"]> b)] /\
    buttonStates (globals a') = <["stop" := "0"]> b /\
    preventCallback a' = preventCallback a /\
    threadsPaused a' = threadsPaused a.
Proof.
  intros H b. unfold stopButton.
  erewrite pbind_ok by reflexivity.
  erewrite pbind_ok.
  2:{ apply writeButtonStates_run. cbn. apply five_buttons_insert; [done|].
      unfold button_order. rewrite !elem_of_cons. auto 10. }
  erewrite pbind_ok by reflexivity.
  eexists. split; [reflexivity|]. cbn.
  fold b. by rewrite insert_insert_eq.
Qed.

(** X2: with the five buttons in the registry, [stopButton] sends one
    text, the states of the four switches as they are followed by "1" for
    stop, returns 0, and leaves the registry as it was but for stop, which
    is "0" afterwards whatever it was before. *)
Theorem stopButton_pulse (n_clicks : Z) (a : runtime) :
  five_buttons (buttonStates (globals a)) ->
  let b := buttonStates (globals a) in
  exists a',
    stopButton n_clicks a = (Ok 0, a') /\
    sent a' = sent a ++ [join COMMA (take 4 (button_values b) ++ ["1"]) +:+ NL] /\
    buttonStates (globals a') = <["stop" := "0"]> b /\
    (forall k, k <> "stop" -> buttonStates (globals a') !! k = b !! k) /\
    preventCallback a' = preventCallback a /\
    threadsPaused a' = threadsPaused a.
Proof.
  intros H b.
  destruct (stopButton_run n_clicks a H) as (a' & Hrun & Hsent & Hb & Hp & Ht).
  fold b in Hsent, Hb.
  exists a'. split; [exact Hrun|].
  split.
  { rewrite Hsent. unfold command_of. by rewrite button_values_stop. }
  split; [exact Hb|].
  split; [|by split].
  intros k Hk. rewrite Hb. by rewrite lookup_insert_ne.
Qed.

Lemma stopButton_pulse_witness :
  exists a',
    stopButton 1 runtime_initial = (Ok 0, a') /\
    sent a' = ["0,0,0,0,1" +:+ NL] /\
    buttonStates (globals a') = <["stop" := "0"]> (buttonStates initial).
Proof.
  destruct (stopButton_pulse 1 runtime_initial five_buttons_initial)
    as (a' & H1 & H2 & H3 & _).
  exists a'. split; [exact H1 | split; [exact H2 | exact H3]].
Defined.

Lemma button_order_elem k :
  k ∈ button_order <->
  k = "pump" \/ k = "aerator" \/ k = "lights" \/ k = "plug4" \/ k = "stop".
Proof.
  unfold button_order. rewrite !elem_of_cons, elem_of_nil. intuition.
Qed.

Lemma updateButtonStates_run (pump aerator lights plug4 : bool)
    (state : gmap string flag) (a : runtime) :
  preventCallback a = false ->
  five_buttons (buttonStates (globals a)) ->
  let b := buttonStates (globals a) in
  let b' := <["plug4" := on_off plug4]> (<["lights" := on_off lights]>
              (<["aerator" := on_off aerator]> (<["pump" := on_off pump]> b))) in
  exists a',
    updateButtonStates pump aerator lights plug4 state a = (Ok (FStr <$> b'), a') /\
    buttonStates (globals a') = b' /\
    sent a' = sent a ++ [command_of b'] /\
    preventCallback a' = false.
Proof.
  intros Hp H b b'. unfold updateButtonStates.
  erewrite pbind_ok by reflexivity. rewrite Hp.
  do 4 (erewrite pbind_ok by reflexivity).
  assert (H' : five_buttons b').
  { unfold b'. repeat apply five_buttons_insert; try done;
      apply button_order_elem; auto 10. }
  erewrite pbind_ok.
  2:{ apply writeButtonStates_run. exact H'. }
  erewrite pbind_ok by reflexivity.
  eexists. split; [reflexivity|]. cbn. by fold b b'.
Qed.

(** X3: when the flag [preventCallback] is down and the five buttons are
    in the registry, [updateButtonStates] stores "1" or "0" for each of
    the four switches according to its argument, leaves stop as it is,
    sends one text with the new states, and returns the registry. *)
Theorem updateButtonStates_acts (pump aerator lights plug4 : bool)
    (state : gmap string flag) (a : runtime) :
  preventCallback a = false ->
  five_buttons (buttonStates (globals a)) ->
  let b := buttonStates (globals a) in
  let b' := <["plug4" := on_off plug4]> (<["lights" := on_off lights]>
              (<["aerator" := on_off aerator]> (<["pump" := on_off pump]> b))) in
  exists a',
    updateButtonStates pump aerator lights plug4 state a = (Ok (FStr <$> b'), a') /\
    buttonStates (globals a') = b' /\
    b' !! "stop" = b !! "stop" /\
    sent a' = sent a ++
      [join COMMA [on_off pump; on_off aerator; on_off lights; on_off plug4;
                   default "" (b !! "stop")] +:+ NL] /\
    preventCallback a' = false.
Proof.
  intros Hp H b b'.
  destruct (updateButtonStates_run pump aerator lights plug4 state a Hp H)
    as (a' & Hrun & Hb & Hsent & Hflag).
  fold b in Hrun, Hb, Hsent. fold b' in Hrun, Hb, Hsent.
  exists a'. split; [exact Hrun|]. split; [exact Hb|].
  split; [unfold b'; by rewrite !lookup_insert_ne by done|].
  split; [|exact Hflag].
  rewrite Hsent. unfold command_of, button_values, button_order, b'.
  cbn [fmap list_fmap].
  repeat (rewrite ?lookup_insert_eq; rewrite ?lookup_insert_ne by done).
  reflexivity.
Qed.

Lemma updateButtonStates_acts_witness :
  exists a',
    updateButtonStates true false false true ∅ runtime_initial =
      (Ok (FStr <$> <["plug4" := "1"]> (<["lights" := "0"]>
             (<["aerator" := "0"]> (<["pump" := "1"]> (buttonStates initial))))), a') /\
    sent a' = ["1,0,0,1,0" +:+ NL].
Proof.
  destruct (updateButtonStates_acts true false false true ∅ runtime_initial
              eq_refl five_buttons_initial) as (a' & H1 & _ & _ & H2 & _).
  exists a'. split; [exact H1 | exact H2].
Defined.

Lemma updateToggleButtons_run (n : Z) (state : gmap string flag) (a : runtime) :
  five_buttons (buttonStates (globals a)) ->
  let b := buttonStates (globals a) in
  let shown k := FBool (String.eqb (default "" (b !! k)) "1") in
  updateToggleButtons n state a =
    (Ok (shown "pump", shown "aerator", shown "lights", shown "plug4"),
     set_preventCallback true a).
Proof.
  intros H b shown. unfold updateToggleButtons.
  erewrite pbind_ok by reflexivity.
  erewrite pbind_ok by reflexivity.
  cbn [globals set_preventCallback]. fold b.
  rewrite five_buttons_keys by done. unfold button_order. cbn [foldl].
  unfold store_item.
  repeat (rewrite ?lookup_insert_eq; rewrite ?lookup_insert_ne by done).
  reflexivity.
Qed.

(** X4: with the five buttons in the registry, [updateToggleButtons]
    answers, for each of the four switches, whether the registry holds
    exactly the text "1" for it, whatever the store held; it raises the
    flag [preventCallback] and changes nothing else, and nothing is
    sent. *)
Theorem updateToggleButtons_shows_registry (n : Z) (state : gmap string flag)
    (a : runtime) :
  five_buttons (buttonStates (globals a)) ->
  let b := buttonStates (globals a) in
  exists a',
    updateToggleButtons n state a =
      (Ok (FBool (bool_decide (b !! "pump" = Some "1")),
           FBool (bool_decide (b !! "aerator" = Some "1")),
           FBool (bool_decide (b !! "lights" = Some "1")),
           FBool (bool_decide (b !! "plug4" = Some "1"))), a') /\
    preventCallback a' = true /\
    globals a' = globals a /\ sent a' = sent a /\
    threadsPaused a' = threadsPaused a /\ stopThreads a' = stopThreads a.
Proof.
  intros H b. exists (set_preventCallback true a). split; [|repeat split].
  rewrite updateToggleButtons_run by done. fold b.
  assert (Hs : forall k, k ∈ button_order ->
            String.eqb (default "" (b !! k)) "1" = bool_decide (b !! k = Some "1")).
  { intros k Hk. apply H in Hk as [v Hv]. fold b in Hv. rewrite Hv. cbn.
    destruct (String.eqb_spec v "1") as [->|Hne].
    - now rewrite bool_decide_eq_true_2.
    - rewrite bool_decide_eq_false_2; [done|]. congruence. }
  rewrite !Hs by (apply button_order_elem; auto 10). reflexivity.
Qed.

Lemma updateToggleButtons_shows_registry_witness :
  exists a',
    updateToggleButtons 7 ∅ runtime_initial =
      (Ok (FBool false, FBool false, FBool false, FBool false), a') /\
    preventCallback a' = true.
Proof.
  destruct (updateToggleButtons_shows_registry 7 ∅ runtime_initial five_buttons_initial)
    as (a' & H1 & H2 & _).
  exists a'. split; [exact H1 | exact H2].
Defined.

(** X5: the call of [updateButtonStates] that follows a call of
    [updateToggleButtons] is dropped: whatever positions of the switches
    it is given, also positions that differ from the registry, it sends
    nothing, leaves the registry as it was and returns the store it was
    given; it only lowers the flag again. *)
Theorem refresh_drops_next_update (n : Z) (state state' : gmap string flag)
    (pump aerator lights plug4 : bool) (a : runtime) :
  five_buttons (buttonStates (globals a)) ->
  exists shown a1 a2,
    updateToggleButtons n state a = (Ok shown, a1) /\
    updateButtonStates pump aerator lights plug4 state' a1 = (Ok state', a2) /\
    globals a2 = globals a /\ sent a2 = sent a /\
    preventCallback a2 = false.
Proof.
  intros H. eexists _, (set_preventCallback true a), (set_preventCallback false a).
  split; [now apply updateToggleButtons_run|].
  split; [|repeat split]. reflexivity.
Qed.

Lemma refresh_drops_next_update_witness :
  exists shown a1 a2,
    updateToggleButtons 7 ∅ runtime_initial = (Ok shown, a1) /\
    updateButtonStates true true true true ∅ a1 = (Ok ∅, a2) /\
    globals a2 = initial /\ sent a2 = [] /\ preventCallback a2 = false.
Proof.
  exact (refresh_drops_next_update 7 ∅ ∅ true true true true runtime_initial
           five_buttons_initial).
Defined.

(** ** What the operations leave alone *)

#[global] Instance same_keys_preorder : PreOrder same_keys.
Proof.
  split.
  - intros w k. reflexivity.
  - intros w1 w2 w3 H12 H23 k. now rewrite (H23 k), (H12 k).
Qed.

Lemma keeps_weaken {A} (R R' : relation world) (c : M A) :
  (forall w w', R w w' -> R' w w') -> keeps R c -> keeps R' c.
Proof. intros HR Hc w. apply HR, Hc. Qed.

Lemma same_buttons_keys w w' : same buttonStates w w' -> same_keys w w'.
Proof. unfold same. intros H k. now rewrite H. Qed.

Lemma trim_keeps {B} (f : world -> B) MAX_DATA_TIME now n :
  (forall p w, f (set_plotData p w) = f w) ->
  keeps (same f) (trim MAX_DATA_TIME now n).
Proof.
  intros Hf. induction n as [|n IH]; cbn [trim]; [by keeps_step|].
  unfold pop_time, pop_temp, pop_ph, pop_oxygen.
  repeat keeps_step; unfold same; try apply Hf; done.
Qed.

Lemma handlePlotData_keeps {B} (f : world -> B) MAX_DATA_TIME now data :
  (forall p w, f (set_plotData p w) = f w) ->
  (forall c w, f (set_currentValues c w) = f w) ->
  (forall c w, f (set_console c w) = f w) ->
  keeps (same f) (handlePlotData MAX_DATA_TIME now data).
Proof.
  intros Hp Hc Hs. unfold handlePlotData.
  keeps_step.
  - destruct (truthy data); [|by keeps_step].
    unfold set_current, append_time, append_temp, append_ph, append_oxygen.
    repeat keeps_step; unfold same; try apply Hp; try apply Hc; try apply Hs; done.
  - keeps_step; [|by keeps_step].
    destruct a; [|by keeps_step].
    keeps_step; [by keeps_step|]. by apply trim_keeps.
Qed.

Lemma parseSerialData_keeps {B} (f : world -> B) :
  (forall s w, f (set_serial s w) = f w) ->
  (forall c w, f (set_console c w) = f w) ->
  keeps (same f) parseSerialData.
Proof.
  intros Hs Hc w. unfold same, parseSerialData.
  destruct (parse_pending (serial w)) as [[d p] ns]. cbn. now rewrite Hc, Hs.
Qed.

Lemma observe_keeps_keys key label i data : keeps same_keys (observe key label i data).
Proof.
  intros w.
  destruct (buttonStates w !! key) as [cur|] eqn:Hcur.
  - destruct (data !! i) as [v|] eqn:Hv.
    + rewrite (observe_spec key label i data w cur v) by done.
      intros k. cbn. rewrite lookup_insert_is_Some.
      destruct (decide (key = k)) as [<-|Hne]; [rewrite Hcur; intuition eauto|].
      intuition.
    + unfold observe, button, item. cbv [mbind M_bind bind gets].
      rewrite Hcur, Hv. reflexivity.
  - unfold observe, button. cbv [mbind M_bind bind gets].
    rewrite Hcur. reflexivity.
Qed.

Lemma handleButtonData_keeps_keys data : keeps same_keys (handleButtonData data).
Proof.
  unfold handleButtonData.
  keeps_step; [|keeps_step].
  destruct (truthy data); [|keeps_step].
  repeat (keeps_step; [by apply observe_keeps_keys|]).
  by apply observe_keeps_keys.
Qed.

Lemma acquire_keeps_keys MAX_DATA_TIME stamp now :
  keeps same_keys (acquire MAX_DATA_TIME stamp now).
Proof.
  unfold acquire. keeps_step.
  - apply (keeps_weaken (same buttonStates)); [apply same_buttons_keys|].
    by apply parseSerialData_keeps.
  - destruct (truthy a); [|keeps_step].
    keeps_step; [unfold write_file; keeps_step; done|].
    keeps_step; [apply handleButtonData_keeps_keys|].
    keeps_step; [|keeps_step].
    apply (keeps_weaken (same buttonStates)); [apply same_buttons_keys|].
    by apply handlePlotData_keeps.
Qed.

Lemma five_buttons_same_keys w w' :
  same_keys w w' -> five_buttons (buttonStates w) -> five_buttons (buttonStates w').
Proof. intros H H5 k. now rewrite (H k). Qed.

(** X6: the registry never gains or loses a key.  When it holds the five
    buttons, as it does at the start, it still holds exactly them after
    [handleButtonData], after a turn of the loop of [writeFileData], after
    [updateButtonStates] and after [stopButton], whatever their arguments
    and whether they return or raise. *)
Theorem registry_keeps_five_buttons (a : runtime) :
  five_buttons (buttonStates (globals a)) ->
  (forall data, five_buttons (buttonStates (handleButtonData data (globals a)).2)) /\
  (forall MAX_DATA_TIME stamp now,
     five_buttons (buttonStates (globals (writeFileData_turn MAX_DATA_TIME stamp now a).2))) /\
  (forall pump aerator lights plug4 state,
     five_buttons (buttonStates
       (globals (updateButtonStates pump aerator lights plug4 state a).2))) /\
  (forall n_clicks, five_buttons (buttonStates (globals (stopButton n_clicks a).2))).
Proof.
  intros H. split; [|split; [|split]].
  - intros data. eapply five_buttons_same_keys; [apply handleButtonData_keeps_keys|done].
  - intros MAX_DATA_TIME stamp now. unfold writeFileData_turn.
    erewrite pbind_ok by reflexivity.
    destruct (stopThreads a); [done|].
    erewrite pbind_ok by reflexivity.
    destruct (threadsPaused a); [done|].
    pose proof (acquire_keeps_keys MAX_DATA_TIME stamp now (globals a)) as Hk.
    unfold mbind, Act_bind, pbind, on_globals.
    destruct (acquire MAX_DATA_TIME stamp now (globals a)) as [[[]|e] w'];
      cbn in *; eapply five_buttons_same_keys; eauto.
  - intros pump aerator lights plug4 state.
    destruct (preventCallback a) eqn:Hp.
    + unfold updateButtonStates. erewrite pbind_ok by reflexivity. now rewrite Hp.
    + destruct (updateButtonStates_run pump aerator lights plug4 state a Hp H)
        as (a' & Hrun & Hb & _).
      rewrite Hrun. cbn [snd]. rewrite Hb.
      repeat apply five_buttons_insert; try done; apply button_order_elem; auto 10.
  - intros n_clicks.
    destruct (stopButton_run n_clicks a H) as (a' & Hrun & _ & Hb & _).
    rewrite Hrun. cbn [snd]. rewrite Hb.
    apply five_buttons_insert; [done|]. apply button_order_elem; auto 10.
Qed.

Lemma registry_keeps_five_buttons_witness :
  five_buttons (buttonStates (globals (stopButton 1 runtime_initial).2)).
Proof.
  apply (registry_keeps_five_buttons runtime_initial five_buttons_initial).
Defined.

(** ** [handleButtonData] at the edges *)

Lemma observe_raise key label i (data : list string) w cur :
  buttonStates w !! key = Some cur -> data !! i = None ->
  observe key label i data w = (Raise IndexError, w).
Proof.
  intros Hcur Hv. unfold observe, button, item. cbv [mbind M_bind bind gets].
  now rewrite Hcur, Hv.
Qed.

Lemma registry_ready_values w :
  registry_ready w ->
  exists p0 a0 l0 g0,
    buttonStates w !! "pump" = Some p0 /\ buttonStates w !! "aerator" = Some a0 /\
    buttonStates w !! "lights" = Some l0 /\ buttonStates w !! "plug4" = Some g0.
Proof.
  intros H.
  destruct (H ("pump", "Pump", 4%nat)) as [p0 Hp]; [set_solver|].
  destruct (H ("aerator", "Aerator", 5%nat)) as [a0 Ha]; [set_solver|].
  destruct (H ("lights", "Lights", 6%nat)) as [l0 Hl]; [set_solver|].
  destruct (H ("plug4", "Plug 4", 7%nat)) as [g0 Hg]; [set_solver|].
  by exists p0, a0, l0, g0.
Qed.

Ltac each_actuator a Ha :=
  unfold actuators in Ha;
  repeat (apply elem_of_cons in Ha as [->|Ha]); try by apply elem_of_nil in Ha.

Ltac lookup_buttons :=
  cbn; repeat (rewrite ?lookup_insert_eq; rewrite ?lookup_insert_ne by done).

Ltac fields_applied :=
  let a := fresh "a" in let Hin := fresh "Hin" in let Hs := fresh "Hs" in
  intros a Hin Hs; each_actuator a Hin; cbn in Hs; lookup_buttons;
  first [done | exfalso; destruct Hs; congruence].

Ltac fields_missing :=
  let a := fresh "a" in let Hin := fresh "Hin" in let Hs := fresh "Hs" in
  intros a Hin Hs; each_actuator a Hin; cbn in Hs; lookup_buttons;
  first [done | exfalso; congruence].

(** X7: on a record that is not empty and has fewer than eight fields,
    [handleButtonData] raises IndexError; the switches whose field is
    there have been set to it by then, the others are as they were. *)
Theorem handleButtonData_short_record (data : list string) (w : world) :
  registry_ready w -> data <> [] -> (length data < 8)%nat ->
  exists w',
    handleButtonData (Some data) w = (Raise IndexError, w') /\
    (forall a, a ∈ actuators -> is_Some (data !! a.2) ->
       buttonStates w' !! a.1.1 = data !! a.2) /\
    (forall a, a ∈ actuators -> data !! a.2 = None ->
       buttonStates w' !! a.1.1 = buttonStates w !! a.1.1).
Proof.
  intros Hready Hne Hlen.
  destruct (registry_ready_values w Hready) as (p0 & a0 & l0 & g0 & Hp & Ha & Hl & Hg).
  assert (H7 : data !! 7%nat = None) by (apply lookup_ge_None; lia).
  unfold handleButtonData.
  assert (Ht : truthy (Some data) = true) by (destruct data; done).
  rewrite Ht. change (the_list (Some data)) with data.
  destruct (data !! 4%nat) as [d4|] eqn:H4.
  2:{ assert (H5 : data !! 5%nat = None)
        by (apply lookup_ge_None; apply lookup_ge_None in H4; lia).
      assert (H6 : data !! 6%nat = None)
        by (apply lookup_ge_None; apply lookup_ge_None in H4; lia).
      exists w. split.
      - erewrite bind_raise; [reflexivity|].
        erewrite bind_raise; [reflexivity|]. by eapply observe_raise.
      - split; [fields_applied | fields_missing]. }
  pose proof (observe_spec "pump" "Pump" 4 data w p0 d4 Hp H4) as E1.
  set (w1 := set_console _ _) in E1.
  destruct (data !! 5%nat) as [d5|] eqn:H5.
  2:{ assert (H6 : data !! 6%nat = None)
        by (apply lookup_ge_None; apply lookup_ge_None in H5; lia).
      exists w1. split.
      - erewrite bind_raise; [reflexivity|].
        erewrite bind_ok by exact E1.
        erewrite bind_raise; [reflexivity|].
        eapply observe_raise; [|done]. subst w1; cbn. by rewrite lookup_insert_ne.
      - subst w1. split; [fields_applied | fields_missing]. }
  assert (Ha1 : buttonStates w1 !! "aerator" = Some a0)
    by (subst w1; cbn; by rewrite lookup_insert_ne).
  pose proof (observe_spec "aerator" "Aerator" 5 data w1 a0 d5 Ha1 H5) as E2.
  set (w2 := set_console _ _) in E2.
  destruct (data !! 6%nat) as [d6|] eqn:H6.
  2:{ exists w2. split.
      - erewrite bind_raise; [reflexivity|].
        erewrite bind_ok by exact E1. erewrite bind_ok by exact E2.
        erewrite bind_raise; [reflexivity|].
        eapply observe_raise; [|done]. subst w2 w1; cbn.
        by rewrite !lookup_insert_ne.
      - subst w2 w1. split; [fields_applied | fields_missing]. }
  assert (Hl2 : buttonStates w2 !! "lights" = Some l0)
    by (subst w2 w1; cbn; by rewrite !lookup_insert_ne).
  pose proof (observe_spec "lights" "Lights" 6 data w2 l0 d6 Hl2 H6) as E3.
  set (w3 := set_console _ _) in E3.
  exists w3. split.
  - erewrite bind_raise; [reflexivity|].
    erewrite bind_ok by exact E1. erewrite bind_ok by exact E2.
    erewrite bind_ok by exact E3.
    eapply observe_raise; [|done]. subst w3 w2 w1; cbn.
    by rewrite !lookup_insert_ne.
  - subst w3 w2 w1. split; [fields_applied | fields_missing].
Qed.

Lemma registry_ready_initial : registry_ready initial.
Proof.
  intros a Hin. each_actuator a Hin; cbn; by eexists.
Qed.

Lemma actuators_elem a :
  a ∈ actuators <->
  a = ("pump", "Pump", 4%nat) \/ a = ("aerator", "Aerator", 5%nat) \/
  a = ("lights", "Lights", 6%nat) \/ a = ("plug4", "Plug 4", 7%nat).
Proof. unfold actuators. rewrite !elem_of_cons, elem_of_nil. intuition. Qed.

Lemma handleButtonData_short_record_witness :
  exists w',
    handleButtonData (Some ["1700000000"; "23.5"; "7.1"; "6.8"; "1"; "1"]) initial =
      (Raise IndexError, w') /\
    buttonStates w' !! "pump" = Some "1" /\
    buttonStates w' !! "aerator" = Some "1" /\
    buttonStates w' !! "lights" = Some "0".
Proof.
  destruct (handleButtonData_short_record
              ["1700000000"; "23.5"; "7.1"; "6.8"; "1"; "1"] initial
              registry_ready_initial) as (w' & H1 & H2 & H3); [done|simpl; lia|].
  exists w'. split; [exact H1|]. split; [|split].
  - apply (H2 ("pump", "Pump", 4%nat)); [apply actuators_elem; auto|by eexists].
  - apply (H2 ("aerator", "Aerator", 5%nat)); [apply actuators_elem; auto|by eexists].
  - apply (H3 ("lights", "Lights", 6%nat)); [apply actuators_elem; auto|reflexivity].
Defined.

(** X8: a second call of [handleButtonData] with the same record of at
    least eight fields changes nothing and prints nothing: it returns the
    registry the first call returned and leaves the globals as the first
    call left them. *)
Theorem handleButtonData_idempotent (data : list string) (w : world) :
  registry_ready w -> (8 <= length data)%nat ->
  exists b w1,
    handleButtonData (Some data) w = (Ok b, w1) /\
    handleButtonData (Some data) w1 = (Ok b, w1).
Proof.
  intros Hready Hlen.
  destruct (registry_ready_values w Hready) as (p0 & a0 & l0 & g0 & Hp & Ha & Hl & Hg).
  destruct (lookup_lt_is_Some_2 data 4) as [d4 H4]; [lia|].
  destruct (lookup_lt_is_Some_2 data 5) as [d5 H5]; [lia|].
  destruct (lookup_lt_is_Some_2 data 6) as [d6 H6]; [lia|].
  destruct (lookup_lt_is_Some_2 data 7) as [d7 H7]; [lia|].
  pose proof (handleButtonData_run data w p0 a0 l0 g0 d4 d5 d6 d7
                H4 H5 H6 H7 Hp Ha Hl Hg) as E1.
  cbv zeta in E1.
  set (b := <["plug4" := d7]> _) in E1.
  set (w1 := set_console _ _) in E1.
  exists b, w1. split; [exact E1|].
  assert (Bp : b !! "pump" = Some d4) by (subst b; by simplify_map_eq).
  assert (Ba : b !! "aerator" = Some d5) by (subst b; by simplify_map_eq).
  assert (Bl : b !! "lights" = Some d6) by (subst b; by simplify_map_eq).
  assert (Bg : b !! "plug4" = Some d7) by (subst b; by simplify_map_eq).
  rewrite (handleButtonData_run data w1 d4 d5 d6 d7 d4 d5 d6 d7
             H4 H5 H6 H7 Bp Ba Bl Bg).
  cbv zeta. change (buttonStates w1) with b.
  rewrite (insert_id b "pump" d4) by done.
  rewrite (insert_id b "aerator" d5) by done.
  rewrite (insert_id b "lights" d6) by done.
  rewrite (insert_id b "plug4" d7) by done.
  unfold note. rewrite !String.eqb_refl. cbn [app]. rewrite app_nil_r.
  reflexivity.
Qed.

Lemma handleButtonData_idempotent_witness :
  exists b w1,
    handleButtonData
      (Some ["1700000000"; "23.5"; "7.1"; "6.8"; "1"; "0"; "0"; "0"; "0"]) initial
      = (Ok b, w1) /\
    handleButtonData
      (Some ["1700000000"; "23.5"; "7.1"; "6.8"; "1"; "0"; "0"; "0"; "0"]) w1
      = (Ok b, w1).
Proof.
  apply (handleButtonData_idempotent
           ["1700000000"; "23.5"; "7.1"; "6.8"; "1"; "0"; "0"; "0"; "0"] initial
           registry_ready_initial).
  simpl. lia.
Defined.

(** ** [handlePlotData] at the edges *)

Ltac run_record_block Hn H0 :=
  unfold handlePlotData; cbn [truthy the_list default];
  erewrite (bind_ok _ _ _ false _);
  [|unfold item, lift, try_except, set_current, append_time, append_temp,
      append_ph, append_oxygen, print, modify, mbind, M_bind, bind, ret; simpl;
    rewrite Hn; simpl; rewrite H0; simpl].

(** X9: when the stamp of a record reads as an integer that
    [datetime.fromtimestamp] accepts but one of its three readings does
    not read as a float, [handlePlotData] returns
    without raising: the displays have the three texts, the stamp has been
    appended to the window but no dissolved-oxygen value has, so the lists
    of the window no longer have the same length; the skipped entry is
    printed and nothing is trimmed. *)
Theorem handlePlotData_unparseable_reading
    (MAX_DATA_TIME now : Z) (d0 d1 d2 d3 : string) (rest : list string) (t : Z)
    (w : world) :
  stamp_of d0 = Ok t ->
  readings_of (d1 :: d2 :: d3 :: rest) = None ->
  let data := d0 :: d1 :: d2 :: d3 :: rest in
  exists w',
    handlePlotData MAX_DATA_TIME now (Some data) w = (Ok (plotData w'), w') /\
    times (plotData w') = times (plotData w) ++ [t] /\
    oxygens (plotData w') = oxygens (plotData w) /\
    console w' = console w ++ [SkippingEntry data] /\
    currentValues w' =
      <["dissolved_oxygen" := PStr d3]>
        (<["ph" := PStr d2]> (<["temp" := PStr d1]> (currentValues w))) /\
    files w' = files w /\ buttonStates w' = buttonStates w.
Proof.
  intros H0 Hr data. unfold readings_of in Hr. subst data.
  unfold stamp_of in H0. destruct (int_of_str d0) as [n|] eqn:Hn; [|done].
  destruct (float_of_str d1) as [x1|e1] eqn:H1.
  - destruct (float_of_str d2) as [x2|e2] eqn:H2.
    + destruct (float_of_str d3) as [x3|e3] eqn:H3; [done|].
      run_record_block Hn H0.
      2:{ rewrite H1. simpl. rewrite H2. simpl. rewrite H3. simpl. reflexivity. }
      erewrite bind_ok by reflexivity.
      eexists. split; [reflexivity|]. done.
    + run_record_block Hn H0.
      2:{ rewrite H1. simpl. rewrite H2. simpl. reflexivity. }
      erewrite bind_ok by reflexivity.
      eexists. split; [reflexivity|]. done.
  - run_record_block Hn H0.
    2:{ rewrite H1. simpl. reflexivity. }
    erewrite bind_ok by reflexivity.
    eexists. split; [reflexivity|]. done.
Qed.

Lemma handlePlotData_unparseable_reading_witness :
  exists w',
    handlePlotData 2 100 (Some ["100"; "1.2.3"; "7.1"; "6.8"; "1"; "0"; "0"; "0"; "0"])
      initial = (Ok (plotData w'), w') /\
    times (plotData w') = [100] /\ oxygens (plotData w') = [].
Proof.
  destruct (handlePlotData_unparseable_reading 2 100 "100" "1.2.3" "7.1" "6.8"
              ["1"; "0"; "0"; "0"; "0"] 100 initial)
    as (w' & H1 & H2 & H3 & _); [reflexivity|reflexivity|].
  exists w'. split; [exact H1|]. split; [exact H2 | exact H3].
Defined.

Lemma pop_time_run w t ts :
  times (plotData w) = t :: ts ->
  pop_time w = (Ok tt, set_plotData {| times := ts; temps := temps (plotData w);
                                       phs := phs (plotData w);
                                       oxygens := oxygens (plotData w) |} w).
Proof.
  intros H. unfold pop_time. erewrite bind_ok by reflexivity. now rewrite H.
Qed.

Lemma pop_temp_run w x xs :
  temps (plotData w) = x :: xs ->
  pop_temp w = (Ok tt, set_plotData {| times := times (plotData w); temps := xs;
                                       phs := phs (plotData w);
                                       oxygens := oxygens (plotData w) |} w).
Proof.
  intros H. unfold pop_temp. erewrite bind_ok by reflexivity. now rewrite H.
Qed.

Lemma pop_ph_run w x xs :
  phs (plotData w) = x :: xs ->
  pop_ph w = (Ok tt, set_plotData {| times := times (plotData w);
                                     temps := temps (plotData w); phs := xs;
                                     oxygens := oxygens (plotData w) |} w).
Proof.
  intros H. unfold pop_ph. erewrite bind_ok by reflexivity. now rewrite H.
Qed.

Lemma pop_oxygen_run w x xs :
  oxygens (plotData w) = x :: xs ->
  pop_oxygen w = (Ok tt, set_plotData {| times := times (plotData w);
                                         temps := temps (plotData w);
                                         phs := phs (plotData w); oxygens := xs |} w).
Proof.
  intros H. unfold pop_oxygen. erewrite bind_ok by reflexivity. now rewrite H.
Qed.

Lemma pop_temp_empty w : temps (plotData w) = [] -> pop_temp w = (Raise IndexError, w).
Proof.
  intros H. unfold pop_temp. erewrite bind_ok by reflexivity. now rewrite H.
Qed.

Lemma pop_ph_empty w : phs (plotData w) = [] -> pop_ph w = (Raise IndexError, w).
Proof.
  intros H. unfold pop_ph. erewrite bind_ok by reflexivity. now rewrite H.
Qed.

Lemma pop_oxygen_empty w :
  oxygens (plotData w) = [] -> pop_oxygen w = (Raise IndexError, w).
Proof.
  intros H. unfold pop_oxygen. erewrite bind_ok by reflexivity. now rewrite H.
Qed.

Lemma trim_misaligned MAX_DATA_TIME now n : forall w,
  length (times (plotData w)) = n ->
  Forall (fun t => MAX_DATA_TIME * 60 < now - t) (times (plotData w)) ->
  (length (temps (plotData w)) < n \/ length (phs (plotData w)) < n \/
   length (oxygens (plotData w)) < n)%nat ->
  exists w', trim MAX_DATA_TIME now n w = (Raise IndexError, w').
Proof.
  induction n as [|n IH]; intros w Hn Hall Hshort; [lia|].
  destruct (times (plotData w)) as [|t ts] eqn:Ht; [done|].
  apply Forall_cons in Hall as [Hexp Hall].
  cbn [trim]. erewrite bind_ok by reflexivity.
  erewrite bind_ok by (unfold item; rewrite Ht; reflexivity).
  apply Z.ltb_lt in Hexp. rewrite Hexp.
  erewrite bind_ok by (eapply pop_time_run; exact Ht).
  set (w1 := set_plotData _ w).
  destruct (temps (plotData w)) as [|x1 xs1] eqn:H1.
  { eexists. erewrite bind_raise; [reflexivity|]. by apply pop_temp_empty. }
  erewrite bind_ok by (eapply (pop_temp_run w1); reflexivity).
  set (w2 := set_plotData _ w1).
  destruct (phs (plotData w)) as [|x2 xs2] eqn:H2.
  { eexists. erewrite bind_raise; [reflexivity|]. by apply pop_ph_empty. }
  erewrite bind_ok by (eapply (pop_ph_run w2); reflexivity).
  set (w3 := set_plotData _ w2).
  destruct (oxygens (plotData w)) as [|x3 xs3] eqn:H3.
  { eexists. erewrite bind_raise; [reflexivity|]. by apply pop_oxygen_empty. }
  erewrite bind_ok by (eapply (pop_oxygen_run w3); reflexivity).
  apply IH; cbn in *; [lia|done|lia].
Qed.

(** X10: on a window whose list of stamps is longer than one of the three
    lists of readings, [handlePlotData] raises IndexError as soon as every
    stamp of the window is expired: the trimming pops from a list that is
    already empty. *)
Theorem handlePlotData_misaligned_raises (MAX_DATA_TIME now : Z) (w : world) :
  let p := plotData w in
  Forall (fun t => MAX_DATA_TIME * 60 < now - t) (times p) ->
  (length (temps p) < length (times p) \/ length (phs p) < length (times p) \/
   length (oxygens p) < length (times p))%nat ->
  exists w', handlePlotData MAX_DATA_TIME now None w = (Raise IndexError, w').
Proof.
  intros p Hall Hshort.
  destruct (trim_misaligned MAX_DATA_TIME now (length (times p)) w eq_refl Hall Hshort)
    as [w' Hw'].
  exists w'. unfold handlePlotData. cbn [truthy].
  erewrite bind_ok by reflexivity.
  erewrite bind_raise; [reflexivity|].
  erewrite bind_ok by reflexivity. exact Hw'.
Qed.

Lemma handlePlotData_misaligned_raises_witness :
  let w1 := (handlePlotData 2 100
               (Some ["100"; "1.2.3"; "7.1"; "6.8"; "1"; "0"; "0"; "0"; "0"]) initial).2 in
  times (plotData w1) = [100] /\ temps (plotData w1) = [] /\
  exists w', handlePlotData 2 221 None w1 = (Raise IndexError, w').
Proof.
  intros w1.
  assert (Hw : plotData w1 = {| times := [100]; temps := []; phs := []; oxygens := [] |})
    by reflexivity.
  split; [reflexivity|]. split; [reflexivity|].
  apply handlePlotData_misaligned_raises; rewrite Hw; cbn.
  - constructor; [lia|constructor].
  - left. lia.
Defined.

(** X11: when the first field of a record does not read as an integer,
    [handlePlotData] raises ValueError before it changes anything: the
    displays, the window and the console are as they were. *)
Theorem handlePlotData_rejects_stamp (MAX_DATA_TIME now : Z) (d0 : string)
    (rest : list string) (e : exn) (w : world) :
  int_of_str d0 = Raise e ->
  handlePlotData MAX_DATA_TIME now (Some (d0 :: rest)) w = (Raise ValueError, w).
Proof.
  intros H0. pose proof (int_of_str_raises d0 e H0) as ->.
  unfold handlePlotData. cbn [truthy the_list default].
  erewrite bind_raise; [reflexivity|].
  erewrite bind_ok by reflexivity.
  erewrite bind_raise; [reflexivity|].
  unfold lift. now rewrite H0.
Qed.

Lemma handlePlotData_rejects_stamp_witness :
  handlePlotData 2 100 (Some ["x"; "23.5"; "7.1"; "6.8"]) initial =
    (Raise ValueError, initial).
Proof.
  apply (handlePlotData_rejects_stamp 2 100 "x" ["23.5"; "7.1"; "6.8"] ValueError).
  reflexivity.
Defined.

Lemma current_run key v w :
  currentValues w !! key = Some v -> current key w = (Ok v, w).
Proof.
  intros H. unfold current. erewrite bind_ok by reflexivity. now rewrite H.
Qed.

(** X12: after [handlePlotData] was given a record of at least four
    fields whose stamp reads as an integer that [datetime.fromtimestamp]
    accepts, the three displays return the
    texts of the fields 1, 2 and 3 as they were received, whether or not
    they read as floats and whether the call returned or raised. *)
Theorem displays_show_received_text (MAX_DATA_TIME now n : Z)
    (d0 d1 d2 d3 : string) (rest : list string) (t : Z) (w : world) :
  stamp_of d0 = Ok t ->
  let w' := (handlePlotData MAX_DATA_TIME now (Some (d0 :: d1 :: d2 :: d3 :: rest)) w).2 in
  updateTemperature n w' = (Ok (PStr d1), w') /\
  updatePH n w' = (Ok (PStr d2), w') /\
  updateDissolvedOxygen n w' = (Ok (PStr d3), w').
Proof.
  intros H0 w'.
  unfold stamp_of in H0. destruct (int_of_str d0) as [m|] eqn:Hm; [|done].
  set (w3 := set_currentValues
               (<["dissolved_oxygen" := PStr d3]>
                  (<["ph" := PStr d2]> (<["temp" := PStr d1]> (currentValues w)))) w).
  set (rest_of_call :=
         go_on ← try_except
                   (append_time t ;;
                    x1 ← lift (float_of_str d1); append_temp x1 ;;
                    x2 ← lift (float_of_str d2); append_ph x2 ;;
                    x3 ← lift (float_of_str d3); append_oxygen x3 ;;
                    ret true)
                   (print (SkippingEntry (d0 :: d1 :: d2 :: d3 :: rest)) ;; ret false);
         (if go_on : bool then
            n ← gets (fun w => length (times (plotData w)));
            trim MAX_DATA_TIME now n
          else ret tt) ;;
         gets plotData).
  assert (Hrun : handlePlotData MAX_DATA_TIME now (Some (d0 :: d1 :: d2 :: d3 :: rest)) w
                 = rest_of_call w3).
  { unfold handlePlotData. cbn [truthy].
    change (the_list (Some (d0 :: d1 :: d2 :: d3 :: rest)))
      with (d0 :: d1 :: d2 :: d3 :: rest).
    subst rest_of_call w3.
    unfold item, lift, set_current, modify. cbv [mbind M_bind bind ret].
    cbn [lookup list_lookup]. rewrite Hm. cbn beta iota. rewrite H0. reflexivity. }
  assert (Hc : currentValues w' = currentValues w3).
  { subst w'. rewrite Hrun.
    assert (Hk : keeps (same currentValues) rest_of_call).
    { subst rest_of_call. unfold append_time, append_temp, append_ph, append_oxygen.
      repeat keeps_step; unfold same; try done.
      by apply trim_keeps. }
    apply Hk. }
  unfold updateTemperature, updatePH, updateDissolvedOxygen.
  repeat split; apply current_run; rewrite Hc; subst w3; cbn;
    repeat (rewrite lookup_insert_ne by done); by rewrite lookup_insert_eq.
Qed.

Lemma displays_show_received_text_witness :
  let w' := (handlePlotData 2 100
               (Some ["100"; "1.2.3"; "7.1"; "6.8"; "1"; "0"; "0"; "0"; "0"]) initial).2 in
  updateTemperature 0 w' = (Ok (PStr "1.2.3"), w') /\
  updatePH 0 w' = (Ok (PStr "7.1"), w') /\
  updateDissolvedOxygen 0 w' = (Ok (PStr "6.8"), w').
Proof.
  apply (displays_show_received_text 2 100 0 "100" "1.2.3" "7.1" "6.8"
           ["1"; "0"; "0"; "0"; "0"] 100 initial).
  reflexivity.
Defined.

(** ** Compaction, its failure, and the start of the writer *)

Lemma cleanFileData_keeps {B} (f : world -> B) MAX_DATA_TIME now :
  (forall x w, f (set_files x w) = f w) ->
  (forall c w, f (set_console c w) = f w) ->
  keeps (same f) (cleanFileData MAX_DATA_TIME now).
Proof.
  intros Hf Hc. unfold cleanFileData, read_file, create_file, replace_file.
  keeps_step; [by repeat keeps_step|].
  keeps_step; [keeps_step; apply Hf|].
  keeps_step.
  - keeps_step. unfold clean_line, write_file.
    repeat keeps_step; unfold same; try apply Hf; try done.
    by apply validateFileData_keeps.
  - unfold read_file. repeat keeps_step; unfold same; try apply Hf; done.
Qed.

Lemma keep_spec MAX_DATA_TIME now l :
  keep MAX_DATA_TIME now l = true <->
  exists t, line_stamp l = Ok t /\ now - t < MAX_DATA_TIME * 60 /\
            valid_line (split COMMA l) = true.
Proof.
  unfold keep. destruct (line_stamp l) as [t|e].
  - rewrite andb_true_iff, Z.ltb_lt. split.
    + intros [? ?]. by exists t.
    + intros (t' & [= <-] & ? & ?). done.
  - split; [done|]. by intros (t & ? & _).
Qed.

(** X13: on a log all of whose lines carry a stamp, [cleanFileData]
    returns, and [data.csv] then holds, in their order, with their
    repetitions and each closed by a line end, exactly the lines (stripped
    of white space at the end) that pass the test of line 233: the stamp
    is less than [MAX_DATA_TIME * 60] seconds old and [validateFileData]
    accepts the fields.  [temp.csv] is gone, the other files, the window,
    the displays, the registry and the serial port are as they were. *)
Theorem cleanFileData_keeps_fresh_valid_lines
    (MAX_DATA_TIME now : Z) (w : world) (input : string) :
  files w !! data_csv = Some input ->
  Forall stamped (rstrip <$> file_lines input) ->
  exists w',
    cleanFileData MAX_DATA_TIME now w = (Ok tt, w') /\
    files w' !! data_csv =
      Some (unlines (List.filter (keep MAX_DATA_TIME now) (rstrip <$> file_lines input))) /\
    (forall l, keep MAX_DATA_TIME now l = true <->
       exists t, line_stamp l = Ok t /\ now - t < MAX_DATA_TIME * 60 /\
                 valid_line (split COMMA l) = true) /\
    files w' !! temp_csv = None /\
    (forall k, k <> data_csv -> k <> temp_csv -> files w' !! k = files w !! k) /\
    plotData w' = plotData w /\ currentValues w' = currentValues w /\
    buttonStates w' = buttonStates w /\ serial w' = serial w.
Proof.
  intros Hin Hst.
  destruct (cleanFileData_ok MAX_DATA_TIME now w input Hin Hst) as (w' & Hrun & Hfiles).
  exists w'.
  split; [exact Hrun|].
  split; [rewrite Hfiles; by rewrite lookup_insert_eq|].
  split; [intros l; apply keep_spec|].
  split; [rewrite Hfiles; rewrite lookup_insert_ne by done; by rewrite lookup_delete_eq|].
  split.
  { intros k H1 H2. rewrite Hfiles.
    rewrite lookup_insert_ne by done. by rewrite lookup_delete_ne. }
  pose proof (cleanFileData_keeps plotData MAX_DATA_TIME now
                (fun _ _ => eq_refl) (fun _ _ => eq_refl) w) as H1.
  pose proof (cleanFileData_keeps currentValues MAX_DATA_TIME now
                (fun _ _ => eq_refl) (fun _ _ => eq_refl) w) as H2.
  pose proof (cleanFileData_keeps buttonStates MAX_DATA_TIME now
                (fun _ _ => eq_refl) (fun _ _ => eq_refl) w) as H3.
  pose proof (cleanFileData_keeps serial MAX_DATA_TIME now
                (fun _ _ => eq_refl) (fun _ _ => eq_refl) w) as H4.
  unfold same in *. rewrite Hrun in H1, H2, H3, H4. done.
Qed.

Lemma cleanFileData_keeps_fresh_valid_lines_witness :
  let old := "1700000000,23.5,7.1,6.8,1,0,0,0,0" in
  let short := "1700007000,23.5,7.1" in
  let good := "1700007100,23.5,7.1,6.8,1,0,0,0,0" in
  let w := set_files {[ data_csv := unlines [old; short; good; good] ]} initial in
  exists w',
    cleanFileData 120 1700007200 w = (Ok tt, w') /\
    files w' !! data_csv = Some (unlines [good; good]).
Proof.
  intros old short good w.
  destruct (cleanFileData_keeps_fresh_valid_lines 120 1700007200 w
              (unlines [old; short; good; good]))
    as (w' & H1 & H2 & _).
  - reflexivity.
  - apply Forall_forall. intros l Hl. apply stampedb_spec.
    vm_compute in Hl.
    repeat (apply elem_of_cons in Hl as [->|Hl]); try reflexivity.
    by apply elem_of_nil in Hl.
  - exists w'. split; [exact H1|]. exact H2.
Defined.

(** X14: when [cleanFileData] raises, a cycle of [handleClean] raises the
    same exception after it has set [threadsPaused] and before it lowers
    it; from then on a turn of the loop of [writeFileData] reads nothing
    from the serial port and changes nothing, as long as the flag stays
    up. *)
Theorem handleClean_failure_pauses_writer
    (MAX_DATA_TIME now : Z) (a : runtime) (e : exn) (w' : world) :
  cleanFileData MAX_DATA_TIME now (globals a) = (Raise e, w') ->
  exists a',
    handleClean_cycle MAX_DATA_TIME now a = (Raise e, a') /\
    threadsPaused a' = true /\ globals a' = w' /\
    forall stamp now',
      writeFileData_turn MAX_DATA_TIME stamp now' a' =
        (Ok (if stopThreads a then Break else Continue), a').
Proof.
  intros Hc. unfold handleClean_cycle.
  erewrite pbind_ok by reflexivity.
  eexists. split.
  - erewrite pbind_raise; [reflexivity|].
    unfold on_globals. cbn [globals set_threadsPaused]. rewrite Hc. reflexivity.
  - split; [reflexivity|]. split; [reflexivity|].
    intros stamp now'. unfold writeFileData_turn.
    erewrite pbind_ok by reflexivity. cbn [stopThreads set_globals set_threadsPaused].
    destruct (stopThreads a); [reflexivity|].
    erewrite pbind_ok by reflexivity. reflexivity.
Qed.

Lemma handleClean_failure_pauses_writer_witness :
  exists a',
    handleClean_cycle 120 7200 runtime_initial = (Raise FileNotFoundError, a') /\
    threadsPaused a' = true /\ globals a' = initial /\
    forall stamp now',
      writeFileData_turn 120 stamp now' a' = (Ok Continue, a').
Proof.
  apply (handleClean_failure_pauses_writer 120 7200 runtime_initial
           FileNotFoundError initial).
  reflexivity.
Defined.

Lemma keep_row MAX_DATA_TIME now l :
  keep MAX_DATA_TIME now l = true -> dated l -> is_Some (row_of (split COMMA l)).
Proof.
  intros (t & Ht & _ & Hv)%keep_spec [t' Hd].
  apply valid_line_spec in Hv as [Hlen Hf].
  unfold line_date in Hd.
  destruct (split COMMA l) as [|d0 [|d1 [|d2 [|d3 fs]]]]; try discriminate Hlen.
  destruct (Hf 1%nat d1) as (x1 & H1 & _); [lia|done|].
  destruct (Hf 2%nat d2) as (x2 & H2 & _); [lia|done|].
  destruct (Hf 3%nat d3) as (x3 & H3 & _); [lia|done|].
  cbn in Hd. unfold row_of. rewrite Hd, H1, H2, H3. by eexists.
Qed.

Lemma drop_expired_again MAX_DATA_TIME now (l m : list row) :
  drop_expired MAX_DATA_TIME now (drop_expired MAX_DATA_TIME now l ++ m) =
  drop_expired MAX_DATA_TIME now (l ++ m).
Proof.
  induction l as [|r l IH]; [done|]. cbn [drop_expired app].
  destruct (expired MAX_DATA_TIME now r) eqn:E; [exact IH|].
  cbn [drop_expired app]. by rewrite E.
Qed.

(** Calls that all read the same clock leave in the window the entries
    appended so far, trimmed once at the head. *)
Lemma run_calls_at MAX_DATA_TIME now calls : forall hist w,
  plotData w = plot_of_rows (drop_expired MAX_DATA_TIME now hist) ->
  Forall proper_call calls ->
  Forall (fun c : call => c.1 = now) calls ->
  exists w',
    run_calls MAX_DATA_TIME calls w = (Ok tt, w') /\
    plotData w' = plot_of_rows (drop_expired MAX_DATA_TIME now (hist ++ appended calls)).
Proof.
  induction calls as [|c calls IH]; intros hist w Hw Hall Hnow.
  { exists w. unfold appended. cbn. rewrite app_nil_r. by split. }
  apply Forall_cons in Hall as [Hc Hall]. apply Forall_cons in Hnow as [Hcn Hnow].
  destruct (proper_call_step MAX_DATA_TIME c _ w Hw Hc) as (w1 & Hrun & Hp).
  rewrite Hcn, drop_expired_again in Hp.
  destruct (IH _ w1 Hp Hall Hnow) as (w' & Hrun' & Hp').
  exists w'.
  assert (appended (c :: calls) = appended [c] ++ appended calls) as ->.
  { unfold appended. by rewrite <- omap_app. }
  rewrite app_assoc. split; [|exact Hp'].
  unfold run_calls. cbn [for_each]. by erewrite bind_ok.
Qed.

Lemma for_each_fmap {A B} (g : A -> B) (l : list A) (body : B -> M unit) :
  for_each (g <$> l) body = for_each l (fun x => body (g x)).
Proof.
  induction l as [|x l IH]; [done|]. cbn [fmap list_fmap for_each].
  change (list_fmap A B g l) with (g <$> l). now rewrite IH.
Qed.

Lemma omap_fmap {A B C} (g : A -> B) (f : B -> option C) (l : list A) :
  omap f (g <$> l) = omap (fun x => f (g x)) l.
Proof.
  induction l as [|x l IH]; [done|]. cbn. destruct (f (g x)); by rewrite IH.
Qed.

Lemma omap_all_length {A B} (f : A -> option B) (l : list A) :
  Forall (fun x => is_Some (f x)) l -> length (omap f l) = length l.
Proof.
  induction 1 as [|x l [y Hy] _ IH]; [done|]. cbn. rewrite Hy. cbn. by rewrite IH.
Qed.

Lemma run_calls_keeps {B} (f : world -> B) MAX_DATA_TIME calls :
  (forall p w, f (set_plotData p w) = f w) ->
  (forall c w, f (set_currentValues c w) = f w) ->
  (forall c w, f (set_console c w) = f w) ->
  keeps (same f) (run_calls MAX_DATA_TIME calls).
Proof.
  intros Hp Hc Hs. unfold run_calls.
  keeps_step. keeps_step; [|by keeps_step]. by apply handlePlotData_keeps.
Qed.

(** X15: at its start, on a log all of whose lines carry a stamp, when
    [datetime.fromtimestamp] accepts the stamps of the lines the
    compaction keeps and the window is still empty, [writeFileData]
    returns from the compaction and the reading without raising; every
    line the compaction kept gives an entry, and the window then holds the
    entries of the compacted log, in their order, without those the
    trimming takes from the head at the clock of the reading; so every
    entry of the window is an entry of the log. *)
Theorem writeFileData_start_rebuilds_window
    (MAX_DATA_TIME now_clean now_read : Z) (w : world) (input : string) :
  files w !! data_csv = Some input ->
  Forall stamped (rstrip <$> file_lines input) ->
  Forall dated (List.filter (keep MAX_DATA_TIME now_clean) (rstrip <$> file_lines input)) ->
  plotData w = empty_plot ->
  let kept := List.filter (keep MAX_DATA_TIME now_clean) (rstrip <$> file_lines input) in
  exists w',
    writeFileData_start MAX_DATA_TIME now_clean now_read w = (Ok tt, w') /\
    files w' !! data_csv = Some (unlines kept) /\
    length (log_rows (unlines kept)) = length kept /\
    plotData w' =
      plot_of_rows (drop_expired MAX_DATA_TIME now_read (log_rows (unlines kept))) /\
    cache_in_log w'.
Proof.
  intros Hin Hst Hdated Hempty kept. fold kept in Hdated.
  destruct (cleanFileData_ok MAX_DATA_TIME now_clean w input Hin Hst) as (w1 & Hrun1 & Hf1).
  fold kept in Hf1.
  assert (Hp1 : plotData w1 = plot_of_rows (drop_expired MAX_DATA_TIME now_read [])).
  { pose proof (cleanFileData_keeps plotData MAX_DATA_TIME now_clean
                  (fun _ _ => eq_refl) (fun _ _ => eq_refl) w) as H.
    unfold same in H. rewrite Hrun1 in H. cbn in H. by rewrite H, Hempty. }
  assert (Hlog1 : files w1 !! data_csv = Some (unlines kept))
    by (rewrite Hf1; by rewrite lookup_insert_eq).
  assert (Hplain : Forall plain_line kept).
  { apply Forall_filter_bool, file_lines_plain. }
  pose proof (file_lines_unlines kept Hplain) as Hlines.
  set (calls := (fun line => (now_read, Some (split COMMA (rstrip line))) : call)
                  <$> file_lines (unlines kept)).
  assert (Hrows : appended calls = log_rows (unlines kept)).
  { unfold appended, calls, log_rows. by rewrite omap_fmap. }
  assert (Hsome : Forall (fun l => is_Some (row_of (split COMMA l))) kept).
  { apply Forall_forall. intros l Hl. apply (keep_row MAX_DATA_TIME now_clean).
    - pose proof (Forall_filter_true (keep MAX_DATA_TIME now_clean)
                    (rstrip <$> file_lines input)) as Hk.
      rewrite Forall_forall in Hk. by apply Hk.
    - rewrite Forall_forall in Hdated. by apply Hdated. }
  assert (Hproper : Forall proper_call calls).
  { apply Forall_forall. intros c Hc. unfold calls in Hc.
    apply list_elem_of_fmap in Hc as (line & -> & Hline).
    unfold proper_call. cbn. rewrite Forall_forall in Hsome. apply Hsome.
    rewrite <- Hlines. by apply list_elem_of_fmap_2. }
  assert (Hclock : Forall (fun c : call => c.1 = now_read) calls).
  { apply Forall_forall. intros c Hc. unfold calls in Hc.
    by apply list_elem_of_fmap in Hc as (line & -> & _). }
  destruct (run_calls_at MAX_DATA_TIME now_read calls [] w1 Hp1 Hproper Hclock)
    as (w' & Hrun2 & Hp2).
  cbn [app] in Hp2. rewrite Hrows in Hp2.
  assert (Hfiles2 : files w' = files w1).
  { pose proof (run_calls_keeps files MAX_DATA_TIME calls
                  (fun _ _ => eq_refl) (fun _ _ => eq_refl) (fun _ _ => eq_refl) w1) as H.
    unfold same in H. by rewrite Hrun2 in H. }
  exists w'. split.
  { unfold writeFileData_start. erewrite bind_ok by reflexivity. rewrite Hin.
    erewrite bind_ok by exact Hrun1.
    unfold readFileData. erewrite bind_ok by (by apply read_file_ok).
    unfold run_calls, calls in Hrun2. rewrite for_each_fmap in Hrun2. exact Hrun2. }
  split; [by rewrite Hfiles2|].
  split.
  { unfold log_rows.
    assert (E : omap (fun l => row_of (split COMMA (rstrip l))) (file_lines (unlines kept))
                = omap (fun l => row_of (split COMMA l))
                    (rstrip <$> file_lines (unlines kept)))
      by (symmetry; apply (omap_fmap rstrip (fun l => row_of (split COMMA l)))).
    rewrite E, Hlines. by apply omap_all_length. }
  split; [exact Hp2|].
  exists (drop_expired MAX_DATA_TIME now_read (log_rows (unlines kept))).
  split; [exact Hp2|].
  intros r Hr. unfold log_text. rewrite Hfiles2, Hlog1. cbn.
  by apply drop_expired_subseteq in Hr.
Qed.

Lemma writeFileData_start_rebuilds_window_witness :
  let old := "1700000000,23.5,7.1,6.8,1,0,0,0,0" in
  let good := "1700007100,23.5,7.1,6.8,1,0,0,0,0" in
  let w := set_files {[ data_csv := unlines [old; good] ]} initial in
  exists w',
    writeFileData_start 120 1700007200 1700007201 w = (Ok tt, w') /\
    files w' !! data_csv = Some (unlines [good]) /\
    times (plotData w') = [1700007100] /\
    cache_in_log w'.
Proof.
  intros old good w.
  assert (Hst : Forall stamped (rstrip <$> file_lines (unlines [old; good]))).
  { apply Forall_forall. intros l Hl. apply stampedb_spec.
    vm_compute in Hl.
    repeat (apply elem_of_cons in Hl as [->|Hl]); try reflexivity.
    by apply elem_of_nil in Hl. }
  assert (Hd : Forall dated (List.filter (keep 120 1700007200)
                               (rstrip <$> file_lines (unlines [old; good])))).
  { apply Forall_forall. intros l Hl. vm_compute in Hl.
    repeat (apply elem_of_cons in Hl as [->|Hl]); [|by apply elem_of_nil in Hl].
    exists 1700007100. reflexivity. }
  pose proof (writeFileData_start_rebuilds_window 120 1700007200 1700007201 w
                (unlines [old; good]) eq_refl Hst Hd eq_refl) as H.
  cbv zeta in H. destruct H as (w' & H1 & H2 & _ & H3 & H4).
  exists w'. split; [exact H1|]. split; [exact H2|]. split; [|exact H4].
  rewrite H3. reflexivity.
Defined.

Lemma parse_pending_progress r rest d p ns :
  parse_pending (r :: rest) = (d, p, ns) -> exists pre, rest = pre ++ p.
Proof.
  cbn [parse_pending]. intros H.
  assert (Hretry : forall n,
            (let '(d0, p0, ns0) := parse_pending rest in (d0, p0, n :: ns0)) = (d, p, ns) ->
            exists pre, rest = pre ++ p).
  { intros n Hn. destruct (parse_pending rest) as [[d0 p0] ns0] eqn:E.
    injection Hn as <- <- <-. by destruct (parse_pending_spec rest _ _ _ E) as [? _]. }
  destruct (decode r); eauto; injection H as <- <- <-; by exists [].
Qed.

Lemma split_fields_no_sep sep s : Forall (fun f => count_char sep f = O) (split sep s).
Proof.
  induction s as [|c s IH]; [by repeat constructor|]. cbn [split].
  destruct (Ascii.eqb c sep) eqn:E; [by constructor|].
  destruct (split sep s) as [|f fs]; [repeat constructor; cbn; by rewrite E|].
  apply Forall_cons in IH as [Hf Hfs]. constructor; [|done]. cbn. by rewrite E.
Qed.

Lemma split_fields_free x sep s :
  count_char x s = O -> Forall (fun f => count_char x f = O) (split sep s).
Proof.
  induction s as [|c s IH]; [by repeat constructor|]. cbn [split count_char].
  intros H. assert (Hc : (if Ascii.eqb c x then 1 else 0)%nat = O) by lia.
  assert (Hs : count_char x s = O) by lia. specialize (IH Hs).
  destruct (Ascii.eqb c sep); [by constructor|].
  destruct (split sep s) as [|f fs]; [repeat constructor; cbn; by rewrite Hc|].
  apply Forall_cons in IH as [Hf Hfs]. constructor; [|done]. cbn. by rewrite Hc, Hf.
Qed.

Lemma count_char_removed x s : count_char x (remove x s) = O.
Proof.
  induction s as [|c s IH]; [done|]. cbn [remove].
  destruct (Ascii.eqb c x) eqn:E; [done|]. cbn. by rewrite E, IH.
Qed.

(** X16: [parseSerialData] takes lines from the head of those waiting,
    at least one when there is one, and touches neither a file nor the
    window, the displays or the registry.  A record it
    returns has eight fields, a digit at the start of the first one, and
    neither a comma nor a blank in any field. *)
Theorem parseSerialData_returns_clean_record (w : world) :
  exists d w' consumed,
    parseSerialData w = (Ok d, w') /\
    serial w = consumed ++ serial w' /\
    (serial w <> [] -> consumed <> []) /\
    files w' = files w /\ plotData w' = plotData w /\
    currentValues w' = currentValues w /\ buttonStates w' = buttonStates w /\
    forall data, d = Some data ->
      length data = 8%nat /\
      startswith_digit (List.hd "" data) = true /\
      Forall (fun f => count_char COMMA f = O /\ count_char SPACE f = O) data.
Proof.
  unfold parseSerialData.
  destruct (parse_pending (serial w)) as [[d p] ns] eqn:E.
  destruct (parse_pending_spec _ _ _ _ E) as [[pre Hpre] Hd].
  exists d, (set_console (console w ++ ns) (set_serial p w)), pre.
  split; [done|]. split; [exact Hpre|]. split.
  { intros Hne Hnil. subst pre. cbn in Hpre.
    destruct (serial w) as [|r rest]; [done|].
    destruct (parse_pending_progress r rest d p ns E) as [pre' Hpre'].
    rewrite <- Hpre in Hpre'.
    apply (f_equal length) in Hpre'. rewrite length_app in Hpre'. cbn in Hpre'. lia. }
  repeat split; try done.
  - destruct (Hd data H) as (r & _ & Hdec).
    by apply decode_record in Hdec as (text & _ & _ & Hlen & _).
  - destruct (Hd data H) as (r & _ & Hdec).
    by apply decode_record in Hdec as (text & _ & _ & _ & Hdig).
  - destruct (Hd data H) as (r & _ & Hdec).
    apply decode_record in Hdec as (text & _ & -> & _ & _).
    apply Forall_and. split; [apply split_fields_no_sep|].
    apply split_fields_free, count_char_removed.
Qed.

(** X17: [initializeButtonStates] returns without raising and never
    changes the registry: a record that is waiting at the head of the serial port is
    taken from it and dropped, the buttons, the displays, the window and
    the files being as before. *)
Theorem initializeButtonStates_discards_record (w : world) :
  exists w',
    initializeButtonStates w = (Ok tt, w') /\
    buttonStates w' = buttonStates w /\ currentValues w' = currentValues w /\
    plotData w' = plotData w /\ files w' = files w /\
    forall r rest data,
      serial w = r :: rest -> decode r = Record_ data -> serial w' = rest.
Proof.
  unfold initializeButtonStates, try_except.
  unfold mbind, M_bind, bind, parseSerialData.
  destruct (parse_pending (serial w)) as [[d p] ns] eqn:E.
  eexists. split; [reflexivity|]. repeat split.
  intros r rest data Hs Hdec. rewrite Hs in E. cbn [parse_pending] in E.
  rewrite Hdec in E. by injection E as <- <- <-.
Qed.

Lemma handleButtonData_keeps {B} (f : world -> B) data :
  (forall b w, f (set_buttonStates b w) = f w) ->
  (forall c w, f (set_console c w) = f w) ->
  keeps (same f) (handleButtonData data).
Proof.
  intros Hb Hc. unfold handleButtonData, observe, button, set_button.
  keeps_step; [|keeps_step].
  destruct (truthy data); [|keeps_step].
  repeat keeps_step; unfold same; try apply Hb; try apply Hc; done.
Qed.

Lemma stamped_line_reads_back stamp (data : list string) f fs :
  data = f :: fs ->
  split COMMA (join COMMA data) = data ->
  join COMMA data <> "" ->
  rstrip (join COMMA data) = join COMMA data ->
  let line := join COMMA (str_of_int stamp :: data) in
  rstrip (line +:+ NL) = line /\ split COMMA line = str_of_int stamp :: data.
Proof.
  intros Hdata Hcut Hne Hstrip line.
  set (cleaned := join COMMA data) in *.
  assert (Hline : line = str_of_int stamp +:+ String COMMA cleaned).
  { unfold line, cleaned. by rewrite Hdata. }
  rewrite rstrip_NL, Hline. split.
  - apply rstrip_app; [|done]. apply rstrip_fixed_cons. by right.
  - rewrite split_app_sep by (by apply str_of_int_free). by f_equal.
Qed.

(** X18: when a record is waiting at the head of the serial port, a round
    of the loop of [writeFileData] takes it and appends one text to
    [data.csv]: the stamp and the eight fields joined by commas, closed by
    a line end.  The other files are untouched, and this holds also when
    the round raises afterwards.  When the log ended with a line end and
    the record holds no line end, the iteration over the file hands this
    text over as one more line, the last, and that line, stripped and
    split as [readFileData] and [cleanFileData] do, gives the stamp and
    the eight fields again. *)
Theorem acquire_logs_stamped_record
    (MAX_DATA_TIME stamp now : Z) (w : world) (r : raw_line) (rest : list raw_line)
    (data : list string) :
  serial w = r :: rest ->
  decode r = Record_ data ->
  let line := join COMMA (str_of_int stamp :: data) in
  let w' := (acquire MAX_DATA_TIME stamp now w).2 in
  files w' !! data_csv = Some (log_text w +:+ (line +:+ NL)) /\
  (forall k, k <> data_csv -> files w' !! k = files w !! k) /\
  serial w' = rest /\
  (terminated (log_text w) -> breakfree (join COMMA data) ->
   file_lines (log_text w') = file_lines (log_text w) ++ [line +:+ NL] /\
   split COMMA (rstrip (line +:+ NL)) = str_of_int stamp :: data /\
   line_stamp (rstrip (line +:+ NL)) = Ok stamp).
Proof.
  intros Hs Hdec line w'.
  destruct (record_text r data Hdec) as (f & fs & Hdata & Hlen & Hcut & Hne & Hstrip).
  destruct (stamped_line_reads_back stamp data f fs Hdata Hcut Hne Hstrip) as [Hr Hsp].
  fold line in Hr, Hsp.
  set (w1 := set_console (console w ++ []) (set_serial rest w)).
  assert (Hparse : parseSerialData w = (Ok (Some data), w1)).
  { unfold parseSerialData. rewrite Hs. cbn [parse_pending]. by rewrite Hdec. }
  set (w2 := (write_file data_csv (line +:+ NL) w1).2).
  set (after := handleButtonData (Some (str_of_int stamp :: data)) ;;
                handlePlotData MAX_DATA_TIME now (Some (str_of_int stamp :: data)) ;;
                ret tt).
  assert (Hrun : acquire MAX_DATA_TIME stamp now w = after w2).
  { unfold acquire. erewrite bind_ok by exact Hparse.
    rewrite Hdata. cbn [truthy]. rewrite <- Hdata.
    change (the_list (Some data)) with data.
    erewrite bind_ok by reflexivity. reflexivity. }
  assert (Hk : forall {B} (g : world -> B),
             (forall p w, g (set_plotData p w) = g w) ->
             (forall c w, g (set_currentValues c w) = g w) ->
             (forall b w, g (set_buttonStates b w) = g w) ->
             (forall c w, g (set_console c w) = g w) ->
             g w' = g w2).
  { intros B g G1 G2 G3 G4. subst w'. rewrite Hrun.
    assert (Hkeep : keeps (same g) after).
    { unfold after. keeps_step; [by apply handleButtonData_keeps|].
      keeps_step; [by apply handlePlotData_keeps|keeps_step]. }
    apply Hkeep. }
  assert (Hlog : files w' !! data_csv = Some (log_text w +:+ (line +:+ NL))).
  { rewrite (Hk _ files) by done. subst w2 w1; cbn. by rewrite lookup_insert_eq. }
  rewrite (Hk _ files) by done. rewrite (Hk _ serial) by done.
  split; [subst w2 w1; cbn; by rewrite lookup_insert_eq|].
  split; [intros k Hne'; subst w2 w1; cbn; by rewrite lookup_insert_ne|].
  split; [done|].
  intros Hterm Hfree.
  assert (Hbl : breakfree line).
  { unfold line. rewrite Hdata, join_cons, <- Hdata. apply breakfree_app. split.
    - split; by apply str_of_int_free.
    - by apply breakfree_cons. }
  split.
  { unfold log_text at 1. rewrite Hlog.
    change (default "" (Some (log_text w +:+ (line +:+ NL))))
      with (log_text w +:+ (line +:+ NL)).
    rewrite file_lines_app by done. by rewrite file_lines_single. }
  split; [by rewrite Hr|].
  rewrite Hr. unfold line_stamp. rewrite Hsp. cbn. apply int_of_str_of_int.
Qed.

Lemma acquire_logs_stamped_record_witness :
  let w' := (acquire 120 1700000000 1700000000 one_record_waiting).2 in
  files w' !! data_csv = Some ("1700000000,23.5,7.1,6.8,1,0,0,0,0" +:+ NL) /\
  serial w' = [] /\
  file_lines (log_text w') = ["1700000000,23.5,7.1,6.8,1,0,0,0,0" +:+ NL].
Proof.
  destruct (acquire_logs_stamped_record 120 1700000000 1700000000 one_record_waiting
              (Decoded "23.5,7.1,6.8,1,0,0,0,0") []
              ["23.5"; "7.1"; "6.8"; "1"; "0"; "0"; "0"; "0"] eq_refl eq_refl)
    as (H1 & _ & H2 & H3).
  destruct H3 as (H3 & _).
  - left. reflexivity.
  - split; reflexivity.
  - split; [exact H1|]. split; [exact H2 | exact H3].
Defined.

(** X19: a waiting line that is neither a record nor the notice of the
    reset button nor a malformed record, that is, one whose first field
    does not start with a digit, is taken from the serial port by a round
    of the loop of [writeFileData] and dropped: nothing is logged, nothing
    is printed, and the lines behind it wait for the next round. *)
Theorem acquire_drops_unrecognized_line
    (MAX_DATA_TIME stamp now : Z) (w : world) (r : raw_line) (rest : list raw_line) :
  serial w = r :: rest ->
  decode r = Unrecognized ->
  exists w',
    acquire MAX_DATA_TIME stamp now w = (Ok tt, w') /\
    serial w' = rest /\ files w' = files w /\ console w' = console w /\
    plotData w' = plotData w /\ currentValues w' = currentValues w /\
    buttonStates w' = buttonStates w.
Proof.
  intros Hs Hdec.
  assert (Hparse : parseSerialData w =
                     (Ok None, set_console (console w ++ []) (set_serial rest w))).
  { unfold parseSerialData. rewrite Hs. cbn [parse_pending]. by rewrite Hdec. }
  unfold acquire. erewrite bind_ok by exact Hparse. cbn [truthy].
  eexists. split; [reflexivity|]. cbn. by rewrite app_nil_r.
Qed.

Lemma acquire_drops_unrecognized_line_witness :
  exists w',
    acquire 120 1700000000 1700000000
      (set_serial [Decoded "hello"; Decoded "23.5,7.1,6.8,1,0,0,0,0"] initial) = (Ok tt, w') /\
    serial w' = [Decoded "23.5,7.1,6.8,1,0,0,0,0"] /\ files w' = ∅ /\ console w' = [].
Proof.
  destruct (acquire_drops_unrecognized_line 120 1700000000 1700000000
              (set_serial [Decoded "hello"; Decoded "23.5,7.1,6.8,1,0,0,0,0"] initial)
              (Decoded "hello") [Decoded "23.5,7.1,6.8,1,0,0,0,0"] eq_refl eq_refl)
    as (w' & H1 & H2 & H3 & H4 & _).
  exists w'. split; [exact H1|]. split; [exact H2|]. split; [exact H3 | exact H4].
Defined.

(** ** The configuration *)

Lemma config_line_keeps {B} (f : world -> B) c line :
  (forall x w, f (set_console x w) = f w) ->
  keeps (same f) (config_line c line).
Proof.
  intros Hc. unfold config_line.
  repeat keeps_step; unfold same; try apply Hc; done.
Qed.

Lemma config_lines_keeps {B} (f : world -> B) lines : forall c,
  (forall x w, f (set_console x w) = f w) ->
  keeps (same f) (config_lines lines c).
Proof.
  induction lines as [|l lines IH]; intros c Hc; cbn [config_lines]; [by keeps_step|].
  keeps_step; [by apply config_line_keeps|by apply IH].
Qed.

Lemma rstrip_all_chars (p : ascii -> bool) s :
  (forall c, p c = true -> isspace c = false) ->
  all_chars p s = true -> rstrip s = s.
Proof.
  intros Hp. induction s as [|c s IH]; [done|]. cbn [all_chars rstrip].
  intros [Hc Hs]%andb_true_iff. rewrite (IH Hs).
  destruct s; [|done]. by rewrite (Hp c Hc).
Qed.

Lemma numeral_not_space c : numeral_char c = true -> isspace c = false.
Proof.
  unfold numeral_char. intros [H|H]%orb_true_iff; [by apply isdigit_not_space|].
  apply Ascii.eqb_eq in H as ->. reflexivity.
Qed.

Lemma str_of_int_nonempty n : str_of_int n <> "".
Proof.
  intros E. pose proof (int_of_str_of_int n) as H. rewrite E in H. discriminate H.
Qed.

Lemma str_of_int_plain n : plain_value (str_of_int n).
Proof.
  split; [apply str_of_int_nonempty|].
  split; [by apply str_of_int_free|].
  split; [split; by apply str_of_int_free|].
  apply (rstrip_all_chars numeral_char); [apply numeral_not_space|apply str_of_int_chars].
Qed.

Lemma file_lines_last s : breakfree s -> s <> "" -> file_lines s = [s].
Proof.
  induction s as [|c s IH]; [done|]. intros (Hlf & Hcr & Hs)%breakfree_cons _.
  cbn [file_lines]. rewrite Hlf, Hcr.
  destruct s as [|c' s']; [done|]. by rewrite IH.
Qed.

Lemma setting_fields (key value : string) :
  count_char EQUALS key = O -> plain_value value ->
  rstrip (key +:+ String EQUALS value) = key +:+ String EQUALS value /\
  split EQUALS (key +:+ String EQUALS value) = [key; value].
Proof.
  intros Hk (Hne & Heq & _ & Hr). split.
  - apply rstrip_app; [|done]. apply rstrip_fixed_cons. by right.
  - rewrite split_app_sep by done. by rewrite split_free.
Qed.

Lemma setting_breakfree (key value : string) :
  breakfree key -> plain_value value -> breakfree (key +:+ String EQUALS value).
Proof.
  intros Hk (_ & _ & Hb & _). apply breakfree_app. split; [done|].
  by apply breakfree_cons.
Qed.

Lemma config_lines_settings (scan port : string) (n r : Z) (w : world) :
  plain_value scan -> plain_value port ->
  (config_lines (file_lines (config_text scan n r port)) config_unset w).1 =
    Ok (config_read scan n r port).
Proof.
  intros Hscan Hport.
  pose proof (str_of_int_plain n) as Hn. pose proof (str_of_int_plain r) as Hr.
  set (l1 := "SCAN_COM_PORTS" +:+ String EQUALS scan).
  set (l2 := "MAX_DATA_TIME" +:+ String EQUALS (str_of_int n)).
  set (l3 := "REFRESH_RATE" +:+ String EQUALS (str_of_int r)).
  set (l4 := "COM_PORT" +:+ String EQUALS port).
  assert (Htext : config_text scan n r port =
                  l1 +:+ NL +:+ (l2 +:+ NL +:+ (l3 +:+ NL +:+ l4))).
  { unfold config_text. rewrite !append_assoc. reflexivity. }
  assert (Hlines : file_lines (config_text scan n r port) =
                   [l1 +:+ NL; l2 +:+ NL; l3 +:+ NL; l4]).
  { rewrite Htext.
    rewrite !file_lines_cut by (by apply setting_breakfree).
    rewrite file_lines_last; [done|by apply setting_breakfree|].
    subst l4. by rewrite append_cons. }
  destruct (setting_fields "SCAN_COM_PORTS" scan eq_refl Hscan) as [R1 S1].
  destruct (setting_fields "MAX_DATA_TIME" (str_of_int n) eq_refl Hn) as [R2 S2].
  destruct (setting_fields "REFRESH_RATE" (str_of_int r) eq_refl Hr) as [R3 S3].
  destruct (setting_fields "COM_PORT" port eq_refl Hport) as [R4 S4].
  fold l1 in R1, S1. fold l2 in R2, S2. fold l3 in R3, S3. fold l4 in R4, S4.
  rewrite Hlines.
  cbn [config_lines]. unfold config_line.
  rewrite !rstrip_NL, R1, R2, R3, R4, S1, S2, S3, S4.
  unfold item, lift, print, modify. cbv [mbind M_bind bind ret mret M_ret].
  cbn [lookup list_lookup String.eqb Ascii.eqb Bool.eqb].
  rewrite !int_of_str_of_int.
  unfold config_read, not_scanning, config_unset, with_SCAN_COM_PORTS,
    with_MAX_DATA_TIME, with_REFRESH_RATE, with_COM_PORT.
  destruct (String.eqb scan "True"); cbn; [reflexivity|].
  destruct (String.eqb port "None"); reflexivity.
Qed.

Lemma configure_existing (w : world) (text : string) :
  files w !! config_txt = Some text ->
  configure w = config_lines (file_lines text) config_unset w.
Proof.
  intros Hfile. unfold configure. erewrite bind_ok by reflexivity. by rewrite Hfile.
Qed.

(** X20: a configuration file that names the four variables, a line each,
    with integers written as [str] writes them, is read as follows:
    [MAX_DATA_TIME] and [REFRESH_RATE] get the integers; [SCAN_COM_PORTS]
    is [True] when its value is the text "True" and stays [None] for every
    other value, "False" included; [COM_PORT] is "COM" followed by its
    value unless scanning is on or the value is "None", in which case it
    is "COM3".  Reading changes no file. *)
Theorem configure_reads_settings (scan port : string) (n r : Z) (w : world) :
  plain_value scan -> plain_value port ->
  files w !! config_txt = Some (config_text scan n r port) ->
  exists w',
    configure w = (Ok (config_read scan n r port), w') /\
    files w' = files w /\ plotData w' = plotData w /\
    buttonStates w' = buttonStates w.
Proof.
  intros Hscan Hport Hfile.
  rewrite (configure_existing w _ Hfile).
  pose proof (config_lines_settings scan port n r w Hscan Hport) as Hrun.
  pose proof (config_lines_keeps files (file_lines (config_text scan n r port))
                config_unset (fun _ _ => eq_refl) w) as K1.
  pose proof (config_lines_keeps plotData (file_lines (config_text scan n r port))
                config_unset (fun _ _ => eq_refl) w) as K2.
  pose proof (config_lines_keeps buttonStates (file_lines (config_text scan n r port))
                config_unset (fun _ _ => eq_refl) w) as K3.
  unfold same in K1, K2, K3.
  destruct (config_lines _ _ w) as [res w']. cbn in *. subst res. by exists w'.
Qed.

Lemma plain_value_False : plain_value "False".
Proof. by repeat split. Qed.

Lemma plain_value_4 : plain_value "4".
Proof. by repeat split. Qed.

Lemma configure_reads_settings_witness :
  exists w',
    configure (set_files {[ config_txt := config_text "False" 90 5 "4" ]} initial) =
      (Ok {| cfg_SCAN_COM_PORTS := None; cfg_MAX_DATA_TIME := Some 90;
             cfg_REFRESH_RATE := Some 5; cfg_COM_PORT := Some "COM4" |}, w').
Proof.
  destruct (configure_reads_settings "False" "4" 90 5
              (set_files {[ config_txt := config_text "False" 90 5 "4" ]} initial)
              plain_value_False plain_value_4) as (w' & H & _); [reflexivity|].
  exists w'. exact H.
Defined.

Lemma plain_value_True : plain_value "True".
Proof. by repeat split. Qed.

Lemma plain_value_None : plain_value "None".
Proof. by repeat split. Qed.

(** X21: without a configuration file, the program takes the default
    values (scanning on, 120 minutes, 2 seconds, no port) and writes them
    to [config.txt], leaving the other files alone; started again on that
    file, it reads the same three values back, but the port is then "COM3"
    and no longer [None]. *)
Theorem configure_first_start_then_restart (w : world) :
  files w !! config_txt = None ->
  exists w1 w2,
    configure w = (Ok config_default, w1) /\
    files w1 = <[config_txt := config_text "True" 120 2 "None"]> (files w) /\
    configure w1 =
      (Ok {| cfg_SCAN_COM_PORTS := Some true; cfg_MAX_DATA_TIME := Some 120;
             cfg_REFRESH_RATE := Some 2; cfg_COM_PORT := Some "COM3" |}, w2) /\
    files w2 = files w1.
Proof.
  intros Hnone.
  set (w1 := set_files (<[config_txt := config_text "True" 120 2 "None"]> (files w)) w).
  assert (H1 : configure w = (Ok config_default, w1)).
  { unfold configure. erewrite bind_ok by reflexivity. rewrite Hnone.
    unfold create_file, write_file, modify. cbv [mbind M_bind bind ret mret M_ret].
    f_equal. unfold w1, set_files. cbn. f_equal.
    repeat (rewrite ?lookup_insert_eq; rewrite ?insert_insert_eq).
    reflexivity. }
  assert (Hf1 : files w1 !! config_txt = Some (config_text "True" 120 2 "None"))
    by (unfold w1; cbn; by rewrite lookup_insert_eq).
  pose proof (config_lines_settings "True" "None" 120 2 w1
                plain_value_True plain_value_None) as H2.
  pose proof (config_lines_keeps files (file_lines (config_text "True" 120 2 "None"))
                config_unset (fun _ _ => eq_refl) w1) as K.
  unfold same in K. rewrite <- (configure_existing w1 _ Hf1) in H2, K.
  destruct (configure w1) as [res w2] eqn:E2. cbn in H2, K. subst res.
  exists w1, w2. split; [exact H1|]. split; [reflexivity|]. split; [exact E2 | exact K].
Qed.

Lemma configure_first_start_then_restart_witness :
  exists w1 w2,
    configure initial = (Ok config_default, w1) /\
    files w1 = <[config_txt := config_text "True" 120 2 "None"]> ∅ /\
    configure w1 =
      (Ok {| cfg_SCAN_COM_PORTS := Some true; cfg_MAX_DATA_TIME := Some 120;
             cfg_REFRESH_RATE := Some 2; cfg_COM_PORT := Some "COM3" |}, w2) /\
    files w2 = files w1.
Proof.
  apply (configure_first_start_then_restart initial). reflexivity.
Defined.

(** ** Fields [validateFileData] does not look at *)

Lemma valid_line_ignores_ends (fields : list string) (x y : string) :
  valid_line (<[0%nat := x]> (<[8%nat := y]> fields)) = valid_line fields.
Proof.
  unfold valid_line. rewrite !length_insert. f_equal.
  assert (Hidx : Forall (fun i => 1 <= i <= 7)%nat (seq 1 7))
    by (cbn; repeat constructor; lia).
  induction Hidx as [|i idx Hi _ IH]; [done|]. cbn [forallb].
  rewrite IH. by rewrite !list_lookup_insert_ne by lia.
Qed.

(** X22: the verdict of [validateFileData] depends neither on the first
    field of a line (the stamp) nor on its ninth (the state of stop): a
    line passes or fails as it does with any other text in these two
    places. *)
Theorem validateFileData_ignores_stamp_and_stop
    (fields : list string) (x y : string) (w w0 : world) :
  exists verdict data' data0,
    (validateFileData (PStr <$> fields) w).1 = Ok (verdict, data') /\
    (validateFileData (PStr <$> <[0%nat := x]> (<[8%nat := y]> fields)) w0).1 =
      Ok (verdict, data0).
Proof.
  destruct (validateFileData_result fields w) as [data' H].
  destruct (validateFileData_result (<[0%nat := x]> (<[8%nat := y]> fields)) w0)
    as [data0 H0].
  rewrite valid_line_ignores_ends in H0.
  by exists (valid_line fields), data', data0.
Qed.
